(** * Shartnoma document submissions: session verification and workflow

    A shallow embedding of the route handlers of the document-submissions
    API, in the revision with [GET], [POST] and [PUT] ([src/unnamed/part_000];
    [src/app/api/document-submissions/route.ts] holds the verifier and
    [POST] of earlier revisions), together with the platform functions they
    call: [URLSearchParams], [Array.prototype.sort], [crypto.createHmac],
    [Buffer.from(_, "hex")], [crypto.timingSafeEqual] and [JSON.parse].

    A string is its sequence of UTF-16 code units, a buffer a sequence of
    octets, a number a binary64 value.  A function that may throw returns
    an [outcome]; [try]/[catch] is [try_catch].  A handler is a function of
    the environment of one request (the configured bot token, the clock and
    the random suffix of the file name, and whether each call to Supabase
    fails) and of the world (the table and the bucket); it gives the
    response, the world after the request and the calls made. *)

From Stdlib Require Import Ascii String.
From Stdlib Require Import List ZArith NArith PArith Bool Lia.
From Stdlib Require Import Permutation Sorted SpecFloat.
Import ListNotations.
Local Open Scope N_scope.

(* ================================================================== *)
(** * JavaScript strings *)
(* ================================================================== *)

(** A JavaScript string is a sequence of UTF-16 code units; a byte buffer
    is a sequence of octets.  Both are numbers in [N]. *)
Definition code_unit := N.
Definition jsstring := list code_unit.
Definition octet := N.
Definition bytes := list octet.

(** String literals of the source, which are all ASCII. *)
Definition lit (s : string) : jsstring :=
  map N_of_ascii (list_ascii_of_string s).

(** [a === b] on strings. *)
Fixpoint str_eqb (a b : jsstring) : bool :=
  match a, b with
  | [], [] => true
  | x :: a', y :: b' => (x =? y) && str_eqb a' b'
  | _, _ => false
  end.

(** The relational comparison of strings: code unit by code unit, a proper
    prefix first. *)
Fixpoint str_compare (a b : jsstring) : comparison :=
  match a, b with
  | [], [] => Eq
  | [], _ :: _ => Lt
  | _ :: _, [] => Gt
  | x :: a', y :: b' =>
      match x ?= y with
      | Eq => str_compare a' b'
      | c => c
      end
  end.

Definition str_leb (a b : jsstring) : bool :=
  match str_compare a b with Gt => false | _ => true end.

(** [!s] is false exactly for the non-empty strings. *)
Definition truthy_str (s : jsstring) : bool :=
  match s with [] => false | _ :: _ => true end.

(** [Array.prototype.sort()] without a comparator on an array of strings:
    ascending in the order above.  The sort is stable; it is written here
    as an insertion sort. *)
Fixpoint insert_sorted (x : jsstring) (l : list jsstring) : list jsstring :=
  match l with
  | [] => [x]
  | y :: l' => if str_leb x y then x :: l else y :: insert_sorted x l'
  end.

Fixpoint sort (l : list jsstring) : list jsstring :=
  match l with
  | [] => []
  | x :: l' => insert_sorted x (sort l')
  end.

(** [Array.prototype.join(sep)]. *)
Fixpoint join (sep : jsstring) (l : list jsstring) : jsstring :=
  match l with
  | [] => []
  | [x] => x
  | x :: l' => x ++ sep ++ join sep l'
  end.

(* ================================================================== *)
(** * UTF-8 *)
(* ================================================================== *)

Definition is_lead_surrogate (c : N) : bool := (0xD800 <=? c) && (c <=? 0xDBFF).
Definition is_trail_surrogate (c : N) : bool := (0xDC00 <=? c) && (c <=? 0xDFFF).

(** The scalar values of a string: a surrogate pair is one code point, a
    lone surrogate becomes U+FFFD. *)
Fixpoint code_points (s : jsstring) : list N :=
  match s with
  | [] => []
  | c :: rest =>
      if is_lead_surrogate c then
        match rest with
        | d :: rest' =>
            if is_trail_surrogate d
            then (0x10000 + (c - 0xD800) * 0x400 + (d - 0xDC00)) :: code_points rest'
            else 0xFFFD :: code_points rest
        | [] => [0xFFFD]
        end
      else if is_trail_surrogate c then 0xFFFD :: code_points rest
      else c :: code_points rest
  end.

Definition utf8_of_code_point (cp : N) : bytes :=
  if cp <? 0x80 then [cp]
  else if cp <? 0x800 then [0xC0 + cp / 0x40; 0x80 + cp mod 0x40]
  else if cp <? 0x10000 then
    [0xE0 + cp / 0x1000; 0x80 + (cp / 0x40) mod 0x40; 0x80 + cp mod 0x40]
  else
    [0xF0 + cp / 0x40000; 0x80 + (cp / 0x1000) mod 0x40;
     0x80 + (cp / 0x40) mod 0x40; 0x80 + cp mod 0x40].

(** The bytes a string is hashed or parsed as. *)
Definition utf8_encode (s : jsstring) : bytes :=
  flat_map utf8_of_code_point (code_points s).

Definition utf16_of_code_point (cp : N) : jsstring :=
  if cp <? 0x10000 then [cp]
  else [0xD800 + (cp - 0x10000) / 0x400; 0xDC00 + (cp - 0x10000) mod 0x400].

(** The state of the UTF-8 decoder inside a multi-byte sequence. *)
Record utf8_pending := {
  u_code_point : N;
  u_needed : nat;
  u_lower : N;
  u_upper : N
}.

(** A byte read outside a sequence: what is emitted and the new state. *)
Definition utf8_lead (b : octet) : list N * option utf8_pending :=
  if b <=? 0x7F then ([b], None)
  else if (0xC2 <=? b) && (b <=? 0xDF) then
    ([], Some {| u_code_point := N.land b 0x1F; u_needed := 1;
                 u_lower := 0x80; u_upper := 0xBF |})
  else if (0xE0 <=? b) && (b <=? 0xEF) then
    ([], Some {| u_code_point := N.land b 0xF; u_needed := 2;
                 u_lower := if b =? 0xE0 then 0xA0 else 0x80;
                 u_upper := if b =? 0xED then 0x9F else 0xBF |})
  else if (0xF0 <=? b) && (b <=? 0xF4) then
    ([], Some {| u_code_point := N.land b 0x7; u_needed := 3;
                 u_lower := if b =? 0xF0 then 0x90 else 0x80;
                 u_upper := if b =? 0xF4 then 0x8F else 0xBF |})
  else ([0xFFFD], None).

(** UTF-8 decode without BOM, with replacement: an ill-formed sequence
    yields U+FFFD and the offending byte is read again as a lead byte. *)
Fixpoint utf8_decode_from (st : option utf8_pending) (bs : bytes) : list N :=
  match bs with
  | [] => match st with None => [] | Some _ => [0xFFFD] end
  | b :: bs' =>
      match st with
      | None =>
          let (out, st') := utf8_lead b in out ++ utf8_decode_from st' bs'
      | Some p =>
          if (u_lower p <=? b) && (b <=? u_upper p) then
            let cp := u_code_point p * 0x40 + N.land b 0x3F in
            match u_needed p with
            | S (S n) =>
                utf8_decode_from
                  (Some {| u_code_point := cp; u_needed := S n;
                           u_lower := 0x80; u_upper := 0xBF |}) bs'
            | _ => cp :: utf8_decode_from None bs'
            end
          else
            let (out, st') := utf8_lead b in
            0xFFFD :: out ++ utf8_decode_from st' bs'
      end
  end.

Definition utf8_decode (bs : bytes) : jsstring :=
  flat_map utf16_of_code_point (utf8_decode_from None bs).

(* ================================================================== *)
(** * URLSearchParams *)
(* ================================================================== *)

(** The value of a hexadecimal digit, of either case. *)
Definition hex_value (c : N) : option N :=
  if (0x30 <=? c) && (c <=? 0x39) then Some (c - 0x30)
  else if (0x61 <=? c) && (c <=? 0x66) then Some (c - 0x61 + 10)
  else if (0x41 <=? c) && (c <=? 0x46) then Some (c - 0x41 + 10)
  else None.

(** Percent-decoding: [%XY] with two hexadecimal digits is one byte, any
    other [%] stands for itself. *)
Fixpoint percent_decode (bs : bytes) : bytes :=
  match bs with
  | [] => []
  | b :: rest =>
      if b =? 0x25 then
        match rest with
        | h :: l :: rest' =>
            match hex_value h, hex_value l with
            | Some x, Some y => (x * 16 + y) :: percent_decode rest'
            | _, _ => b :: percent_decode rest
            end
        | _ => b :: percent_decode rest
        end
      else b :: percent_decode rest
  end.

(** The sequences between separators (here [&]). *)
Fixpoint split_on (sep : octet) (bs : bytes) : list bytes :=
  match bs with
  | [] => [[]]
  | b :: rest =>
      if b =? sep then [] :: split_on sep rest
      else match split_on sep rest with
           | [] => [[b]]
           | cur :: more => (b :: cur) :: more
           end
  end.

(** The bytes before the first [=], and those after it (none when there is
    no [=]). *)
Fixpoint name_bytes (bs : bytes) : bytes :=
  match bs with
  | [] => []
  | b :: rest => if b =? 0x3D then [] else b :: name_bytes rest
  end.

Fixpoint value_bytes (bs : bytes) : bytes :=
  match bs with
  | [] => []
  | b :: rest => if b =? 0x3D then rest else value_bytes rest
  end.

Definition plus_to_space (bs : bytes) : bytes :=
  map (fun b => if b =? 0x2B then 0x20 else b) bs.

Definition form_decode (bs : bytes) : jsstring :=
  utf8_decode (percent_decode (plus_to_space bs)).

Definition is_empty {A} (l : list A) : bool :=
  match l with [] => true | _ => false end.

(** The application/x-www-form-urlencoded parser on bytes: an ordered list
    of name/value pairs, duplicates kept, empty sequences skipped. *)
Definition parse_urlencoded (bs : bytes) : list (jsstring * jsstring) :=
  map (fun sq => (form_decode (name_bytes sq), form_decode (value_bytes sq)))
      (filter (fun sq => negb (is_empty sq)) (split_on 0x26 bs)).

(** [new URLSearchParams(init)] for a string: one leading [?] is dropped. *)
Definition URLSearchParams (init : jsstring) : list (jsstring * jsstring) :=
  parse_urlencoded
    (utf8_encode match init with
                 | c :: rest => if c =? 0x3F then rest else init
                 | [] => init
                 end).

(** [params.get(name)]: the value of the first pair with that name. *)
Fixpoint get (params : list (jsstring * jsstring)) (name : jsstring)
  : option jsstring :=
  match params with
  | [] => None
  | (k, v) :: rest => if str_eqb k name then Some v else get rest name
  end.

(* ================================================================== *)
(** * SHA-256 and HMAC ([crypto.createHmac("sha256", key)]) *)
(* ================================================================== *)

(** 32-bit words are numbers below [2^32]; sums wrap around. *)
Definition wrap32 (x : N) : N := x mod 0x100000000.
Definition add32 (x y : N) : N := wrap32 (x + y).
Definition rotr (n x : N) : N :=
  N.lor (N.shiftr x n) (wrap32 (N.shiftl x (32 - n))).

Definition Ch (x y z : N) : N :=
  N.lxor (N.land x y) (N.land (N.lxor x 0xFFFFFFFF) z).
Definition Maj (x y z : N) : N :=
  N.lxor (N.lxor (N.land x y) (N.land x z)) (N.land y z).
Definition bsig0 (x : N) : N := N.lxor (N.lxor (rotr 2 x) (rotr 13 x)) (rotr 22 x).
Definition bsig1 (x : N) : N := N.lxor (N.lxor (rotr 6 x) (rotr 11 x)) (rotr 25 x).
Definition ssig0 (x : N) : N := N.lxor (N.lxor (rotr 7 x) (rotr 18 x)) (N.shiftr x 3).
Definition ssig1 (x : N) : N := N.lxor (N.lxor (rotr 17 x) (rotr 19 x)) (N.shiftr x 10).

(** The integer [k]-th root of [n], found bit by bit from [bits] down. *)
Fixpoint integer_root (k n : N) (bits : nat) (r : N) : N :=
  match bits with
  | O => r
  | S b =>
      let c := r + N.shiftl 1 (N.of_nat b) in
      if c ^ k <=? n then integer_root k n b c else integer_root k n b r
  end.

(** The first 32 bits of the fractional part of the [k]-th root of [p]. *)
Definition root_fraction (k p : N) : N :=
  wrap32 (integer_root k (p * 2 ^ (32 * k)) 36 0).

Definition is_prime (n : N) : bool :=
  (2 <=? n)
  && forallb (fun d => negb (n mod d =? 0))
             (map N.of_nat (seq 2 (N.to_nat n - 2))).

(** The first sixty-four primes, 2 to 311. *)
Definition first_primes : list N :=
  filter is_prime (map N.of_nat (seq 2 310)).

(** The round constants: the fractions of the cube roots of the first
    sixty-four primes, from 428a2f98 to c67178f2. *)
Definition sha256_K : list N :=
  Eval vm_compute in map (root_fraction 3) first_primes.

(** The eight chaining words; initially the fractions of the square roots
    of the first eight primes. *)
Record sha_state := {
  h_a : N; h_b : N; h_c : N; h_d : N;
  h_e : N; h_f : N; h_g : N; h_h : N
}.

Definition sha256_init : sha_state :=
  {| h_a := 0x6a09e667; h_b := 0xbb67ae85; h_c := 0x3c6ef372; h_d := 0xa54ff53a;
     h_e := 0x510e527f; h_f := 0x9b05688c; h_g := 0x1f83d9ab; h_h := 0x5be0cd19 |}.

(** The words 16..63 of the message schedule; [win] holds the sixteen
    words before the next one, oldest first. *)
Fixpoint schedule (n : nat) (win : list N) : list N :=
  match n, win with
  | S n', w16 :: rest =>
      let w := add32 (add32 (ssig1 (nth 13 rest 0)) (nth 8 rest 0))
                     (add32 (ssig0 (nth 0 rest 0)) w16) in
      w :: schedule n' (rest ++ [w])
  | _, _ => []
  end.

Definition sha_round (s : sha_state) (kw : N * N) : sha_state :=
  let t1 := add32 (add32 (add32 (h_h s) (bsig1 (h_e s)))
                         (add32 (Ch (h_e s) (h_f s) (h_g s)) (fst kw)))
                  (snd kw) in
  let t2 := add32 (bsig0 (h_a s)) (Maj (h_a s) (h_b s) (h_c s)) in
  {| h_a := add32 t1 t2; h_b := h_a s; h_c := h_b s; h_d := h_c s;
     h_e := add32 (h_d s) t1; h_f := h_e s; h_g := h_f s; h_h := h_g s |}.

(** Big-endian words of a block of bytes. *)
Fixpoint words_of_bytes (bs : bytes) : list N :=
  match bs with
  | b0 :: b1 :: b2 :: b3 :: rest =>
      (((b0 * 256 + b1) * 256 + b2) * 256 + b3) :: words_of_bytes rest
  | _ => []
  end.

Definition bytes_of_word (x : N) : bytes :=
  [(x / 0x1000000) mod 256; (x / 0x10000) mod 256; (x / 0x100) mod 256; x mod 256].

Definition sha256_block (s : sha_state) (block : bytes) : sha_state :=
  let w := words_of_bytes block in
  let r := fold_left sha_round (combine sha256_K (w ++ schedule 48 w)) s in
  {| h_a := add32 (h_a s) (h_a r); h_b := add32 (h_b s) (h_b r);
     h_c := add32 (h_c s) (h_c r); h_d := add32 (h_d s) (h_d r);
     h_e := add32 (h_e s) (h_e r); h_f := add32 (h_f s) (h_f r);
     h_g := add32 (h_g s) (h_g r); h_h := add32 (h_h s) (h_h r) |}.

Fixpoint sha256_blocks (n : nat) (s : sha_state) (bs : bytes) : sha_state :=
  match n with
  | O => s
  | S n' => sha256_blocks n' (sha256_block s (firstn 64 bs)) (skipn 64 bs)
  end.

(** The message, a byte 0x80, zero bytes up to 56 modulo 64, and the bit
    length on eight bytes. *)
Definition sha256_pad (msg : bytes) : bytes :=
  let len := N.of_nat (length msg) in
  let bits := len * 8 in
  msg ++ [0x80] ++ repeat 0 (N.to_nat ((119 - len mod 64) mod 64))
      ++ bytes_of_word (bits / 0x100000000) ++ bytes_of_word bits.

Definition sha256 (msg : bytes) : bytes :=
  let p := sha256_pad msg in
  let s := sha256_blocks (Nat.div (length p) 64) sha256_init p in
  flat_map bytes_of_word
    [h_a s; h_b s; h_c s; h_d s; h_e s; h_f s; h_g s; h_h s].

(** HMAC with SHA-256: a key longer than a block is hashed first, then
    padded with zero bytes to the block size of 64. *)
Definition hmac_key_block (key : bytes) : bytes :=
  let k := if Nat.ltb 64 (length key) then sha256 key else key in
  k ++ repeat 0 (64 - length k)%nat.

Definition hmac_sha256 (key msg : bytes) : bytes :=
  let k := hmac_key_block key in
  sha256 (map (N.lxor 0x5c) k ++ sha256 (map (N.lxor 0x36) k ++ msg)).

(* ================================================================== *)
(** * Buffers and hexadecimal *)
(* ================================================================== *)

Definition hex_char (d : N) : code_unit :=
  if d <? 10 then 0x30 + d else 0x61 + (d - 10).

(** [digest("hex")] and [buf.toString("hex")]: two lowercase digits a byte. *)
Definition hex_encode (bs : bytes) : jsstring :=
  flat_map (fun b => [hex_char (b / 16); hex_char (b mod 16)]) bs.

(** The decoder of [Buffer.from(s, "hex")] looks a character up by the
    low byte of its code unit. *)
Definition low_byte (c : code_unit) : N := N.land c 0xFF.

(** [Buffer.from(s, "hex")]: the bytes of the leading pairs of hexadecimal
    digits, every character read by its low byte; decoding stops at the
    first pair that is not two digits, and a last odd character is
    dropped. *)
Fixpoint buffer_from_hex (s : jsstring) : bytes :=
  match s with
  | h :: l :: rest =>
      match hex_value (low_byte h), hex_value (low_byte l) with
      | Some x, Some y => (x * 16 + y) :: buffer_from_hex rest
      | _, _ => []
      end
  | _ => []
  end.

Fixpoint bytes_eqb (a b : bytes) : bool :=
  match a, b with
  | [], [] => true
  | x :: a', y :: b' => (x =? y) && bytes_eqb a' b'
  | _, _ => false
  end.

(** ** Exceptions *)

Inductive exn := RangeError | SyntaxError.

(** A computation that returns or throws. *)
Inductive outcome (A : Type) :=
| Return (a : A)
| Throw (e : exn).
Arguments Return {A} a.
Arguments Throw {A} e.

Definition bind {A B} (m : outcome A) (k : A -> outcome B) : outcome B :=
  match m with
  | Return a => k a
  | Throw e => Throw e
  end.

Notation "x <- m ;; k" := (bind m (fun x => k))
  (at level 61, m at next level, right associativity).

(** [try { body } catch (err) { handler }]. *)
Definition try_catch {A} (body : outcome A) (handler : exn -> A) : A :=
  match body with
  | Return a => a
  | Throw e => handler e
  end.

(** [crypto.timingSafeEqual(a, b)] throws a RangeError when the byte
    lengths differ. *)
Definition timingSafeEqual (a b : bytes) : outcome bool :=
  if Nat.eqb (length a) (length b) then Return (bytes_eqb a b)
  else Throw RangeError.

(* ================================================================== *)
(** * JSON.parse *)
(* ================================================================== *)

(** A JavaScript number is a binary64 floating-point value. *)
Definition number := spec_float.

(** The values [JSON.parse] builds. *)
#[local] Set Warnings "-register-all".
Inductive json :=
| JNull
| JBool (b : bool)
| JNumber (x : number)
| JString (s : jsstring)
| JArray (items : list json)
| JObject (members : list (jsstring * json)).

(** The result of a parsing step: a value and the unread input, a syntax
    error, or recursion budget exhausted. *)
Inductive presult (A : Type) :=
| POk (a : A) (rest : jsstring)
| PFail
| PFuel.
Arguments POk {A} a rest.
Arguments PFail {A}.
Arguments PFuel {A}.

Definition is_ws (c : N) : bool :=
  (c =? 0x20) || (c =? 0x09) || (c =? 0x0A) || (c =? 0x0D).

Fixpoint skip_ws (s : jsstring) : jsstring :=
  match s with
  | c :: rest => if is_ws c then skip_ws rest else s
  | [] => []
  end.

Definition is_digit (c : N) : bool := (0x30 <=? c) && (c <=? 0x39).

(** The leading decimal digits of the input, as digit values. *)
Fixpoint span_digits (s : jsstring) : list N * jsstring :=
  match s with
  | c :: rest =>
      if is_digit c
      then let (ds, r) := span_digits rest in ((c - 0x30) :: ds, r)
      else ([], s)
  | [] => ([], [])
  end.

Definition digits_value (ds : list N) : N :=
  fold_left (fun acc d => acc * 10 + d) ds 0.

(** The binary64 value nearest to [(-1)^neg * m * 10^e], ties to even. *)
Definition number_of_decimal (neg : bool) (m : N) (e : Z) : number :=
  match m with
  | N0 => S754_zero neg
  | Npos p =>
      match e with
      | Zneg k =>
          SFdiv 53 1024 (S754_finite neg p 0)
                        (S754_finite false (Pos.pow 10 k) 0)
      | _ => binary_round 53 1024 neg (p * Z.to_pos (10 ^ e)) 0
      end
  end.

(** The exponent part [e], [e+] or [e-] followed by digits, if present. *)
Definition parse_exponent (s : jsstring) : option (Z * jsstring) :=
  match s with
  | c :: rest =>
      if (c =? 0x65) || (c =? 0x45) then
        let '(neg, rest1) :=
          match rest with
          | sg :: r => if sg =? 0x2D then (true, r)
                       else if sg =? 0x2B then (false, r)
                       else (false, rest)
          | [] => (false, rest)
          end in
        match span_digits rest1 with
        | ([], _) => None
        | (ds, r) =>
            let v := Z.of_N (digits_value ds) in
            Some (if neg then Z.opp v else v, r)
        end
      else Some (0%Z, s)
  | [] => Some (0%Z, s)
  end.

(** A JSON number: an optional minus sign; an integer part, which is 0 or
    starts with a non-zero digit; an optional fraction, a point and at least
    one digit; an optional exponent, with at least one digit. *)
Definition parse_number (s : jsstring) : presult json :=
  let '(neg, s1) :=
    match s with
    | c :: rest => if c =? 0x2D then (true, rest) else (false, s)
    | [] => (false, s)
    end in
  match span_digits s1 with
  | ([], _) => PFail
  | (d :: ds, s2) =>
      if (d =? 0) && negb (is_empty ds) then PFail
      else
        let frac :=
          match s2 with
          | c :: rest =>
              if c =? 0x2E then
                match span_digits rest with
                | ([], _) => None
                | (fs, r) => Some (fs, r)
                end
              else Some ([], s2)
          | [] => Some ([], s2)
          end in
        match frac with
        | None => PFail
        | Some (fs, s3) =>
            match parse_exponent s3 with
            | None => PFail
            | Some (ex, s4) =>
                POk (JNumber
                       (number_of_decimal neg (digits_value ((d :: ds) ++ fs))
                          (ex - Z.of_nat (length fs))))
                    s4
            end
        end
  end.

(** The characters of a string literal after its opening quote. *)
Fixpoint parse_string_body (s : jsstring) : option (jsstring * jsstring) :=
  match s with
  | [] => None
  | c :: rest =>
      if c =? 0x22 then Some ([], rest)
      else if c <? 0x20 then None
      else if c =? 0x5C then
        match rest with
        | [] => None
        | e :: rest1 =>
            let simple (u : N) :=
              match parse_string_body rest1 with
              | Some (str, r) => Some (u :: str, r)
              | None => None
              end in
            if e =? 0x22 then simple 0x22
            else if e =? 0x5C then simple 0x5C
            else if e =? 0x2F then simple 0x2F
            else if e =? 0x62 then simple 0x08
            else if e =? 0x66 then simple 0x0C
            else if e =? 0x6E then simple 0x0A
            else if e =? 0x72 then simple 0x0D
            else if e =? 0x74 then simple 0x09
            else if e =? 0x75 then
              match rest1 with
              | h1 :: h2 :: h3 :: h4 :: rest2 =>
                  match hex_value h1, hex_value h2, hex_value h3, hex_value h4 with
                  | Some a, Some b, Some c', Some d =>
                      match parse_string_body rest2 with
                      | Some (str, r) =>
                          Some ((((a * 16 + b) * 16 + c') * 16 + d) :: str, r)
                      | None => None
                      end
                  | _, _, _, _ => None
                  end
              | _ => None
              end
            else None
        end
      else
        match parse_string_body rest with
        | Some (str, r) => Some (c :: str, r)
        | None => None
        end
  end.

(** A literal name ([true], [false], [null]) at the head of the input. *)
Fixpoint strip_prefix (p s : jsstring) : option jsstring :=
  match p, s with
  | [], _ => Some s
  | x :: p', y :: s' => if x =? y then strip_prefix p' s' else None
  | _ :: _, [] => None
  end.

Definition parse_literal (name : string) (v : json) (s : jsstring)
  : presult json :=
  match strip_prefix (lit name) s with
  | Some r => POk v r
  | None => PFail
  end.

(** Values, array elements after [[] and object members after [{].  The
    recursion budget [fuel] bounds the nesting of calls. *)
Fixpoint parse_value (fuel : nat) (s : jsstring) : presult json :=
  match fuel with
  | O => PFuel
  | S f =>
      match skip_ws s with
      | [] => PFail
      | c :: r =>
          if c =? 0x5B then
            match skip_ws r with
            | c' :: r' =>
                if c' =? 0x5D then POk (JArray []) r'
                else match parse_elements f r with
                     | POk vs r2 => POk (JArray vs) r2
                     | PFail => PFail
                     | PFuel => PFuel
                     end
            | [] => PFail
            end
          else if c =? 0x7B then
            match skip_ws r with
            | c' :: r' =>
                if c' =? 0x7D then POk (JObject []) r'
                else match parse_members f r with
                     | POk ms r2 => POk (JObject ms) r2
                     | PFail => PFail
                     | PFuel => PFuel
                     end
            | [] => PFail
            end
          else if c =? 0x22 then
            match parse_string_body r with
            | Some (str, r') => POk (JString str) r'
            | None => PFail
            end
          else if c =? 0x74 then parse_literal "true" (JBool true) (c :: r)
          else if c =? 0x66 then parse_literal "false" (JBool false) (c :: r)
          else if c =? 0x6E then parse_literal "null" JNull (c :: r)
          else parse_number (c :: r)
      end
  end

with parse_elements (fuel : nat) (s : jsstring) : presult (list json) :=
  match fuel with
  | O => PFuel
  | S f =>
      match parse_value f s with
      | POk v r =>
          match skip_ws r with
          | c :: r' =>
              if c =? 0x2C then
                match parse_elements f r' with
                | POk vs r2 => POk (v :: vs) r2
                | PFail => PFail
                | PFuel => PFuel
                end
              else if c =? 0x5D then POk [v] r'
              else PFail
          | [] => PFail
          end
      | PFail => PFail
      | PFuel => PFuel
      end
  end

with parse_members (fuel : nat) (s : jsstring)
  : presult (list (jsstring * json)) :=
  match fuel with
  | O => PFuel
  | S f =>
      match skip_ws s with
      | q :: r0 =>
          if q =? 0x22 then
            match parse_string_body r0 with
            | Some (key, r1) =>
                match skip_ws r1 with
                | col :: r2 =>
                    if col =? 0x3A then
                      match parse_value f r2 with
                      | POk v r3 =>
                          match skip_ws r3 with
                          | c :: r4 =>
                              if c =? 0x2C then
                                match parse_members f r4 with
                                | POk ms r5 => POk ((key, v) :: ms) r5
                                | PFail => PFail
                                | PFuel => PFuel
                                end
                              else if c =? 0x7D then POk [(key, v)] r4
                              else PFail
                          | [] => PFail
                          end
                      | PFail => PFail
                      | PFuel => PFuel
                      end
                    else PFail
                | [] => PFail
                end
            | None => PFail
            end
          else PFail
      | [] => PFail
      end
  end.

(** [JSON.parse(text)]: one value between optional white space; anything
    else throws a SyntaxError. *)
Definition JSON_parse (text : jsstring) : outcome json :=
  match parse_value (2 * length text + 2) text with
  | POk v rest => if is_empty (skip_ws rest) then Return v else Throw SyntaxError
  | _ => Throw SyntaxError
  end.

(** The property [name] of a parsed object; of duplicate keys the last one
    counts.  [None] is [undefined]. *)
Fixpoint get_property (members : list (jsstring * json)) (name : jsstring)
  : option json :=
  match members with
  | [] => None
  | (k, v) :: rest =>
      match get_property rest name with
      | Some v' => Some v'
      | None => if str_eqb k name then Some v else None
      end
  end.

(** [parsedUser?.id]: [undefined] for [null]; primitives and arrays have no
    property [id]. *)
Definition optional_id (parsedUser : json) : option json :=
  match parsedUser with
  | JObject members => get_property members (lit "id")
  | _ => None
  end.

(** [!x] for a number: false for zeros and NaN only. *)
Definition truthy_number (x : number) : bool :=
  match x with
  | S754_zero _ | S754_nan => false
  | _ => true
  end.

Definition number_eqb (x y : number) : bool :=
  match x, y with
  | S754_zero s, S754_zero s' => Bool.eqb s s'
  | S754_infinity s, S754_infinity s' => Bool.eqb s s'
  | S754_finite s m e, S754_finite s' m' e' =>
      Bool.eqb s s' && Pos.eqb m m' && Z.eqb e e'
  | _, _ => false
  end.

(* ================================================================== *)
(** * validateTelegramInitData *)
(* ================================================================== *)

(** The object [{ valid, userId }] the validator returns. *)
Record validation := {
  valid : bool;
  userId : option number
}.

(** The three results of the verifier. *)
Definition Invalid : validation := {| valid := false; userId := None |}.
Definition ValidNoIdentity : validation := {| valid := true; userId := None |}.
Definition ValidWithIdentity (id : number) : validation :=
  {| valid := true; userId := Some id |}.

Definition newline : jsstring := [0x0A].

(** The array [pairs]: [key=value] for every pair whose key is not [hash],
    in the order of the parameters. *)
Definition check_pairs (params : list (jsstring * jsstring)) : list jsstring :=
  map (fun kv => fst kv ++ lit "=" ++ snd kv)
      (filter (fun kv => negb (str_eqb (fst kv) (lit "hash"))) params).

Definition dataCheckString (params : list (jsstring * jsstring)) : jsstring :=
  join newline (sort (check_pairs params)).

(** [secret]: the key derived from the bot token. *)
Definition webAppSecret (botToken : jsstring) : bytes :=
  hmac_sha256 (utf8_encode (lit "WebAppData")) (utf8_encode botToken).

(** [computed]: the signature of a check-string, in lowercase hexadecimal. *)
Definition computedHash (botToken check : jsstring) : jsstring :=
  hex_encode (hmac_sha256 (webAppSecret botToken) (utf8_encode check)).

(** The comparison of [computed] with [hash]; the right operand of [&&] is
    evaluated only when the lengths agree. *)
Definition hashMatches (computed hash : jsstring) : outcome bool :=
  if Nat.eqb (length computed) (length hash)
  then timingSafeEqual (buffer_from_hex computed) (buffer_from_hex hash)
  else Return false.

(** The identity read from the [user] parameter once the hash matched. *)
Definition identityOf (params : list (jsstring * jsstring)) : outcome validation :=
  match get params (lit "user") with
  | None => Return ValidNoIdentity
  | Some userParam =>
      if negb (truthy_str userParam) then Return ValidNoIdentity
      else
        parsedUser <- JSON_parse userParam ;;
        Return {| valid := true;
                  userId := match optional_id parsedUser with
                            | Some (JNumber id) => Some id
                            | _ => None
                            end |}
  end.

(** The body of the [try] block. *)
Definition validateBody (initData botToken : jsstring) : outcome validation :=
  let params := URLSearchParams initData in
  match get params (lit "hash") with
  | None => Return Invalid
  | Some hash =>
      if negb (truthy_str hash) then Return Invalid
      else
        let computed := computedHash botToken (dataCheckString params) in
        ok <- hashMatches computed hash ;;
        if negb ok then Return Invalid
        else identityOf params
  end.

Definition validateTelegramInitData (initData botToken : jsstring) : validation :=
  try_catch (validateBody initData botToken) (fun _ => Invalid).

(* ================================================================== *)
(** * The collaborators: table, bucket, environment *)
(* ================================================================== *)

(** A row of [document_submissions]. *)
Record Row := {
  first_name : jsstring;
  last_name : jsstring;
  university : jsstring;
  program : jsstring;
  doc_path : option jsstring;
  telegram_chat_id : option number
}.

(** A [File] of a multipart form. *)
Record File := {
  file_name : jsstring;
  file_type : jsstring;
  file_bytes : bytes
}.

(** The calls made to the Supabase client. *)
Inductive call :=
| CallSelect (id : number)
| CallUpload (path : jsstring) (f : File) (contentType : jsstring)
| CallInsert (r : Row)
| CallUpdate (id : number) (firstName lastName university program : jsstring)
             (docPath : option jsstring).

(** The state outside the handlers: the table and the storage bucket. *)
Record World := {
  table : list Row;
  bucket : list (jsstring * File)
}.

(** The [error] object of a failed call; the code [23505] of a violated
    uniqueness constraint is told apart from the others. *)
Inductive service_error :=
| UniqueViolation
| OtherError.

(** What one request finds around it: the configured bot token, the clock
    and random suffix for the file name, and whether each collaborator call
    fails. *)
Record Env := {
  TELEGRAM_BOT_TOKEN : option jsstring;
  date_now : N;
  random_suffix : jsstring;
  select_error : option service_error;
  upload_error : option service_error;
  upload_path : option jsstring;
  insert_error : option service_error;
  update_error : option service_error
}.

(** The [{ data, error }] object of a Supabase call. *)
Record reply (A : Type) := {
  data : option A;
  error : option service_error
}.
Arguments data {A} r.
Arguments error {A} r.

(** ** Responses *)

Record Projection := {
  p_firstName : jsstring;
  p_lastName : jsstring;
  p_university : jsstring;
  p_program : jsstring;
  p_docPath : option jsstring
}.

Inductive body :=
| Message (message : string)
| ExistsFalse
| ExistsWith (found : bool) (submission : option Projection)
| OkTrue
| OkDocPath (docPath : option jsstring).

Record Response := {
  status : N;
  payload : body
}.

(** [NextResponse.json(body)] and [NextResponse.json(body, { status })]. *)
Definition json_response (b : body) : Response := {| status := 200; payload := b |}.
Definition json_status (b : body) (st : N) : Response := {| status := st; payload := b |}.

(** ** Handlers: state passing with early return *)

Inductive step (A : Type) :=
| Continue (a : A)
| Respond (r : Response).
Arguments Continue {A} a.
Arguments Respond {A} r.

(** A handler step reads the world and gives a value or the response
    returned, the world after it, and the collaborator calls it made. *)
Definition handler (A : Type) := World -> step A * World * list call.

Definition pure {A} (a : A) : handler A := fun w => (Continue a, w, []).
Definition respond {A} (r : Response) : handler A := fun w => (Respond r, w, []).

Definition hbind {A B} (m : handler A) (k : A -> handler B) : handler B :=
  fun w =>
    match m w with
    | (Continue a, w1, t1) =>
        match k a w1 with
        | (s, w2, t2) => (s, w2, t1 ++ t2)
        end
    | (Respond r, w1, t1) => (Respond r, w1, t1)
    end.

Notation "x <~ m ;; k" := (hbind m (fun x => k))
  (at level 61, m at next level, right associativity).
Notation "m ;;; k" := (hbind m (fun _ => k))
  (at level 61, right associativity).

(** [if (c) return r]. *)
Definition return_if (c : bool) (r : Response) : handler unit :=
  if c then respond r else pure tt.

Definition is_error (o : option service_error) : bool :=
  match o with Some _ => true | None => false end.

(** The response, the world after the request and the calls made. *)
Definition run (h : handler Response) (w : World) : Response * World * list call :=
  match h w with
  | (Continue r, w', t) => (r, w', t)
  | (Respond r, w', t) => (r, w', t)
  end.

Definition response_of (x : Response * World * list call) : Response := fst (fst x).
Definition world_after (x : Response * World * list call) : World := snd (fst x).
Definition calls_made (x : Response * World * list call) : list call := snd x.

Definition has_chat_id (id : number) (r : Row) : bool :=
  match telegram_chat_id r with
  | Some x => number_eqb x id
  | None => false
  end.

(** [.select(..).eq("telegram_chat_id", id).limit(1)]. *)
Definition db_select (e : Env) (id : number) : handler (reply (list Row)) :=
  fun w =>
    (Continue
       match select_error e with
       | Some err => {| data := None; error := Some err |}
       | None => {| data := Some (firstn 1 (filter (has_chat_id id) (table w)));
                    error := None |}
       end,
     w, [CallSelect id]).

(** [storage.from("shartnoma_zip").upload(path, file, { contentType,
    upsert: false })]: the reply carries the path the store reports. *)
Definition storage_upload (e : Env) (path : jsstring) (f : File)
           (contentType : jsstring) : handler (reply jsstring) :=
  fun w =>
    match upload_error e with
    | Some err =>
        (Continue {| data := None; error := Some err |}, w,
         [CallUpload path f contentType])
    | None =>
        (Continue {| data := upload_path e; error := None |},
         {| table := table w; bucket := bucket w ++ [(path, f)] |},
         [CallUpload path f contentType])
    end.

(** [.insert(row)]. *)
Definition db_insert (e : Env) (r : Row) : handler (option service_error) :=
  fun w =>
    match insert_error e with
    | Some err => (Continue (Some err), w, [CallInsert r])
    | None =>
        (Continue None,
         {| table := table w ++ [r]; bucket := bucket w |}, [CallInsert r])
    end.

(** The fields [.update(fields)] writes into a row. *)
Definition updated (firstName lastName university' program' : jsstring)
           (docPath : option jsstring) (r : Row) : Row :=
  {| first_name := firstName; last_name := lastName;
     university := university'; program := program';
     doc_path := docPath; telegram_chat_id := telegram_chat_id r |}.

Definition apply_update (id : number)
           (firstName lastName university' program' : jsstring)
           (docPath : option jsstring) (t : list Row) : list Row :=
  map (fun r => if has_chat_id id r
                then updated firstName lastName university' program' docPath r
                else r) t.

(** [.update(fields).eq("telegram_chat_id", id)]: every row of that
    identity takes the new fields. *)
Definition db_update (e : Env) (id : number)
           (firstName lastName university' program' : jsstring)
           (docPath : option jsstring) : handler (option service_error) :=
  fun w =>
    let c := CallUpdate id firstName lastName university' program' docPath in
    match update_error e with
    | Some err => (Continue (Some err), w, [c])
    | None =>
        (Continue None,
         {| table := apply_update id firstName lastName university' program'
                       docPath (table w);
            bucket := bucket w |}, [c])
    end.

(* ================================================================== *)
(** * Requests *)
(* ================================================================== *)

Inductive form_value :=
| FormString (s : jsstring)
| FormFile (f : File).

Definition FormData := list (jsstring * form_value).

(** A request: the [initData] query parameter, the [x-telegram-init]
    header, and what [request.formData()] gives, which throws when the body
    is not a form. *)
Record Request := {
  query_initData : option jsstring;
  header_x_telegram_init : option jsstring;
  formData : option FormData
}.

(** [formData.get(name)]: the first entry of that name. *)
Fixpoint form_get (fd : FormData) (name : jsstring) : option form_value :=
  match fd with
  | [] => None
  | (k, v) :: rest => if str_eqb k name then Some v else form_get rest name
  end.

(** [formData.get(name)?.toString()]. *)
Definition form_string (fd : FormData) (name : string) : option jsstring :=
  match form_get fd (lit name) with
  | Some (FormString s) => Some s
  | Some (FormFile _) => Some (lit "[object File]")
  | None => None
  end.

(** A string that is neither [null], [undefined] nor empty. *)
Definition truthy (o : option jsstring) : option jsstring :=
  match o with
  | Some s => if truthy_str s then Some s else None
  | None => None
  end.

(** [!userId] is false exactly for a number other than zero and NaN. *)
Definition truthy_id (o : option number) : option number :=
  match o with
  | Some x => if truthy_number x then Some x else None
  | None => None
  end.

(** [a || b] on strings that may be [null]. *)
Definition or_else (a b : option jsstring) : option jsstring :=
  match truthy a with
  | Some s => Some s
  | None => b
  end.

Definition getInitDataFromRequest (request : Request) : option jsstring :=
  or_else (or_else (query_initData request) (header_x_telegram_init request)) None.

(** ** File names *)

Definition is_safe_char (c : N) : bool :=
  ((0x61 <=? c) && (c <=? 0x7A)) || ((0x41 <=? c) && (c <=? 0x5A))
  || ((0x30 <=? c) && (c <=? 0x39)) || (c =? 0x2E) || (c =? 0x2D).

(** [name.replace(/[^a-zA-Z0-9.-]/g, "_")]. *)
Definition safeFileName (name : jsstring) : jsstring :=
  map (fun c => if is_safe_char c then c else 0x5F) name.

Fixpoint uint_digits (u : Decimal.uint) : jsstring :=
  match u with
  | Decimal.Nil => []
  | Decimal.D0 u' => 0x30 :: uint_digits u'
  | Decimal.D1 u' => 0x31 :: uint_digits u'
  | Decimal.D2 u' => 0x32 :: uint_digits u'
  | Decimal.D3 u' => 0x33 :: uint_digits u'
  | Decimal.D4 u' => 0x34 :: uint_digits u'
  | Decimal.D5 u' => 0x35 :: uint_digits u'
  | Decimal.D6 u' => 0x36 :: uint_digits u'
  | Decimal.D7 u' => 0x37 :: uint_digits u'
  | Decimal.D8 u' => 0x38 :: uint_digits u'
  | Decimal.D9 u' => 0x39 :: uint_digits u'
  end.

(** [`documents/${Date.now()}-${Math.random().toString(36).slice(2, 8)}-${safeFileName}`]. *)
Definition filePath (e : Env) (document : File) : jsstring :=
  lit "documents/" ++ uint_digits (N.to_uint (date_now e)) ++ lit "-"
    ++ random_suffix e ++ lit "-" ++ safeFileName (file_name document).

(** [document.type || "application/zip"]. *)
Definition contentTypeOf (document : File) : jsstring :=
  if truthy_str (file_type document) then file_type document
  else lit "application/zip".

(** The upload shared by [POST] and [PUT]: the stored path, or the given
    failure response. *)
Definition upload_document (e : Env) (document : File) (failure : Response)
  : handler jsstring :=
  up <~ storage_upload e (filePath e document) document (contentTypeOf document) ;;
  match (if is_error (error up) then None else truthy (data up)) with
  | Some path => pure path
  | None => respond failure
  end.

(* ================================================================== *)
(** * The route handlers *)
(* ================================================================== *)

Definition has_rows (r : reply (list Row)) : bool :=
  match data r with
  | Some (_ :: _) => true
  | _ => false
  end.

Definition project (r : Row) : Projection :=
  {| p_firstName := first_name r; p_lastName := last_name r;
     p_university := university r; p_program := program r;
     p_docPath := doc_path r |}.

(** [GET]: fetch the existing submission of the caller. *)
Definition GET (e : Env) (request : Request) : handler Response :=
  match truthy (getInitDataFromRequest request), truthy (TELEGRAM_BOT_TOKEN e) with
  | Some initData, Some botToken =>
      let v := validateTelegramInitData initData botToken in
      match (if valid v then truthy_id (userId v) else None) with
      | None => respond (json_response ExistsFalse)
      | Some id =>
          sel <~ db_select e id ;;
          return_if (is_error (error sel))
            (json_status (Message "Tekshirishda xatolik") 500) ;;;
          pure (json_response
                  (ExistsWith (has_rows sel)
                     match data sel with
                     | Some (r :: _) => Some (project r)
                     | _ => None
                     end))
      end
  | _, _ => respond (json_response ExistsFalse)
  end.

(** The identity check of [POST]: nothing is verified unless both a token
    and the bot token are there. *)
Definition resolveIdentity (e : Env) (initData : option jsstring)
  : handler (option number) :=
  match truthy initData, truthy (TELEGRAM_BOT_TOKEN e) with
  | Some d, Some botToken =>
      let v := validateTelegramInitData d botToken in
      return_if (negb (valid v))
        (json_status (Message "Telegram ma'lumotlari tasdiqlanmadi") 401) ;;;
      match truthy_id (userId v) with
      | None =>
          respond (json_status (Message "Telegram foydalanuvchisi aniqlanmadi") 400)
      | Some id =>
          existing <~ db_select e id ;;
          return_if (is_error (error existing))
            (json_status (Message "Tekshirishda xatolik") 500) ;;;
          return_if (has_rows existing)
            (json_status (Message "Siz allaqachon topshirdingiz") 409) ;;;
          pure (Some id)
      end
  | _, _ => pure None
  end.

(** The second half of [POST]: upload the document, insert the row. *)
Definition storeSubmission (e : Env)
           (firstName lastName university' program' : jsstring)
           (document : File) (telegramUserId : option number)
  : handler Response :=
  path <~ upload_document e document
            (json_status (Message "Failed to upload document") 500) ;;
  err <~ db_insert e
           {| first_name := firstName; last_name := lastName;
              university := university'; program := program';
              doc_path := Some path;
              telegram_chat_id := telegramUserId |} ;;
  return_if (is_error err)
    (json_status (Message "Failed to save submission") 500) ;;;
  pure (json_response OkTrue).

(** [POST]: create a submission. *)
Definition POST (e : Env) (request : Request) : handler Response :=
  match formData request with
  | None => respond (json_status (Message "Unexpected error") 500)
  | Some fd =>
      match truthy (form_string fd "firstName"),
            truthy (form_string fd "lastName"),
            truthy (form_string fd "university"),
            truthy (form_string fd "program"),
            form_get fd (lit "document") with
      | Some firstName, Some lastName, Some university', Some program',
        Some (FormFile document) =>
          telegramUserId <~ resolveIdentity e (form_string fd "initData") ;;
          storeSubmission e firstName lastName university' program'
            document telegramUserId
      | _, _, _, _, _ =>
          respond (json_status (Message "Missing required fields") 400)
      end
  end.

(** The part of [PUT] after the row was found: upload a new document if
    there is one, update the row. *)
Definition reviseSubmission (e : Env) (id : number)
           (firstName lastName university' program' : jsstring)
           (document : option form_value) (row : Row) : handler Response :=
  docPath <~
    match document with
    | Some (FormFile file) =>
        path <~ upload_document e file
                  (json_status (Message "Faylni yuklashda xatolik") 500) ;;
        pure (Some path)
    | _ => pure (doc_path row)
    end ;;
  err <~ db_update e id firstName lastName university' program' docPath ;;
  return_if (is_error err)
    (json_status (Message "Yangilashda xatolik") 500) ;;;
  pure (json_response (OkDocPath docPath)).

(** [PUT]: revise the submission of the caller. *)
Definition PUT (e : Env) (request : Request) : handler Response :=
  match formData request with
  | None => respond (json_status (Message "Unexpected error") 500)
  | Some fd =>
      match truthy (form_string fd "initData"), truthy (TELEGRAM_BOT_TOKEN e) with
      | Some initData, Some botToken =>
          let v := validateTelegramInitData initData botToken in
          match (if valid v then truthy_id (userId v) else None) with
          | None =>
              respond (json_status (Message "Telegram ma'lumotlari tasdiqlanmadi") 401)
          | Some id =>
              match truthy (form_string fd "firstName"),
                    truthy (form_string fd "lastName"),
                    truthy (form_string fd "university"),
                    truthy (form_string fd "program") with
              | Some firstName, Some lastName, Some university', Some program' =>
                  existing <~ db_select e id ;;
                  return_if (is_error (error existing))
                    (json_status (Message "Tekshirishda xatolik") 500) ;;;
                  match data existing with
                  | Some (row :: _) =>
                      reviseSubmission e id firstName lastName university'
                        program' (form_get fd (lit "document")) row
                  | _ => respond (json_status (Message "Topilmadi") 404)
                  end
              | _, _, _, _ =>
                  respond (json_status (Message "Majburiy maydonlar to'ldirilmagan") 400)
              end
          end
      | _, _ => respond (json_status (Message "Telegram ma'lumotlari kerak") 400)
      end
  end.

(* ================================================================== *)
(** * Predicates of the statements *)
(* ================================================================== *)

Definition is_lower_hex (c : N) : bool :=
  ((0x30 <=? c) && (c <=? 0x39)) || ((0x61 <=? c) && (c <=? 0x66)).

(** A string of lowercase hexadecimal digits; a buffer of octets. *)
Definition lower_hex (s : jsstring) : Prop :=
  Forall (fun c => is_lower_hex c = true) s.
Definition octets (bs : bytes) : Prop := Forall (fun b => b < 256) bs.

(** The rows of an identity. *)
Definition rows_of (id : number) (t : list Row) : list Row :=
  filter (has_chat_id id) t.

(** At most one row for every identity key. *)
Definition at_most_one_per_identity (t : list Row) : Prop :=
  forall id, (length (rows_of id t) <= 1)%nat.

(** A form that passes the field check of [POST]. *)
Definition create_fields (fd : FormData)
           (firstName lastName university' program' : jsstring)
           (document : File) : Prop :=
  truthy (form_string fd "firstName") = Some firstName
  /\ truthy (form_string fd "lastName") = Some lastName
  /\ truthy (form_string fd "university") = Some university'
  /\ truthy (form_string fd "program") = Some program'
  /\ form_get fd (lit "document") = Some (FormFile document).

(** The text fields [PUT] requires. *)
Definition update_fields (fd : FormData)
           (firstName lastName university' program' : jsstring) : Prop :=
  truthy (form_string fd "firstName") = Some firstName
  /\ truthy (form_string fd "lastName") = Some lastName
  /\ truthy (form_string fd "university") = Some university'
  /\ truthy (form_string fd "program") = Some program'.

(** The token of the form verifies under the configured bot token and
    carries the identity [id]. *)
Definition resolves (e : Env) (fd : FormData) (id : number) : Prop :=
  exists initData botToken,
    truthy (form_string fd "initData") = Some initData
    /\ truthy (TELEGRAM_BOT_TOKEN e) = Some botToken
    /\ validateTelegramInitData initData botToken = ValidWithIdentity id
    /\ truthy_number id = true.

(** The response of the field check of [POST]. *)
Definition missing_fields_response : Response :=
  json_status (Message "Missing required fields") 400.

(** Every way [POST] can go: the response, the world after it and the
    calls made. *)
Inductive POST_outcome (e : Env) (r : Request) (w : World)
  : Response * World * list call -> Prop :=
| post_no_form :
    formData r = None ->
    POST_outcome e r w (json_status (Message "Unexpected error") 500, w, [])
| post_missing fd :
    formData r = Some fd ->
    (forall fn ln un pr doc, ~ create_fields fd fn ln un pr doc) ->
    POST_outcome e r w (missing_fields_response, w, [])
| post_rejected fd fn ln un pr doc resp t :
    formData r = Some fd -> create_fields fd fn ln un pr doc ->
    resolveIdentity e (form_string fd "initData") w = (Respond resp, w, t) ->
    POST_outcome e r w (resp, w, t)
| post_stored fd fn ln un pr doc oid t s w' t' :
    formData r = Some fd -> create_fields fd fn ln un pr doc ->
    resolveIdentity e (form_string fd "initData") w = (Continue oid, w, t) ->
    storeSubmission e fn ln un pr doc oid w = (s, w', t') ->
    POST_outcome e r w
      (match s with Continue x => x | Respond x => x end, w', t ++ t').

(* ================================================================== *)
(** * The example of the specification and sample data *)
(* ================================================================== *)

(** The check-string of the example: [a=1], a newline, [b=2]. *)
Definition example_check : jsstring := lit "a=1" ++ newline ++ lit "b=2".

(** The hash of the example, following the words of the specification:
    the lowercase hexadecimal HMAC-SHA256, keyed by
    HMAC-SHA256(key = "WebAppData", message = SECRET), of the check-string. *)
Definition example_hash (SECRET : jsstring) : jsstring :=
  hex_encode
    (hmac_sha256
       (hmac_sha256 (utf8_encode (lit "WebAppData")) (utf8_encode SECRET))
       (utf8_encode example_check)).

(** The token [a=1&b=2&hash=<H>] of the example. *)
Definition example_token (SECRET : jsstring) : jsstring :=
  lit "a=1&b=2&hash=" ++ example_hash SECRET.

Definition sample_bot_token : jsstring := lit "12345:TEST".
Definition other_bot_token : jsstring := lit "54321:OTHER".

(** A token signed under the sample bot token, for the user 42. *)
Definition token_42 : jsstring :=
  lit "user=%7B%22id%22%3A42%7D&auth_date=1&hash=a3406e52fa7d1756d33fff4573b19c6a2831a04e474e5ecfc32c7df0067679eb".

Definition id_42 : number := S754_finite false 5910974510923776 (-47).

(** Two tokens signed under the sample bot token with the same two pairs
    in both orders. *)
Definition token_a_b : jsstring :=
  lit "a=1&b=2&hash=a5db7deec1e49e3005470a7ac968360287e99e785f679f406722510d84341f88".
Definition token_b_a : jsstring :=
  lit "b=2&a=1&hash=a5db7deec1e49e3005470a7ac968360287e99e785f679f406722510d84341f88".

(** Two tokens with the same pairs in different orders and the hash of
    their common check-string; the key [user] occurs twice, once with the
    value [x] and once with the value [{}]. *)
Definition token_user_x_first : jsstring :=
  lit "user=x&user=%7B%7D&hash=59cf8d5293f119a8e9f8de8e69a7dcd0c8ede3dcab502c49a9a4ec2b9581a352".
Definition token_user_x_last : jsstring :=
  lit "user=%7B%7D&user=x&hash=59cf8d5293f119a8e9f8de8e69a7dcd0c8ede3dcab502c49a9a4ec2b9581a352".

(** A correctly signed token whose [user] field, [x], is not JSON. *)
Definition token_bad_user : jsstring :=
  lit "user=x&hash=c098c579ce45ebfc2c4fcfaef0ee3d06d4bfc47ceec640c7532e04fb6fef2c70".

(** A correctly signed token whose [user] field is [{"id":1.5}]. *)
Definition token_fractional_id : jsstring :=
  lit "user=%7B%22id%22%3A1.5%7D&hash=5f3c3b7bac676dbc6af16d4270845ef3b045929417070dea767a67b2ed33609d".

Definition id_one_and_a_half : number := S754_finite false 6755399441055744 (-52).

(** A token without a [hash] field. *)
Definition token_unsigned : jsstring := lit "user=x&auth_date=1".

Definition sample_file : File :=
  {| file_name := lit "My Report (v2)!.zip";
     file_type := lit "application/zip";
     file_bytes := [0x50; 0x4B; 0x05; 0x06] |}.

Definition empty_file : File :=
  {| file_name := lit "empty.zip"; file_type := []; file_bytes := [] |}.

Definition sample_form (document : option File) (initData : option jsstring)
  : FormData :=
  [(lit "firstName", FormString (lit "Ali"));
   (lit "lastName", FormString (lit "Valiyev"));
   (lit "university", FormString (lit "TATU"));
   (lit "program", FormString (lit "masters"))]
  ++ match document with
     | Some f => [(lit "document", FormFile f)]
     | None => []
     end
  ++ match initData with
     | Some d => [(lit "initData", FormString d)]
     | None => []
     end.

Definition sample_request (document : option File) (initData : option jsstring)
  : Request :=
  {| query_initData := None; header_x_telegram_init := None;
     formData := Some (sample_form document initData) |}.

(** A [GET] request with the token in the query string. *)
Definition lookup_request (initData : option jsstring) : Request :=
  {| query_initData := initData; header_x_telegram_init := None;
     formData := None |}.

Definition sample_path : jsstring :=
  lit "documents/1700000000000-k3x9qz-My_Report__v2__.zip".

(** An environment with the given bot token, in which the upload and the
    update succeed and the select and the insert fail as given. *)
Definition sample_env (botToken : option jsstring)
           (selectError insertError : option service_error) : Env :=
  {| TELEGRAM_BOT_TOKEN := botToken;
     date_now := 1700000000000;
     random_suffix := lit "k3x9qz";
     select_error := selectError;
     upload_error := None;
     upload_path := Some sample_path;
     insert_error := insertError;
     update_error := None |}.

Definition empty_world : World := {| table := []; bucket := [] |}.

(** The row the sample request creates. *)
Definition sample_row (telegramUserId : option number) : Row :=
  {| first_name := lit "Ali"; last_name := lit "Valiyev";
     university := lit "TATU"; program := lit "masters";
     doc_path := Some sample_path; telegram_chat_id := telegramUserId |}.

(** A row stored earlier for the user 42. *)
Definition stored_row : Row :=
  {| first_name := lit "Ali"; last_name := lit "Vali";
     university := lit "TDIU"; program := lit "bachelors";
     doc_path := Some (lit "documents/1690000000000-abc123-old.zip");
     telegram_chat_id := Some id_42 |}.

(* ================================================================== *)
(** * Earlier revisions of [POST] *)
(* ================================================================== *)

(** [src/app/api/document-submissions/route.ts] holds two earlier
    revisions of the file.  Their [validateTelegramInitData], [safeFileName]
    and [filePath] are those above, character for character. *)

Module Revision1.

(** The first revision verifies no session; the row it inserts names no
    [telegram_chat_id], which stays null. *)
Definition POST (e : Env) (request : Request) : handler Response :=
  match formData request with
  | None => respond (json_status (Message "Unexpected error") 500)
  | Some fd =>
      match truthy (form_string fd "firstName"),
            truthy (form_string fd "lastName"),
            truthy (form_string fd "university"),
            truthy (form_string fd "program"),
            form_get fd (lit "document") with
      | Some firstName, Some lastName, Some university', Some program',
        Some (FormFile document) =>
          up <~ storage_upload e (filePath e document) document
                  (contentTypeOf document) ;;
          match (if is_error (error up) then None else truthy (data up)) with
          | None => respond (json_status (Message "Failed to upload document") 500)
          | Some path =>
              err <~ db_insert e
                       {| first_name := firstName; last_name := lastName;
                          university := university'; program := program';
                          doc_path := Some path;
                          telegram_chat_id := None |} ;;
              return_if (is_error err)
                (json_status (Message "Failed to save submission") 500) ;;;
              pure (json_response OkTrue)
          end
      | _, _, _, _, _ =>
          respond (json_status (Message "Missing required fields") 400)
      end
  end.

End Revision1.

Module Revision2.

(** The second revision verifies the session; the lookup of an existing
    row stands under [if (telegramUserId)], and the conflict has a message
    of its own. *)
Definition POST (e : Env) (request : Request) : handler Response :=
  match formData request with
  | None => respond (json_status (Message "Unexpected error") 500)
  | Some fd =>
      match truthy (form_string fd "firstName"),
            truthy (form_string fd "lastName"),
            truthy (form_string fd "university"),
            truthy (form_string fd "program"),
            form_get fd (lit "document") with
      | Some firstName, Some lastName, Some university', Some program',
        Some (FormFile document) =>
          telegramUserId <~
            match truthy (form_string fd "initData"),
                  truthy (TELEGRAM_BOT_TOKEN e) with
            | Some initData, Some botToken =>
                let v := validateTelegramInitData initData botToken in
                return_if (negb (valid v))
                  (json_status (Message "Telegram ma'lumotlari tasdiqlanmadi") 401) ;;;
                match truthy_id (userId v) with
                | None =>
                    respond (json_status
                               (Message "Telegram foydalanuvchisi aniqlanmadi") 400)
                | Some id =>
                    (if truthy_number id then
                       existing <~ db_select e id ;;
                       return_if (is_error (error existing))
                         (json_status (Message "Tekshirishda xatolik") 500) ;;;
                       return_if (has_rows existing)
                         (json_status
                            (Message "Bu Telegram hisobidan allaqachon yuborilgan")
                            409)
                     else pure tt) ;;;
                    pure (Some id)
                end
            | _, _ => pure None
            end ;;
          up <~ storage_upload e (filePath e document) document
                  (contentTypeOf document) ;;
          match (if is_error (error up) then None else truthy (data up)) with
          | None => respond (json_status (Message "Failed to upload document") 500)
          | Some path =>
              err <~ db_insert e
                       {| first_name := firstName; last_name := lastName;
                          university := university'; program := program';
                          doc_path := Some path;
                          telegram_chat_id := telegramUserId |} ;;
              return_if (is_error err)
                (json_status (Message "Failed to save submission") 500) ;;;
              pure (json_response OkTrue)
          end
      | _, _, _, _, _ =>
          respond (json_status (Message "Missing required fields") 400)
      end
  end.

End Revision2.

(* ================================================================== *)
(** * Requests one after the other *)
(* ================================================================== *)

(** The methods the route exports a handler for. *)
Inductive Method := MethodGET | MethodPOST | MethodPUT.

Definition route (m : Method) : Env -> Request -> handler Response :=
  match m with
  | MethodGET => GET
  | MethodPOST => POST
  | MethodPUT => PUT
  end.

(** The responses to a sequence of requests, each handled in its own
    environment in the world the one before left, and the world after the
    last. *)
Fixpoint serve (requests : list (Method * Env * Request)) (w : World)
  : list Response * World :=
  match requests with
  | [] => ([], w)
  | (m, e, request) :: rest =>
      let x := run (route m e request) w in
      let (responses, w') := serve rest (world_after x) in
      (response_of x :: responses, w')
  end.

(** A request that sends no token, or finds no bot token configured, and
    whose upload and insert succeed. *)
Definition anonymous_create (er : Method * Env * Request) : Prop :=
  let '(m, e, request) := er in
  m = MethodPOST
  /\ upload_error e = None /\ truthy (upload_path e) <> None
  /\ insert_error e = None
  /\ exists fd fn ln un pr doc,
       formData request = Some fd /\ create_fields fd fn ln un pr doc
       /\ (truthy (form_string fd "initData") = None
           \/ truthy (TELEGRAM_BOT_TOKEN e) = None).

(** The environment with no bot token configured. *)
Definition without_bot_token (e : Env) : Env :=
  {| TELEGRAM_BOT_TOKEN := None;
     date_now := date_now e;
     random_suffix := random_suffix e;
     select_error := select_error e;
     upload_error := upload_error e;
     upload_path := upload_path e;
     insert_error := insert_error e;
     update_error := update_error e |}.

(* ================================================================== *)
(** * Hexadecimal digits of either case *)
(* ================================================================== *)

Definition is_upper_hex_letter (c : N) : bool := (0x41 <=? c) && (c <=? 0x46).

Definition is_hex_digit (c : N) : bool := is_lower_hex c || is_upper_hex_letter c.

(** A string of hexadecimal digits, and the same digits in lowercase. *)
Definition hex_digits (s : jsstring) : Prop :=
  Forall (fun c => is_hex_digit c = true) s.

Definition hex_lower (c : N) : N :=
  if is_upper_hex_letter c then c + 0x20 else c.

(** The token of two pairs above, its hash in capital letters. *)
Definition token_a_b_capitals : jsstring :=
  lit "a=1&b=2&hash=A5DB7DEEC1E49E3005470A7AC968360287E99E785F679F406722510D84341F88".

(** A token whose hash is too short to be a SHA-256 signature. *)
Definition token_short_hash : jsstring := lit "a=1&b=2&hash=a5db7dee".

(* ================================================================== *)
(** * File names *)
(* ================================================================== *)

(** A digit of [Number.prototype.toString(36)]. *)
Definition is_base36 (c : N) : bool :=
  ((0x30 <=? c) && (c <=? 0x39)) || ((0x61 <=? c) && (c <=? 0x7A)).

(** The characters a sanitized name is made of. *)
Definition is_name_char (c : N) : bool := is_safe_char c || (c =? 0x5F).

(** The path separators. *)
Definition is_separator (c : N) : bool := (c =? 0x2F) || (c =? 0x5C).

(* ================================================================== *)
(** * The client: the lookup request *)
(* ================================================================== *)

(** [src/components/submission-form.tsx] asks for the existing submission
    with [fetch(`/api/document-submissions?initData=${encodeURIComponent(initData)}`)],
    and the handler reads the token back with
    [new URL(request.url).searchParams.get("initData")]. *)

Definition is_alphanumeric (c : N) : bool :=
  ((0x61 <=? c) && (c <=? 0x7A)) || ((0x41 <=? c) && (c <=? 0x5A))
  || ((0x30 <=? c) && (c <=? 0x39)).

(** The characters [encodeURIComponent] leaves as they are: letters,
    digits, hyphen, underscore, full stop, exclamation mark, tilde,
    asterisk, single quote and the two round brackets. *)
Definition is_uri_unreserved (c : N) : bool :=
  is_alphanumeric c
  || (c =? 0x2D) || (c =? 0x5F) || (c =? 0x2E) || (c =? 0x21) || (c =? 0x7E)
  || (c =? 0x2A) || (c =? 0x27) || (c =? 0x28) || (c =? 0x29).

Definition upper_hex_char (d : N) : code_unit :=
  if d <? 10 then 0x30 + d else 0x41 + (d - 10).

(** An octet as [%XY], in capital digits. *)
Definition percent_encode_octet (b : octet) : list N :=
  [0x25; upper_hex_char (b / 16); upper_hex_char (b mod 16)].

Definition percent_encode (bs : bytes) : list N :=
  flat_map percent_encode_octet bs.

(** [encodeURIComponent(s)]: every other character is replaced by the
    escapes of its UTF-8 octets.  A surrogate that is not part of a pair
    throws a URIError, which is [None] here. *)
Fixpoint encodeURIComponent (s : jsstring) : option jsstring :=
  match s with
  | [] => Some []
  | c :: rest =>
      if is_uri_unreserved c then
        option_map (cons c) (encodeURIComponent rest)
      else if is_lead_surrogate c then
        match rest with
        | d :: rest' =>
            if is_trail_surrogate d then
              option_map
                (app (percent_encode
                        (utf8_of_code_point
                           (0x10000 + (c - 0xD800) * 0x400 + (d - 0xDC00)))))
                (encodeURIComponent rest')
            else None
        | [] => None
        end
      else if is_trail_surrogate c then None
      else
        option_map (app (percent_encode (utf8_of_code_point c)))
                   (encodeURIComponent rest)
  end.

(** The URL of the lookup request, relative to the page. *)
Definition lookupUrl (initData : jsstring) : option jsstring :=
  option_map (app (lit "/api/document-submissions?initData="))
             (encodeURIComponent initData).

(** [String.prototype.isWellFormed]: no surrogate outside a pair. *)
Fixpoint isWellFormed (s : jsstring) : bool :=
  match s with
  | [] => true
  | c :: rest =>
      if is_lead_surrogate c then
        match rest with
        | d :: rest' => is_trail_surrogate d && isWellFormed rest'
        | [] => false
        end
      else negb (is_trail_surrogate c) && isWellFormed rest
  end.

(** ** The query of a URL *)

Fixpoint drop_while (p : N -> bool) (s : jsstring) : jsstring :=
  match s with
  | c :: rest => if p c then drop_while p rest else s
  | [] => []
  end.

Definition is_c0_or_space (c : N) : bool := c <=? 0x20.
Definition is_tab_or_newline (c : N) : bool :=
  (c =? 0x09) || (c =? 0x0A) || (c =? 0x0D).

(** The input of the URL parser: leading and trailing C0 controls and
    spaces are removed, and every tab and newline. *)
Definition url_input (url : jsstring) : jsstring :=
  filter (fun c => negb (is_tab_or_newline c))
         (rev (drop_while is_c0_or_space (rev (drop_while is_c0_or_space url)))).

(** The characters before the first [sep], and those after it if there
    is one. *)
Fixpoint before (sep : N) (s : jsstring) : jsstring :=
  match s with
  | [] => []
  | c :: rest => if c =? sep then [] else c :: before sep rest
  end.

Fixpoint after (sep : N) (s : jsstring) : option jsstring :=
  match s with
  | [] => None
  | c :: rest => if c =? sep then Some rest else after sep rest
  end.

(** The query of an absolute http(s) URL as the parser reads it: what
    stands between the first [?] and the first [#].  [request.url] is such
    a URL and parses; for a string that does not parse [new URL] throws,
    which is not modelled. *)
Definition url_query (url : jsstring) : option jsstring :=
  after 0x3F (before 0x23 (url_input url)).

(** The code points the query state escapes for a special scheme: C0
    controls, space, the double and the single quote, [#], [<], [>] and
    everything above [~]. *)
Definition in_special_query_set (cp : N) : bool :=
  (cp <=? 0x20) || (0x7E <? cp) || (cp =? 0x22) || (cp =? 0x23)
  || (cp =? 0x27) || (cp =? 0x3C) || (cp =? 0x3E).

Definition query_escape (cps : list N) : bytes :=
  flat_map (fun cp => if in_special_query_set cp
                      then percent_encode (utf8_of_code_point cp)
                      else [cp])
           cps.

Definition url_query_encode (q : jsstring) : bytes :=
  query_escape (code_points q).

(** [new URL(url).searchParams]: the pairs of the escaped query. *)
Definition searchParams (url : jsstring) : list (jsstring * jsstring) :=
  match url_query url with
  | Some q => parse_urlencoded (url_query_encode q)
  | None => []
  end.

(** The request the handler of [GET] gets for a URL and an
    [x-telegram-init] header. *)
Definition request_of_url (url : jsstring) (header : option jsstring) : Request :=
  {| query_initData := get (searchParams url) (lit "initData");
     header_x_telegram_init := header;
     formData := None |}.

(** A character of the origin of a page: visible, and neither [?] nor [#]. *)
Definition is_origin_char (c : N) : bool :=
  (0x20 <? c) && (c <? 0x7F) && negb (c =? 0x3F) && negb (c =? 0x23).

(** The code units of a string are numbers below [2^16]. *)
Definition code_units (s : jsstring) : Prop := Forall (fun c => c < 0x10000) s.

(** A character of the output of [encodeURIComponent]. *)
Definition is_escaped_char (c : N) : bool := is_uri_unreserved c || (c =? 0x25).

(* ================================================================== *)
(** * The client: the steps of the form *)
(* ================================================================== *)

(** The form has the steps 0, 1 and 2; [step] starts at 0.  [nextStep]
    validates the fields of the step it was rendered for with [trigger],
    whose answer is given here by a function of the field names, and when
    they are valid updates the state [s] with [Math.min(s + 1, 2)];
    [prevStep] updates it with [Math.max(s - 1, 0)]. *)
Definition nextStep (trigger : list string -> bool) (step : Z) (s : Z) : Z :=
  let valid :=
    if (step =? 0)%Z then trigger ["firstName"; "lastName"]%string
    else if (step =? 1)%Z then trigger ["university"; "program"]%string
    else false in
  if valid then Z.min (s + 1) 2 else s.

Definition prevStep (s : Z) : Z := Z.max (s - 1) 0.

(** A click on one of the two buttons; the forward button carries the
    step its handler was rendered for. *)
Inductive click :=
| ClickNext (trigger : list string -> bool) (step : Z)
| ClickPrev.

Definition click_step (s : Z) (c : click) : Z :=
  match c with
  | ClickNext trigger step => nextStep trigger step s
  | ClickPrev => prevStep s
  end.

(** The step after a sequence of clicks. *)
Definition step_after (clicks : list click) : Z := fold_left click_step clicks 0%Z.

(** [StepIndicator]: one segment for each step; the class that tells the
    segments before the current step, the current one and those after it
    apart. *)
Definition segment_class (currentStep i : Z) : string :=
  if (i <? currentStep)%Z then "bg-primary"
  else if (i =? currentStep)%Z then "bg-primary/50"
  else "bg-muted".

Definition StepIndicator (currentStep totalSteps : Z) : list string :=
  map (fun i => segment_class currentStep (Z.of_nat i))
      (seq 0 (Z.to_nat totalSteps)).

(* ================================================================== *)
(** * Proofs *)
(* ================================================================== *)

Ltac bool_to_prop :=
  repeat match goal with
         | H : _ && _ = true |- _ => apply andb_true_iff in H; destruct H
         | H : _ || _ = true |- _ => apply orb_true_iff in H; destruct H
         | H : (_ <=? _) = true |- _ => apply N.leb_le in H
         | H : (_ <? _) = true |- _ => apply N.ltb_lt in H
         | H : (_ =? _) = true |- _ => apply N.eqb_eq in H
         | H : (_ <=? _) = false |- _ => apply N.leb_gt in H
         | H : (_ <? _) = false |- _ => apply N.ltb_ge in H
         | H : (_ =? _) = false |- _ => apply N.eqb_neq in H
         end.

Ltac conjs := repeat match goal with |- _ /\ _ => split end.

(** Facts about a concrete list of calls or a concrete status. *)
Ltac trace_facts := conjs; simpl; intros; try solve [intuition discriminate].

(** ** The order on strings *)

Lemma str_compare_eq (a b : jsstring) : str_compare a b = Eq -> a = b.
Proof.
  revert b; induction a as [|x a IH]; intros [|y b]; simpl; try discriminate; auto.
  destruct (x ?= y) eqn:C; try discriminate.
  apply N.compare_eq in C; subst y. intros H; f_equal; auto.
Qed.

Lemma str_compare_antisym (a b : jsstring) :
  str_compare b a = CompOpp (str_compare a b).
Proof.
  revert b; induction a as [|x a IH]; intros [|y b]; simpl; auto.
  rewrite (N.compare_antisym x y).
  destruct (x ?= y); simpl; auto.
Qed.

Lemma str_compare_lt_trans (a b c : jsstring) :
  str_compare a b = Lt -> str_compare b c = Lt -> str_compare a c = Lt.
Proof.
  revert b c; induction a as [|x a IH]; intros [|y b] [|z c]; simpl;
    try discriminate; auto.
  destruct (x ?= y) eqn:Cxy; try discriminate;
  destruct (y ?= z) eqn:Cyz; try discriminate; intros H1 H2.
  - apply N.compare_eq in Cxy, Cyz; subst. rewrite N.compare_refl. eauto.
  - apply N.compare_eq in Cxy; subst. now rewrite Cyz.
  - apply N.compare_eq in Cyz; subst. now rewrite Cxy.
  - rewrite N.compare_lt_iff in *.
    assert (L : (x ?= z) = Lt) by (rewrite N.compare_lt_iff; lia).
    now rewrite L.
Qed.

Lemma str_leb_total (a b : jsstring) : str_leb a b = false -> str_leb b a = true.
Proof.
  unfold str_leb. rewrite (str_compare_antisym a b).
  destruct (str_compare a b); simpl; congruence.
Qed.

Lemma str_leb_antisym (a b : jsstring) :
  str_leb a b = true -> str_leb b a = true -> a = b.
Proof.
  unfold str_leb. rewrite (str_compare_antisym a b).
  destruct (str_compare a b) eqn:C; simpl; try congruence.
  intros _ _. now apply str_compare_eq.
Qed.

Lemma str_leb_trans (a b c : jsstring) :
  str_leb a b = true -> str_leb b c = true -> str_leb a c = true.
Proof.
  unfold str_leb.
  destruct (str_compare a b) eqn:Cab; try discriminate;
  destruct (str_compare b c) eqn:Cbc; try discriminate; intros _ _.
  - apply str_compare_eq in Cab; subst. now rewrite Cbc.
  - apply str_compare_eq in Cab; subst. now rewrite Cbc.
  - apply str_compare_eq in Cbc; subst. now rewrite Cab.
  - now rewrite (str_compare_lt_trans _ _ _ Cab Cbc).
Qed.

Lemma str_eqb_eq (a b : jsstring) : str_eqb a b = true <-> a = b.
Proof.
  revert b; induction a as [|x a IH]; intros [|y b]; simpl; split;
    try discriminate; auto.
  - rewrite andb_true_iff, N.eqb_eq, IH. intros [-> ->]; reflexivity.
  - intros H; injection H as -> ->. rewrite N.eqb_refl. simpl. now apply IH.
Qed.

(** ** Sorting depends on the elements only, not on their order *)

Lemma insert_sorted_swap (x y : jsstring) (l : list jsstring) :
  insert_sorted x (insert_sorted y l) = insert_sorted y (insert_sorted x l).
Proof.
  induction l as [|z l IH]; simpl.
  - destruct (str_leb x y) eqn:Exy; destruct (str_leb y x) eqn:Eyx; auto.
    + assert (x = y) by now apply str_leb_antisym. now subst.
    + apply str_leb_total in Exy. congruence.
  - destruct (str_leb y z) eqn:Eyz; destruct (str_leb x z) eqn:Exz; simpl;
      rewrite ?Eyz, ?Exz.
    + destruct (str_leb x y) eqn:Exy; destruct (str_leb y x) eqn:Eyx; auto.
      * assert (x = y) by now apply str_leb_antisym. now subst.
      * apply str_leb_total in Exy. congruence.
    + destruct (str_leb x y) eqn:Exy; auto.
      rewrite (str_leb_trans _ _ _ Exy Eyz) in Exz. discriminate.
    + destruct (str_leb y x) eqn:Eyx; auto.
      rewrite (str_leb_trans _ _ _ Eyx Exz) in Eyz. discriminate.
    + now rewrite IH.
Qed.

Lemma sort_permutation_eq (l l' : list jsstring) :
  Permutation l l' -> sort l = sort l'.
Proof.
  induction 1; simpl; try congruence.
  apply insert_sorted_swap.
Qed.

Lemma insert_sorted_perm x l : Permutation (insert_sorted x l) (x :: l).
Proof.
  induction l as [|y l IH]; simpl; auto.
  destruct (str_leb x y); auto.
  rewrite IH. apply perm_swap.
Qed.

Lemma sort_perm l : Permutation (sort l) l.
Proof.
  induction l as [|x l IH]; simpl; auto.
  rewrite insert_sorted_perm. now constructor.
Qed.

Lemma insert_sorted_sorted x l :
  Sorted (fun a b => str_leb a b = true) l ->
  Sorted (fun a b => str_leb a b = true) (insert_sorted x l).
Proof.
  induction 1 as [|y l S IH Hd]; simpl.
  - repeat constructor.
  - destruct (str_leb x y) eqn:E.
    + constructor; [constructor; auto | constructor; auto].
    + constructor; auto.
      destruct Hd as [|z l' Hz]; simpl.
      * constructor. now apply str_leb_total.
      * destruct (str_leb x z); constructor; auto. now apply str_leb_total.
Qed.

Lemma sort_sorted l : Sorted (fun a b => str_leb a b = true) (sort l).
Proof.
  induction l; simpl; [constructor | now apply insert_sorted_sorted].
Qed.

Lemma check_pairs_permutation (p q : list (jsstring * jsstring)) :
  Permutation p q -> Permutation (check_pairs p) (check_pairs q).
Proof.
  intros H. unfold check_pairs. apply Permutation_map.
  induction H; simpl; auto.
  - destruct (negb _); auto.
  - repeat destruct (negb _); auto. apply perm_swap.
  - etransitivity; eauto.
Qed.

Lemma dataCheckString_permutation p q :
  Permutation p q -> dataCheckString p = dataCheckString q.
Proof.
  intros H. unfold dataCheckString.
  now rewrite (sort_permutation_eq _ _ (check_pairs_permutation _ _ H)).
Qed.

(** Without repeated keys the value of a key does not depend on the order. *)
Lemma get_permutation p q k :
  NoDup (map fst p) -> Permutation p q -> get p k = get q k.
Proof.
  intros N P. revert N.
  induction P as [|[k' v] l l' P IH|[k1 v1] [k2 v2] l|l l' l'' P1 IH1 P2 IH2];
    intros N; simpl in *.
  - reflexivity.
  - destruct (str_eqb k' k); [reflexivity|]. apply IH. now inversion N.
  - destruct (str_eqb k2 k) eqn:E2; destruct (str_eqb k1 k) eqn:E1; try reflexivity.
    apply str_eqb_eq in E1, E2. subst. inversion N as [|? ? Hn _]. simpl in Hn. tauto.
  - rewrite IH1 by assumption. apply IH2.
    eapply Permutation_NoDup; [|exact N]. now apply Permutation_map.
Qed.

(** ** ASCII text passes through the encodings unchanged *)

Lemma lower_hex_range c : is_lower_hex c = true -> 0x30 <= c <= 0x66.
Proof. unfold is_lower_hex. intros H. bool_to_prop; lia. Qed.

Lemma code_points_ascii s : Forall (fun c => c < 0x80) s -> code_points s = s.
Proof.
  induction 1 as [|c s Hc _ IH]; [reflexivity|].
  cbn [code_points].
  assert (L : is_lead_surrogate c = false).
  { unfold is_lead_surrogate. apply andb_false_iff. left. apply N.leb_gt. lia. }
  assert (T : is_trail_surrogate c = false).
  { unfold is_trail_surrogate. apply andb_false_iff. left. apply N.leb_gt. lia. }
  now rewrite L, T, IH.
Qed.

Lemma utf8_encode_ascii s : Forall (fun c => c < 0x80) s -> utf8_encode s = s.
Proof.
  intros H. unfold utf8_encode. rewrite (code_points_ascii _ H).
  induction H as [|c s Hc _ IH]; simpl; auto.
  rewrite IH. unfold utf8_of_code_point.
  now replace (c <? 0x80) with true by (symmetry; apply N.ltb_lt; lia).
Qed.

Lemma utf8_decode_ascii bs : Forall (fun c => c < 0x80) bs -> utf8_decode bs = bs.
Proof.
  unfold utf8_decode.
  induction 1 as [|c s Hc _ IH]; simpl; auto.
  unfold utf8_lead.
  replace (c <=? 0x7F) with true by (symmetry; apply N.leb_le; lia).
  simpl. unfold utf16_of_code_point at 1.
  replace (c <? 0x10000) with true by (symmetry; apply N.ltb_lt; lia).
  simpl. now rewrite IH.
Qed.

Lemma percent_decode_plain bs :
  Forall (fun c => c <> 0x25) bs -> percent_decode bs = bs.
Proof.
  induction 1 as [|c s Hc _ IH]; auto.
  cbn [percent_decode]. apply N.eqb_neq in Hc. rewrite Hc. now rewrite IH.
Qed.

Lemma plus_to_space_plain bs :
  Forall (fun c => c <> 0x2B) bs -> plus_to_space bs = bs.
Proof.
  unfold plus_to_space.
  induction 1 as [|c s Hc _ IH]; simpl; auto.
  apply N.eqb_neq in Hc. rewrite Hc. now rewrite IH.
Qed.

Lemma split_on_plain sep bs :
  Forall (fun c => c <> sep) bs -> split_on sep bs = [bs].
Proof.
  induction 1 as [|c s Hc _ IH]; simpl; auto.
  apply N.eqb_neq in Hc. rewrite Hc. now rewrite IH.
Qed.

Lemma lower_hex_ascii s : lower_hex s -> Forall (fun c => c < 0x80) s.
Proof.
  apply Forall_impl. intros c Hc. apply lower_hex_range in Hc. lia.
Qed.

Lemma lower_hex_avoids k s :
  k < 0x30 -> lower_hex s -> Forall (fun c => c <> k) s.
Proof.
  intros Hk. apply Forall_impl. intros c Hc. apply lower_hex_range in Hc. lia.
Qed.

Lemma form_decode_lower_hex h : lower_hex h -> form_decode h = h.
Proof.
  intros H. unfold form_decode.
  rewrite plus_to_space_plain by (apply lower_hex_avoids; [lia | exact H]).
  rewrite percent_decode_plain by (apply lower_hex_avoids; [lia | exact H]).
  now apply utf8_decode_ascii, lower_hex_ascii.
Qed.

(** ** Hexadecimal *)

Lemma hex_char_lower d : d < 16 -> is_lower_hex (hex_char d) = true.
Proof.
  intros H. unfold hex_char, is_lower_hex.
  destruct (d <? 10) eqn:E; bool_to_prop; apply orb_true_iff; [left|right];
    apply andb_true_iff; split; apply N.leb_le; lia.
Qed.

Lemma hex_value_hex_char d : d < 16 -> hex_value (hex_char d) = Some d.
Proof.
  intros H. unfold hex_char, hex_value.
  destruct (d <? 10) eqn:E; bool_to_prop.
  - replace ((0x30 <=? 0x30 + d) && (0x30 + d <=? 0x39)) with true.
    + f_equal. lia.
    + symmetry. apply andb_true_iff; split; apply N.leb_le; lia.
  - replace ((0x30 <=? 0x61 + (d - 10)) && (0x61 + (d - 10) <=? 0x39)) with false.
    + replace ((0x61 <=? 0x61 + (d - 10)) && (0x61 + (d - 10) <=? 0x66)) with true.
      * f_equal. lia.
      * symmetry. apply andb_true_iff; split; apply N.leb_le; lia.
    + symmetry. apply andb_false_iff. right. apply N.leb_gt. lia.
Qed.

Lemma hex_encode_lower bs : octets bs -> lower_hex (hex_encode bs).
Proof.
  unfold octets, lower_hex, hex_encode.
  induction 1 as [|b bs Hb _ IH]; simpl; auto.
  constructor; [|constructor]; auto; apply hex_char_lower.
  - apply N.Div0.div_lt_upper_bound. lia.
  - apply N.mod_lt. lia.
Qed.

Lemma hex_encode_length bs : length (hex_encode bs) = (2 * length bs)%nat.
Proof. unfold hex_encode. induction bs; simpl; auto. rewrite IHbs. lia. Qed.

Lemma low_byte_small c : c < 256 -> low_byte c = c.
Proof.
  intros H. unfold low_byte. change 0xFF with (N.ones 8).
  rewrite N.land_ones. apply N.mod_small. exact H.
Qed.

Lemma hex_char_small d : d < 16 -> hex_char d < 256.
Proof. intros H. unfold hex_char. destruct (d <? 10); lia. Qed.

(** Decoding the hexadecimal form of a buffer gives the buffer back. *)
Lemma buffer_from_hex_encode bs : octets bs -> buffer_from_hex (hex_encode bs) = bs.
Proof.
  unfold octets, hex_encode.
  induction 1 as [|b bs Hb _ IH]; [reflexivity|].
  cbn [flat_map app buffer_from_hex].
  assert (Hd : b / 16 < 16) by (apply N.Div0.div_lt_upper_bound; lia).
  assert (Hm : b mod 16 < 16) by (apply N.mod_lt; lia).
  rewrite !low_byte_small by (now apply hex_char_small).
  rewrite !hex_value_hex_char by assumption.
  rewrite IH. f_equal. rewrite N.mul_comm. symmetry. apply N.div_mod. lia.
Qed.

Lemma bytes_eqb_eq a b : bytes_eqb a b = true <-> a = b.
Proof.
  revert b; induction a as [|x a IH]; intros [|y b]; simpl; split;
    try discriminate; auto.
  - rewrite andb_true_iff, N.eqb_eq, IH. intros [-> ->]; reflexivity.
  - intros H; injection H as -> ->. rewrite N.eqb_refl. simpl. now apply IH.
Qed.

(** ** Digests are 32 octets *)

Lemma bytes_of_word_octets x : octets (bytes_of_word x).
Proof. unfold octets, bytes_of_word. repeat constructor; apply N.mod_lt; lia. Qed.

Lemma sha256_octets m : octets (sha256 m).
Proof.
  unfold sha256, octets. cbn [flat_map]. rewrite app_nil_r.
  repeat (apply Forall_app; split); apply bytes_of_word_octets.
Qed.

Lemma sha256_length m : length (sha256 m) = 32%nat.
Proof. reflexivity. Qed.

Lemma hmac_sha256_octets k m : octets (hmac_sha256 k m).
Proof. apply sha256_octets. Qed.

Lemma hmac_sha256_length k m : length (hmac_sha256 k m) = 32%nat.
Proof. apply sha256_length. Qed.

(** From here on the digests are not unfolded by the tactics. *)
#[global] Opaque sha256 hmac_sha256.
#[global] Arguments computedHash : simpl never.
#[global] Arguments validateTelegramInitData : simpl never.
#[global] Arguments URLSearchParams : simpl never.
#[global] Arguments JSON_parse : simpl never.

Lemma computedHash_length t c : length (computedHash t c) = 64%nat.
Proof. unfold computedHash. now rewrite hex_encode_length, hmac_sha256_length. Qed.

Lemma computedHash_lower_hex t c : lower_hex (computedHash t c).
Proof. apply hex_encode_lower, hmac_sha256_octets. Qed.

Lemma computedHash_decoded t c :
  buffer_from_hex (computedHash t c) = hmac_sha256 (webAppSecret t) (utf8_encode c).
Proof. apply buffer_from_hex_encode, hmac_sha256_octets. Qed.

Lemma hashMatches_refl t c :
  hashMatches (computedHash t c) (computedHash t c) = Return true.
Proof.
  unfold hashMatches, timingSafeEqual. rewrite !Nat.eqb_refl.
  now rewrite (proj2 (bytes_eqb_eq _ _) eq_refl).
Qed.

(** Two computed hashes match exactly when the digests are equal. *)
Lemma hashMatches_computed t t' c c' :
  hashMatches (computedHash t c) (computedHash t' c')
  = Return (bytes_eqb (hmac_sha256 (webAppSecret t) (utf8_encode c))
                      (hmac_sha256 (webAppSecret t') (utf8_encode c'))).
Proof.
  unfold hashMatches, timingSafeEqual.
  rewrite !computedHash_length, !computedHash_decoded, !hmac_sha256_length.
  reflexivity.
Qed.

Lemma hashMatches_true_nonempty t c hash :
  hashMatches (computedHash t c) hash = Return true -> truthy_str hash = true.
Proof.
  unfold hashMatches. rewrite computedHash_length.
  destruct hash; [cbn [length Nat.eqb]; discriminate | reflexivity].
Qed.

(** The body of the validator in terms of the parsed parameters. *)
Lemma validateBody_unfold initData botToken :
  validateBody initData botToken =
  match get (URLSearchParams initData) (lit "hash") with
  | None => Return Invalid
  | Some hash =>
      if negb (truthy_str hash) then Return Invalid
      else
        ok <- hashMatches
                (computedHash botToken (dataCheckString (URLSearchParams initData)))
                hash ;;
        if negb ok then Return Invalid else identityOf (URLSearchParams initData)
  end.
Proof. reflexivity. Qed.

(** ** The recursion budget of the JSON parser is enough *)

Lemma skip_ws_length s : (length (skip_ws s) <= length s)%nat.
Proof.
  induction s as [|c s IH]; simpl; auto.
  destruct (is_ws c); simpl; lia.
Qed.

Lemma span_digits_length s ds r :
  span_digits s = (ds, r) -> (length ds + length r = length s)%nat.
Proof.
  revert ds r; induction s as [|c s IH]; simpl; intros ds r H.
  - inversion H; reflexivity.
  - destruct (is_digit c).
    + destruct (span_digits s) as [ds' r'] eqn:E. inversion H; subst.
      simpl. specialize (IH _ _ eq_refl). lia.
    + inversion H; subst. reflexivity.
Qed.

Lemma parse_string_body_length s str r :
  parse_string_body s = Some (str, r) -> (length r < length s)%nat.
Proof.
  remember (length s) as n eqn:Hn. revert s str r Hn.
  induction n as [n IH] using lt_wf_ind. intros s str r Hn.
  destruct s as [|c rest]; [discriminate|]. cbn [parse_string_body].
  destruct (c =? 0x22); [intros H; inversion H; subst; simpl; lia|].
  destruct (c <? 0x20); [discriminate|].
  assert (Step : forall s' u str0 r0,
             (length s' < n)%nat ->
             match parse_string_body s' with
             | Some (str1, r1) => Some (u :: str1, r1)
             | None => None
             end = Some (str0, r0) -> (length r0 < length s')%nat).
  { intros s' u str0 r0 L H.
    destruct (parse_string_body s') as [[str1 r1]|] eqn:E; [|discriminate].
    inversion H; subst. eapply IH; eauto. }
  destruct (c =? 0x5C).
  - destruct rest as [|e rest1]; [discriminate|].
    repeat match goal with
           | |- (if ?b then _ else _) = _ -> _ =>
               destruct b; [intros H; apply Step in H; simpl in *; lia|]
           end.
    destruct (e =? 0x75); [|discriminate].
    destruct rest1 as [|h1 [|h2 [|h3 [|h4 rest2]]]]; try discriminate.
    destruct (hex_value h1), (hex_value h2), (hex_value h3), (hex_value h4);
      try discriminate.
    intros H. apply Step in H; simpl in *; lia.
  - intros H. apply Step in H; simpl in *; lia.
Qed.

Lemma strip_prefix_length p s r :
  strip_prefix p s = Some r -> (length r + length p = length s)%nat.
Proof.
  revert s r; induction p as [|x p IH]; intros s r; simpl.
  - intros H; inversion H; lia.
  - destruct s as [|y s]; [discriminate|].
    destruct (x =? y); [|discriminate]. intros H. apply IH in H. simpl. lia.
Qed.

Lemma parse_literal_length name v s v' r :
  name <> ""%string -> parse_literal name v s = POk v' r -> (length r < length s)%nat.
Proof.
  unfold parse_literal. intros Hn.
  destruct (strip_prefix (lit name) s) as [r'|] eqn:E; [|discriminate].
  intros H; inversion H; subst. apply strip_prefix_length in E.
  destruct name; [congruence|]. simpl in E. lia.
Qed.

Lemma parse_exponent_length s ex r :
  parse_exponent s = Some (ex, r) -> (length r <= length s)%nat.
Proof.
  unfold parse_exponent. destruct s as [|c rest]; [intros H; inversion H; auto|].
  destruct ((c =? 0x65) || (c =? 0x45)); [|intros H; inversion H; auto].
  destruct (match rest with
            | [] => (false, rest)
            | sg :: r0 => if sg =? 45 then (true, r0)
                          else if sg =? 43 then (false, r0) else (false, rest)
            end) as [neg rest1] eqn:E.
  assert (L : (length rest1 <= length rest)%nat).
  { destruct rest as [|sg r0]; [inversion E; auto|].
    destruct (sg =? 45); [inversion E; simpl; lia|].
    destruct (sg =? 43); inversion E; simpl; lia. }
  destruct (span_digits rest1) as [ds r1] eqn:D.
  apply span_digits_length in D.
  destruct ds; [discriminate|]. intros H; inversion H; subst. simpl in *. lia.
Qed.

Lemma parse_number_length s v r :
  parse_number s = POk v r -> (length r < length s)%nat.
Proof.
  unfold parse_number.
  destruct (match s with
            | [] => (false, s)
            | c :: rest => if c =? 45 then (true, rest) else (false, s)
            end) as [neg s1] eqn:E.
  assert (L : (length s1 <= length s)%nat).
  { destruct s as [|c rest]; [inversion E; auto|].
    destruct (c =? 45); inversion E; simpl; lia. }
  destruct (span_digits s1) as [ds s2] eqn:D. apply span_digits_length in D.
  destruct ds as [|d ds]; [discriminate|].
  destruct ((d =? 0) && negb (is_empty ds)); [discriminate|].
  match goal with
  | |- match ?x with Some _ => _ | None => PFail end = _ -> _ =>
      destruct x as [[fs s3]|] eqn:F; [|discriminate]
  end.
  assert (L3 : (length s3 <= length s2)%nat).
  { destruct s2 as [|c rest]; [inversion F; auto|].
    destruct (c =? 46); [|inversion F; auto].
    destruct (span_digits rest) as [fd r0] eqn:D2. apply span_digits_length in D2.
    destruct fd; [discriminate|]. inversion F; subst. simpl in *. lia. }
  destruct (parse_exponent s3) as [[ex s4]|] eqn:X; [|discriminate].
  apply parse_exponent_length in X.
  intros H; inversion H; subst. simpl in *. lia.
Qed.

Lemma parse_consumes f :
  (forall s v r, parse_value f s = POk v r -> (length r < length s)%nat)
  /\ (forall s vs r, parse_elements f s = POk vs r -> (length r < length s)%nat)
  /\ (forall s ms r, parse_members f s = POk ms r -> (length r < length s)%nat).
Proof.
  induction f as [|f (IHv & IHe & IHm)]; [repeat split; discriminate|].
  split; [|split].
  - intros s v r. cbn [parse_value].
    pose proof (skip_ws_length s) as L.
    destruct (skip_ws s) as [|c r0]; [discriminate|]. simpl in L.
    destruct (c =? 0x5B).
    { pose proof (skip_ws_length r0) as L0.
      destruct (skip_ws r0) as [|c' r']; [discriminate|]. simpl in L0.
      destruct (c' =? 0x5D); [intros H; inversion H; subst; lia|].
      destruct (parse_elements f r0) as [vs r2| |] eqn:E; try discriminate.
      apply IHe in E. intros H; inversion H; subst; lia. }
    destruct (c =? 0x7B).
    { pose proof (skip_ws_length r0) as L0.
      destruct (skip_ws r0) as [|c' r']; [discriminate|]. simpl in L0.
      destruct (c' =? 0x7D); [intros H; inversion H; subst; lia|].
      destruct (parse_members f r0) as [ms r2| |] eqn:E; try discriminate.
      apply IHm in E. intros H; inversion H; subst; lia. }
    destruct (c =? 0x22).
    { destruct (parse_string_body r0) as [[str r']|] eqn:E; [|discriminate].
      apply parse_string_body_length in E. intros H; inversion H; subst; lia. }
    destruct (c =? 0x74);
      [intros H; apply parse_literal_length in H; [simpl in H; lia | discriminate]|].
    destruct (c =? 0x66);
      [intros H; apply parse_literal_length in H; [simpl in H; lia | discriminate]|].
    destruct (c =? 0x6E);
      [intros H; apply parse_literal_length in H; [simpl in H; lia | discriminate]|].
    intros H. apply parse_number_length in H. simpl in H. lia.
  - intros s vs r. cbn [parse_elements].
    destruct (parse_value f s) as [v r0| |] eqn:E; try discriminate.
    apply IHv in E. pose proof (skip_ws_length r0) as L.
    destruct (skip_ws r0) as [|c r']; [discriminate|]. simpl in L.
    destruct (c =? 0x2C).
    { destruct (parse_elements f r') as [vs' r2| |] eqn:E2; try discriminate.
      apply IHe in E2. intros H; inversion H; subst; lia. }
    destruct (c =? 0x5D); [|discriminate]. intros H; inversion H; subst; lia.
  - intros s ms r. cbn [parse_members].
    pose proof (skip_ws_length s) as L.
    destruct (skip_ws s) as [|q r0]; [discriminate|]. simpl in L.
    destruct (q =? 0x22); [|discriminate].
    destruct (parse_string_body r0) as [[key r1]|] eqn:K; [|discriminate].
    apply parse_string_body_length in K.
    pose proof (skip_ws_length r1) as L1.
    destruct (skip_ws r1) as [|col r2]; [discriminate|]. simpl in L1.
    destruct (col =? 0x3A); [|discriminate].
    destruct (parse_value f r2) as [v r3| |] eqn:E; try discriminate.
    apply IHv in E. pose proof (skip_ws_length r3) as L3.
    destruct (skip_ws r3) as [|c r4]; [discriminate|]. simpl in L3.
    destruct (c =? 0x2C).
    { destruct (parse_members f r4) as [ms' r5| |] eqn:E2; try discriminate.
      apply IHm in E2. intros H; inversion H; subst; lia. }
    destruct (c =? 0x7D); [|discriminate]. intros H; inversion H; subst; lia.
Qed.

Lemma parse_literal_fuel name v s : parse_literal name v s <> PFuel.
Proof. unfold parse_literal. destruct (strip_prefix _ _); discriminate. Qed.

Lemma parse_number_fuel s : parse_number s <> PFuel.
Proof.
  unfold parse_number.
  repeat match goal with
         | |- context [match ?x with _ => _ end] =>
             lazymatch x with
             | context [match _ with _ => _ end] => fail
             | _ => destruct x
             end
         | |- context [if ?b then _ else _] => destruct b
         | |- context [let (_, _) := ?x in _] => destruct x
         end; discriminate.
Qed.

Lemma parse_fuel f :
  (forall s, (2 * length s + 1 <= f)%nat -> parse_value f s <> PFuel)
  /\ (forall s, (2 * length s + 2 <= f)%nat -> parse_elements f s <> PFuel)
  /\ (forall s, (2 * length s + 2 <= f)%nat -> parse_members f s <> PFuel).
Proof.
  induction f as [|f (IHv & IHe & IHm)]; [repeat split; intros; lia|].
  destruct (parse_consumes f) as (Cv & Ce & Cm).
  split; [|split].
  - intros s B. cbn [parse_value].
    pose proof (skip_ws_length s) as L.
    destruct (skip_ws s) as [|c r0]; [discriminate|]. simpl in L.
    destruct (c =? 0x5B).
    { pose proof (skip_ws_length r0) as L0.
      destruct (skip_ws r0) as [|c' r']; [discriminate|]. simpl in L0.
      destruct (c' =? 0x5D); [discriminate|].
      specialize (IHe r0 ltac:(lia)).
      destruct (parse_elements f r0); congruence. }
    destruct (c =? 0x7B).
    { pose proof (skip_ws_length r0) as L0.
      destruct (skip_ws r0) as [|c' r']; [discriminate|]. simpl in L0.
      destruct (c' =? 0x7D); [discriminate|].
      specialize (IHm r0 ltac:(lia)).
      destruct (parse_members f r0); congruence. }
    destruct (c =? 0x22); [destruct (parse_string_body r0) as [[? ?]|]; discriminate|].
    destruct (c =? 0x74); [apply parse_literal_fuel|].
    destruct (c =? 0x66); [apply parse_literal_fuel|].
    destruct (c =? 0x6E); [apply parse_literal_fuel|].
    apply parse_number_fuel.
  - intros s B. cbn [parse_elements].
    specialize (IHv s ltac:(lia)).
    destruct (parse_value f s) as [v r0| |] eqn:E; try congruence.
    apply Cv in E. pose proof (skip_ws_length r0) as L.
    destruct (skip_ws r0) as [|c r']; [discriminate|]. simpl in L.
    destruct (c =? 0x2C).
    { specialize (IHe r' ltac:(lia)). destruct (parse_elements f r'); congruence. }
    destruct (c =? 0x5D); discriminate.
  - intros s B. cbn [parse_members].
    pose proof (skip_ws_length s) as L.
    destruct (skip_ws s) as [|q r0]; [discriminate|]. simpl in L.
    destruct (q =? 0x22); [|discriminate].
    destruct (parse_string_body r0) as [[key r1]|] eqn:K; [|discriminate].
    apply parse_string_body_length in K.
    pose proof (skip_ws_length r1) as L1.
    destruct (skip_ws r1) as [|col r2]; [discriminate|]. simpl in L1.
    destruct (col =? 0x3A); [|discriminate].
    specialize (IHv r2 ltac:(lia)).
    destruct (parse_value f r2) as [v r3| |] eqn:E; try congruence.
    apply Cv in E. pose proof (skip_ws_length r3) as L3.
    destruct (skip_ws r3) as [|c r4]; [discriminate|]. simpl in L3.
    destruct (c =? 0x2C).
    { specialize (IHm r4 ltac:(lia)). destruct (parse_members f r4); congruence. }
    destruct (c =? 0x7D); discriminate.
Qed.

(** [JSON.parse] never fails for lack of recursion budget. *)
Lemma JSON_parse_budget text :
  parse_value (2 * length text + 2) text <> PFuel.
Proof. apply (proj1 (parse_fuel _)). lia. Qed.

(** ** The platform functions on known values *)

Example sha256_K_ends :
  length sha256_K = 64%nat
  /\ hd 0 sha256_K = 0x428a2f98 /\ last sha256_K 0 = 0xc67178f2.
Proof. vm_compute. auto. Qed.

Example sha256_init_roots :
  [h_a sha256_init; h_b sha256_init; h_c sha256_init; h_d sha256_init;
   h_e sha256_init; h_f sha256_init; h_g sha256_init; h_h sha256_init]
  = map (root_fraction 2) (firstn 8 first_primes).
Proof. vm_compute. reflexivity. Qed.

(** SHA-256 of [abc] (FIPS 180-4) and HMAC-SHA256 with the key [Jefe]
    (RFC 4231, test case 2). *)
Example sha256_abc :
  hex_encode (sha256 (utf8_encode (lit "abc")))
  = lit "ba7816bf8f01cfea414140de5dae2223b00361a396177a9cb410ff61f20015ad".
Proof. vm_compute. reflexivity. Qed.

Example hmac_sha256_rfc4231_2 :
  hex_encode (hmac_sha256 (utf8_encode (lit "Jefe"))
                          (utf8_encode (lit "what do ya want for nothing?")))
  = lit "5bdcc146bf60754e6a042426089575c75a003f089d2739839dec58b964ec3843".
Proof. vm_compute. reflexivity. Qed.

(** Percent-decoding, [+] as a space, a pair without [=], an empty
    sequence, and a duplicate key. *)
Example URLSearchParams_sample :
  URLSearchParams (lit "?a=1+2&&b&a=%7B%22id%22%3A42%7D&c=%zz")
  = [(lit "a", lit "1 2"); (lit "b", []);
     (lit "a", [0x7B; 0x22; 0x69; 0x64; 0x22; 0x3A; 0x34; 0x32; 0x7D]);
     (lit "c", lit "%zz")].
Proof. vm_compute. reflexivity. Qed.

(** Bytes that are not UTF-8 decode to U+FFFD. *)
Example URLSearchParams_ill_formed :
  URLSearchParams (lit "k=%FF%E2%82%AC") = [(lit "k", [0xFFFD; 0x20AC])].
Proof. vm_compute. reflexivity. Qed.

Example sort_sample :
  sort [lit "b=2"; lit "a=10"; lit "a=1"; lit "B=0"]
  = [lit "B=0"; lit "a=1"; lit "a=10"; lit "b=2"].
Proof. vm_compute. reflexivity. Qed.

Example JSON_parse_user :
  JSON_parse [0x7B; 0x22; 0x69; 0x64; 0x22; 0x3A; 0x34; 0x32; 0x7D]
  = Return (JObject [(lit "id", JNumber id_42)]).
Proof. vm_compute. reflexivity. Qed.

Example JSON_parse_tenth :
  JSON_parse (lit "0.1") = Return (JNumber (S754_finite false 7205759403792794 (-56))).
Proof. vm_compute. reflexivity. Qed.

Example JSON_parse_trailing_comma : JSON_parse (lit "[1,]") = Throw SyntaxError.
Proof. vm_compute. reflexivity. Qed.

Example buffer_from_hex_truncates :
  buffer_from_hex (lit "abCDxy12") = [0xAB; 0xCD].
Proof. vm_compute. reflexivity. Qed.

(** Characters above [U+00FF] count by their low byte. *)
Example buffer_from_hex_low_byte :
  buffer_from_hex [0x161; 0x235; 0x41; 0x1046] = [0xA5; 0xAF].
Proof. vm_compute. reflexivity. Qed.

(** The file name of the specification's example. *)
Example safeFileName_sample :
  safeFileName (lit "My Report (v2)!.zip") = lit "My_Report__v2__.zip".
Proof. vm_compute. reflexivity. Qed.

Example filePath_sample :
  filePath (sample_env None None None) sample_file = sample_path.
Proof. vm_compute. reflexivity. Qed.

(** ** The sample tokens *)

Lemma token_42_verifies :
  validateTelegramInitData token_42 sample_bot_token = ValidWithIdentity id_42.
Proof. vm_compute. reflexivity. Qed.

Lemma token_user_x_first_result :
  validateTelegramInitData token_user_x_first sample_bot_token = Invalid.
Proof. vm_compute. reflexivity. Qed.

Lemma token_user_x_last_result :
  validateTelegramInitData token_user_x_last sample_bot_token = ValidNoIdentity.
Proof. vm_compute. reflexivity. Qed.

Lemma token_bad_user_result :
  validateTelegramInitData token_bad_user sample_bot_token = Invalid.
Proof. vm_compute. reflexivity. Qed.

Lemma token_fractional_id_result :
  validateTelegramInitData token_fractional_id sample_bot_token
  = ValidWithIdentity id_one_and_a_half.
Proof. vm_compute. reflexivity. Qed.

Lemma token_bad_user_hash :
  get (URLSearchParams token_bad_user) (lit "hash")
  = Some (computedHash sample_bot_token
            (dataCheckString (URLSearchParams token_bad_user))).
Proof. vm_compute. reflexivity. Qed.

Lemma token_user_x_hash :
  get (URLSearchParams token_user_x_first) (lit "hash")
  = Some (computedHash sample_bot_token
            (dataCheckString (URLSearchParams token_user_x_first))).
Proof. vm_compute. reflexivity. Qed.

Lemma token_a_b_hash :
  get (URLSearchParams token_a_b) (lit "hash")
  = Some (computedHash sample_bot_token
            (dataCheckString (URLSearchParams token_a_b))).
Proof. vm_compute. reflexivity. Qed.

(* ================================================================== *)
(** * The verifier *)
(* ================================================================== *)

(** The parameters of [a=1&b=2&hash=h] for a hexadecimal [h]. *)
Lemma URLSearchParams_example h :
  lower_hex h ->
  URLSearchParams (lit "a=1&b=2&hash=" ++ h)
  = [(lit "a", lit "1"); (lit "b", lit "2"); (lit "hash", h)].
Proof.
  intros Hh.
  change (lit "a=1&b=2&hash=")
    with [97; 61; 49; 38; 98; 61; 50; 38; 104; 97; 115; 104; 61].
  change (lit "a") with [97]. change (lit "1") with [49].
  change (lit "b") with [98]. change (lit "2") with [50].
  change (lit "hash") with [104; 97; 115; 104].
  unfold URLSearchParams. cbn [app N.eqb Pos.eqb].
  rewrite utf8_encode_ascii.
  2:{ repeat (constructor; [lia|]). now apply lower_hex_ascii. }
  unfold parse_urlencoded.
  cbn [split_on N.eqb Pos.eqb].
  rewrite split_on_plain by (apply lower_hex_avoids; [lia | exact Hh]).
  cbn [filter is_empty negb map name_bytes value_bytes N.eqb Pos.eqb].
  rewrite (form_decode_lower_hex h Hh).
  reflexivity.
Qed.

Lemma dataCheckString_example h :
  dataCheckString [(lit "a", lit "1"); (lit "b", lit "2"); (lit "hash", h)]
  = example_check.
Proof. reflexivity. Qed.

Lemma example_hash_computed s : example_hash s = computedHash s example_check.
Proof. reflexivity. Qed.

(** Two secrets with the same UTF-8 encoding derive the same key, and so
    give the same signature. *)
Lemma example_hash_utf8 s t :
  utf8_encode s = utf8_encode t -> example_hash s = example_hash t.
Proof. intros H. unfold example_hash. now rewrite H. Qed.

(** The signatures of the example under two secrets are equal exactly when
    the digests are. *)
Lemma example_hash_digest s t :
  example_hash s = example_hash t
  <-> hmac_sha256 (webAppSecret s) (utf8_encode example_check)
      = hmac_sha256 (webAppSecret t) (utf8_encode example_check).
Proof.
  rewrite (example_hash_computed s), (example_hash_computed t).
  split; intros H.
  - rewrite <- (computedHash_decoded s example_check),
            <- (computedHash_decoded t example_check).
    exact (f_equal buffer_from_hex H).
  - exact (f_equal hex_encode H).
Qed.

(** The token made for [SECRET], verified against any secret. *)
Lemma example_token_against (SECRET other : jsstring) :
  validateTelegramInitData (example_token SECRET) other
  = if bytes_eqb (hmac_sha256 (webAppSecret other) (utf8_encode example_check))
                 (hmac_sha256 (webAppSecret SECRET) (utf8_encode example_check))
    then ValidNoIdentity else Invalid.
Proof.
  assert (P : URLSearchParams (example_token SECRET)
              = [(lit "a", lit "1"); (lit "b", lit "2");
                 (lit "hash", example_hash SECRET)]).
  { apply URLSearchParams_example. rewrite example_hash_computed.
    apply computedHash_lower_hex. }
  assert (G : get (URLSearchParams (example_token SECRET)) (lit "hash")
              = Some (example_hash SECRET)) by (now rewrite P).
  assert (NE : truthy_str (example_hash SECRET) = true).
  { pose proof (computedHash_length SECRET example_check) as L.
    rewrite <- example_hash_computed in L.
    destruct (example_hash SECRET); [discriminate | reflexivity]. }
  unfold validateTelegramInitData. rewrite validateBody_unfold, G, NE.
  cbn [negb]. rewrite P, dataCheckString_example, example_hash_computed.
  rewrite hashMatches_computed.
  destruct (bytes_eqb _ _); reflexivity.
Qed.

(** C1 (as amended).  The token [a=1&b=2&hash=<H>], with <H> the lowercase
    hexadecimal HMAC-SHA256 of [a=1], newline, [b=2] under the key derived
    from SECRET, verifies against SECRET (valid, no identity).  Verified
    against another secret it is Invalid when the signature computed under
    that secret differs from <H>, and valid when it is <H>, which it is for
    every secret with the UTF-8 encoding of SECRET. *)
Theorem example_token_verifies (SECRET other : jsstring) :
  validateTelegramInitData (example_token SECRET) SECRET = ValidNoIdentity
  /\ (example_hash other <> example_hash SECRET ->
      validateTelegramInitData (example_token SECRET) other = Invalid)
  /\ (example_hash other = example_hash SECRET ->
      validateTelegramInitData (example_token SECRET) other = ValidNoIdentity)
  /\ (utf8_encode other = utf8_encode SECRET ->
      validateTelegramInitData (example_token SECRET) other = ValidNoIdentity).
Proof.
  assert (Same : forall t, example_hash t = example_hash SECRET ->
                 validateTelegramInitData (example_token SECRET) t = ValidNoIdentity).
  { intros t H. rewrite (example_token_against SECRET t).
    apply example_hash_digest in H.
    rewrite (proj2 (bytes_eqb_eq _ _) H). reflexivity. }
  split; [now apply Same|]. split; [|split].
  - intros Hne. rewrite example_token_against.
    destruct (bytes_eqb _ _) eqn:E; [|reflexivity].
    apply bytes_eqb_eq in E. exfalso. apply Hne.
    now apply example_hash_digest.
  - apply Same.
  - intros H. now apply Same, example_hash_utf8.
Qed.

Lemma example_hash_sample :
  example_hash sample_bot_token
  = lit "a5db7deec1e49e3005470a7ac968360287e99e785f679f406722510d84341f88".
Proof. vm_compute. reflexivity. Qed.

Lemma example_hash_other :
  example_hash other_bot_token
  = lit "97992d70a8101336929843f2b74e255f1328ab8dcd15d85a0c5803d93d4b80cd".
Proof. vm_compute. reflexivity. Qed.

Lemma example_token_verifies_witness :
  validateTelegramInitData (example_token sample_bot_token) sample_bot_token
    = ValidNoIdentity
  /\ validateTelegramInitData (example_token sample_bot_token) other_bot_token
     = Invalid.
Proof.
  destruct (example_token_verifies sample_bot_token other_bot_token)
    as (A & B & _).
  split; [exact A|].
  apply B.
  rewrite example_hash_sample, example_hash_other. intros E.
  apply (f_equal (fun s => nth 0 s 0)) in E. vm_compute in E. discriminate E.
Defined.

(** The claim C1 fails for two different secrets with the same UTF-8
    encoding: a lone lead surrogate and a lone trail surrogate are both
    encoded as the replacement character, so the token made for the one
    verifies against the other. *)
Lemma different_secret_verifies :
  [0xD800] <> [0xDC00]
  /\ utf8_encode [0xD800] = [0xEF; 0xBF; 0xBD]
  /\ utf8_encode [0xDC00] = [0xEF; 0xBF; 0xBD]
  /\ validateTelegramInitData (example_token [0xD800]) [0xDC00] = ValidNoIdentity
  /\ validateTelegramInitData (example_token [0xD800]) [0xDC00] <> Invalid.
Proof.
  assert (V : validateTelegramInitData (example_token [0xD800]) [0xDC00]
              = ValidNoIdentity).
  { rewrite (example_token_against [0xD800] [0xDC00]).
    assert (K : webAppSecret [0xDC00] = webAppSecret [0xD800]).
    { unfold webAppSecret.
      replace (utf8_encode [0xDC00]) with (utf8_encode [0xD800])
        by (vm_compute; reflexivity).
      reflexivity. }
    rewrite K.
    rewrite (proj2 (bytes_eqb_eq
                      (hmac_sha256 (webAppSecret [0xD800]) (utf8_encode example_check))
                      (hmac_sha256 (webAppSecret [0xD800]) (utf8_encode example_check)))
                   eq_refl).
    reflexivity. }
  split; [discriminate|]. split; [reflexivity|]. split; [reflexivity|].
  split; [exact V|]. rewrite V. discriminate.
Qed.

(** C2 (as amended).  Reordering the pairs of a token changes neither the
    check-string, which is the sorted list of the [key=value] strings joined
    by newlines, nor the computed signature.  Two tokens with the same
    pairs in different orders give the same result when their first [hash]
    values and their first [user] values agree, which is so whenever no key
    is repeated; with the correct hash both pass the comparison of
    signatures, and the result is then what the first [user] value gives. *)
Theorem reordered_pairs_same_signature (t1 t2 botToken : jsstring) :
  Permutation (URLSearchParams t1) (URLSearchParams t2) ->
  (dataCheckString (URLSearchParams t1)
     = join newline (sort (check_pairs (URLSearchParams t1)))
   /\ Sorted (fun a b => str_leb a b = true)
             (sort (check_pairs (URLSearchParams t1)))
   /\ Permutation (sort (check_pairs (URLSearchParams t1)))
                  (check_pairs (URLSearchParams t1)))
  /\ dataCheckString (URLSearchParams t1) = dataCheckString (URLSearchParams t2)
  /\ computedHash botToken (dataCheckString (URLSearchParams t1))
     = computedHash botToken (dataCheckString (URLSearchParams t2))
  /\ (get (URLSearchParams t1) (lit "hash") = get (URLSearchParams t2) (lit "hash") ->
      get (URLSearchParams t1) (lit "user") = get (URLSearchParams t2) (lit "user") ->
      validateTelegramInitData t1 botToken = validateTelegramInitData t2 botToken)
  /\ (NoDup (map fst (URLSearchParams t1)) ->
      validateTelegramInitData t1 botToken = validateTelegramInitData t2 botToken)
  /\ (get (URLSearchParams t1) (lit "hash")
        = Some (computedHash botToken (dataCheckString (URLSearchParams t1))) ->
      get (URLSearchParams t2) (lit "hash") = get (URLSearchParams t1) (lit "hash") ->
      validateTelegramInitData t1 botToken
        = try_catch (identityOf (URLSearchParams t1)) (fun _ => Invalid)
      /\ validateTelegramInitData t2 botToken
         = try_catch (identityOf (URLSearchParams t2)) (fun _ => Invalid)).
Proof.
  intros P. pose proof (dataCheckString_permutation _ _ P) as D.
  assert (Same : get (URLSearchParams t1) (lit "hash")
                 = get (URLSearchParams t2) (lit "hash") ->
                 get (URLSearchParams t1) (lit "user")
                 = get (URLSearchParams t2) (lit "user") ->
                 validateTelegramInitData t1 botToken
                 = validateTelegramInitData t2 botToken).
  { intros Hh Hu. unfold validateTelegramInitData.
    rewrite !validateBody_unfold. rewrite <- D, <- Hh.
    unfold identityOf. now rewrite <- Hu. }
  split; [split; [reflexivity | split; [apply sort_sorted | apply sort_perm]]|].
  split; [exact D|]. split; [now rewrite D|]. split; [exact Same|]. split.
  - intros N. apply Same; now apply get_permutation.
  - intros H1 H2.
    assert (NE : truthy_str (computedHash botToken
                               (dataCheckString (URLSearchParams t1))) = true).
    { apply (hashMatches_true_nonempty botToken
               (dataCheckString (URLSearchParams t1))), hashMatches_refl. }
    unfold validateTelegramInitData.
    rewrite !validateBody_unfold. rewrite H2, <- D, H1, NE, hashMatches_refl.
    split; reflexivity.
Qed.

Lemma reordered_pairs_same_signature_witness :
  validateTelegramInitData token_a_b sample_bot_token
  = validateTelegramInitData token_b_a sample_bot_token.
Proof.
  refine (proj1 (proj2 (proj2 (proj2 (proj2
            (reordered_pairs_same_signature token_a_b token_b_a sample_bot_token _))))) _).
  - vm_compute. apply perm_swap.
  - vm_compute. repeat constructor; simpl; intuition discriminate.
Defined.

(** The claim C2 fails when the key [user] is repeated: the two tokens
    have the same pairs and the same hash, which is the correct one, and
    the second verifies while the first is Invalid. *)
Lemma reordered_duplicate_user_differs :
  Permutation (URLSearchParams token_user_x_first)
              (URLSearchParams token_user_x_last)
  /\ get (URLSearchParams token_user_x_first) (lit "hash")
     = get (URLSearchParams token_user_x_last) (lit "hash")
  /\ get (URLSearchParams token_user_x_first) (lit "hash")
     = Some (computedHash sample_bot_token
               (dataCheckString (URLSearchParams token_user_x_first)))
  /\ validateTelegramInitData token_user_x_first sample_bot_token = Invalid
  /\ validateTelegramInitData token_user_x_last sample_bot_token = ValidNoIdentity
  /\ validateTelegramInitData token_user_x_first sample_bot_token
     <> validateTelegramInitData token_user_x_last sample_bot_token.
Proof.
  split; [vm_compute; apply perm_swap|].
  split; [vm_compute; reflexivity|].
  split; [exact token_user_x_hash|].
  split; [exact token_user_x_first_result|].
  split; [exact token_user_x_last_result|].
  rewrite token_user_x_first_result, token_user_x_last_result. discriminate.
Qed.

(** C3.  The verifier returns one of Invalid, ValidNoIdentity and
    ValidWithIdentity(id) for every input and every secret; an exception
    thrown anywhere in its body becomes Invalid; a token without a [hash]
    field is Invalid; a [user] field that is not JSON gives Invalid or
    ValidNoIdentity. *)
Theorem validate_never_throws (initData botToken : jsstring) :
  (validateTelegramInitData initData botToken = Invalid
   \/ validateTelegramInitData initData botToken = ValidNoIdentity
   \/ exists id, validateTelegramInitData initData botToken = ValidWithIdentity id)
  /\ (forall e, validateBody initData botToken = Throw e ->
                validateTelegramInitData initData botToken = Invalid)
  /\ (get (URLSearchParams initData) (lit "hash") = None ->
      validateTelegramInitData initData botToken = Invalid)
  /\ (forall u e, get (URLSearchParams initData) (lit "user") = Some u ->
                  JSON_parse u = Throw e ->
                  validateTelegramInitData initData botToken = Invalid
                  \/ validateTelegramInitData initData botToken = ValidNoIdentity).
Proof.
  unfold validateTelegramInitData. rewrite validateBody_unfold.
  split; [|split; [|split]].
  - destruct (get _ (lit "hash")) as [hash|]; [|now left].
    destruct (negb (truthy_str hash)); [now left|].
    destruct (hashMatches _ hash) as [[|]|]; simpl; auto.
    unfold identityOf. destruct (get _ (lit "user")) as [u|]; simpl; auto.
    destruct (negb (truthy_str u)); simpl; auto.
    destruct (JSON_parse u) as [v|]; simpl; auto.
    destruct (optional_id v) as [[]|]; simpl; auto.
    right; right. eexists; reflexivity.
  - intros e H. now rewrite H.
  - intros H. now rewrite H.
  - intros u e Hu Hp.
    destruct (get _ (lit "hash")) as [hash|]; [|now left].
    destruct (negb (truthy_str hash)); [now left|].
    destruct (hashMatches _ hash) as [[|]|]; simpl; auto.
    unfold identityOf. rewrite Hu.
    destruct (negb (truthy_str u)); simpl; auto.
    rewrite Hp. simpl. auto.
Qed.

Lemma validate_never_throws_witness :
  validateTelegramInitData token_unsigned sample_bot_token = Invalid
  /\ (validateTelegramInitData token_bad_user sample_bot_token = Invalid
      \/ validateTelegramInitData token_bad_user sample_bot_token = ValidNoIdentity).
Proof.
  split.
  - apply (proj1 (proj2 (proj2 (validate_never_throws token_unsigned sample_bot_token)))).
    vm_compute. reflexivity.
  - apply (proj2 (proj2 (proj2 (validate_never_throws token_bad_user sample_bot_token)))
             (lit "x") SyntaxError).
    + vm_compute. reflexivity.
    + vm_compute. reflexivity.
Defined.

(** C4 (as amended).  For a token whose signature matches and whose [user]
    field is present: an empty field is not parsed and gives
    ValidNoIdentity; when the field is not JSON, the parse exception is
    caught and the result is Invalid; when it parses and [id] is a number,
    integer or not, the result is ValidWithIdentity of that number; when it
    parses otherwise, the result is ValidNoIdentity. *)
Theorem matching_signature_identity (initData botToken hash u : jsstring) :
  get (URLSearchParams initData) (lit "hash") = Some hash ->
  hashMatches (computedHash botToken (dataCheckString (URLSearchParams initData))) hash
    = Return true ->
  get (URLSearchParams initData) (lit "user") = Some u ->
  validateTelegramInitData initData botToken
  = if truthy_str u then
      match JSON_parse u with
      | Throw _ => Invalid
      | Return parsedUser =>
          match optional_id parsedUser with
          | Some (JNumber id) => ValidWithIdentity id
          | _ => ValidNoIdentity
          end
      end
    else ValidNoIdentity.
Proof.
  intros Hh Hm Hu. unfold validateTelegramInitData.
  rewrite validateBody_unfold, Hh.
  rewrite (hashMatches_true_nonempty _ _ _ Hm), Hm. simpl.
  unfold identityOf. rewrite Hu.
  destruct (truthy_str u); [|reflexivity]. cbn [negb].
  destruct (JSON_parse u) as [v|]; [|reflexivity]. simpl.
  destruct (optional_id v) as [[]|]; reflexivity.
Qed.

Lemma matching_signature_identity_witness :
  validateTelegramInitData token_bad_user sample_bot_token = Invalid.
Proof.
  rewrite (matching_signature_identity token_bad_user sample_bot_token
             (computedHash sample_bot_token
                (dataCheckString (URLSearchParams token_bad_user)))
             (lit "x")).
  - vm_compute. reflexivity.
  - exact token_bad_user_hash.
  - apply hashMatches_refl.
  - vm_compute. reflexivity.
Defined.

(** The claim C4 fails for a [user] field that is not JSON: the hash of the
    token is the correct one, the field [x] is present and [JSON.parse]
    throws on it, and the result is Invalid, not ValidNoIdentity.  It also
    fails for the identifier 1.5, which is not an integer and is returned
    as the identity. *)
Lemma unparseable_user_is_invalid :
  get (URLSearchParams token_bad_user) (lit "hash")
    = Some (computedHash sample_bot_token
              (dataCheckString (URLSearchParams token_bad_user)))
  /\ get (URLSearchParams token_bad_user) (lit "user") = Some (lit "x")
  /\ JSON_parse (lit "x") = Throw SyntaxError
  /\ validateTelegramInitData token_bad_user sample_bot_token = Invalid
  /\ validateTelegramInitData token_bad_user sample_bot_token <> ValidNoIdentity
  /\ validateTelegramInitData token_fractional_id sample_bot_token
     = ValidWithIdentity id_one_and_a_half.
Proof.
  split; [exact token_bad_user_hash|].
  split; [vm_compute; reflexivity|].
  split; [vm_compute; reflexivity|].
  split; [exact token_bad_user_result|].
  split; [rewrite token_bad_user_result; discriminate|].
  exact token_fractional_id_result.
Qed.

(* ================================================================== *)
(** * The workflow *)
(* ================================================================== *)

(** ** Identities and rows *)

Lemma number_eqb_eq x y : number_eqb x y = true -> x = y.
Proof.
  destruct x, y; simpl; try discriminate.
  - intros H. apply eqb_prop in H. now subst.
  - intros H. apply eqb_prop in H. now subst.
  - rewrite !andb_true_iff. intros [[H1 H2] H3].
    apply eqb_prop in H1. apply Pos.eqb_eq in H2. apply Z.eqb_eq in H3. now subst.
Qed.

Lemma number_eqb_refl x : truthy_number x = true -> number_eqb x x = true.
Proof.
  destruct x; simpl; try discriminate; intros _.
  - apply eqb_reflx.
  - now rewrite eqb_reflx, Pos.eqb_refl, Z.eqb_refl.
Qed.

Lemma rows_of_app id t t' : rows_of id (t ++ t') = rows_of id t ++ rows_of id t'.
Proof. apply filter_app. Qed.

Lemma rows_of_new_row id id' t fn ln un pr p :
  rows_of id' (t ++ [{| first_name := fn; last_name := ln; university := un;
                        program := pr; doc_path := p;
                        telegram_chat_id := Some id |}])
  = rows_of id' t ++
    (if number_eqb id id'
     then [{| first_name := fn; last_name := ln; university := un;
              program := pr; doc_path := p; telegram_chat_id := Some id |}]
     else []).
Proof. unfold rows_of. rewrite filter_app. simpl. unfold has_chat_id. simpl. reflexivity. Qed.

Lemma has_chat_id_updated id id' fn ln un pr p r :
  has_chat_id id' (if has_chat_id id r then updated fn ln un pr p r else r)
  = has_chat_id id' r.
Proof. destruct (has_chat_id id r); reflexivity. Qed.

Lemma rows_of_apply_update_length id id' fn ln un pr p t :
  length (rows_of id' (apply_update id fn ln un pr p t)) = length (rows_of id' t).
Proof.
  unfold rows_of, apply_update.
  induction t as [|r t IH]; simpl; auto.
  rewrite has_chat_id_updated. destruct (has_chat_id id' r); simpl; congruence.
Qed.

Lemma rows_of_apply_update id fn ln un pr p t :
  rows_of id (apply_update id fn ln un pr p t)
  = map (updated fn ln un pr p) (rows_of id t).
Proof.
  unfold rows_of, apply_update.
  induction t as [|r t IH]; simpl; auto.
  rewrite has_chat_id_updated.
  destruct (has_chat_id id r) eqn:E; simpl; congruence.
Qed.

Lemma at_most_one_new_identity t id row :
  at_most_one_per_identity t ->
  telegram_chat_id row = Some id -> rows_of id t = [] ->
  at_most_one_per_identity (t ++ [row]).
Proof.
  intros I Hid Hnone id'. rewrite rows_of_app.
  unfold rows_of at 2. simpl. unfold has_chat_id. rewrite Hid.
  destruct (number_eqb id id') eqn:E.
  - apply number_eqb_eq in E. subst id'. rewrite Hnone. simpl. lia.
  - rewrite app_nil_r. apply I.
Qed.

Lemma at_most_one_anonymous t row :
  at_most_one_per_identity t ->
  telegram_chat_id row = None ->
  at_most_one_per_identity (t ++ [row]).
Proof.
  intros I Hid id'. rewrite rows_of_app.
  unfold rows_of at 2. simpl. unfold has_chat_id. rewrite Hid.
  rewrite app_nil_r. apply I.
Qed.

(** ** The identity check of [POST] *)

Lemma resolveIdentity_cases e o w :
  (exists id, resolveIdentity e o w = (Continue (Some id), w, [CallSelect id])
              /\ truthy_number id = true /\ select_error e = None
              /\ rows_of id (table w) = [])
  \/ (resolveIdentity e o w = (Continue None, w, [])
      /\ (truthy o = None \/ truthy (TELEGRAM_BOT_TOKEN e) = None))
  \/ (exists r t, resolveIdentity e o w = (Respond r, w, t)
                  /\ (forall row, ~ In (CallInsert row) t)
                  /\ (forall p f c, ~ In (CallUpload p f c) t)
                  /\ (status r = 409 -> exists id, t = [CallSelect id] /\ rows_of id (table w) <> [])).
Proof.
  unfold resolveIdentity.
  destruct (truthy o) as [d|]; [|right; left; auto].
  destruct (truthy (TELEGRAM_BOT_TOKEN e)) as [tk|]; [|right; left; auto].
  destruct (valid (validateTelegramInitData d tk)) eqn:V.
  2:{ right; right. unfold hbind, return_if. simpl. do 2 eexists. split; [reflexivity|].
      trace_facts. }
  destruct (truthy_id (userId (validateTelegramInitData d tk))) as [id|] eqn:U.
  2:{ right; right. unfold hbind, return_if. simpl. do 2 eexists. split; [reflexivity|].
      trace_facts. }
  assert (T : truthy_number id = true).
  { unfold truthy_id in U. destruct (userId _) as [x|]; [|discriminate].
    destruct (truthy_number x) eqn:Tx; inversion U; subst; auto. }
  unfold rows_of.
  destruct (select_error e) as [err|] eqn:SE;
    [|destruct (filter (has_chat_id id) (table w)) as [|row rest] eqn:R];
    unfold hbind, return_if, db_select; rewrite ?SE; simpl; rewrite ?R; simpl.
  - right; right. do 2 eexists. split; [reflexivity|].
    trace_facts.
  - left. exists id. auto.
  - right; right. do 2 eexists. split; [reflexivity|].
    trace_facts. exists id. split; auto. rewrite R. discriminate.
Qed.

Lemma resolveIdentity_continue e o w oid w' t :
  resolveIdentity e o w = (Continue oid, w', t) ->
  w' = w /\
  match oid with
  | Some id => t = [CallSelect id] /\ truthy_number id = true
               /\ select_error e = None /\ rows_of id (table w) = []
  | None => t = [] /\ (truthy o = None \/ truthy (TELEGRAM_BOT_TOKEN e) = None)
  end.
Proof.
  intros H.
  destruct (resolveIdentity_cases e o w)
    as [(id & R & F)|[(R & F)|(resp & t0 & R & _)]]; rewrite R in H;
    inversion H; subst; auto.
Qed.

Lemma resolveIdentity_respond e o w resp w' t :
  resolveIdentity e o w = (Respond resp, w', t) ->
  w' = w
  /\ (forall row, ~ In (CallInsert row) t)
  /\ (forall p f c, ~ In (CallUpload p f c) t)
  /\ (status resp = 409 -> exists id, t = [CallSelect id] /\ rows_of id (table w) <> []).
Proof.
  intros H.
  destruct (resolveIdentity_cases e o w)
    as [(id & R & F)|[(R & F)|(resp0 & t0 & R & F)]]; rewrite R in H;
    inversion H; subst; auto.
Qed.

Lemma resolves_run e fd id w :
  resolves e fd id ->
  resolveIdentity e (form_string fd "initData") w
  = match select_error e with
    | Some _ => (Respond (json_status (Message "Tekshirishda xatolik") 500), w, [CallSelect id])
    | None =>
        match rows_of id (table w) with
        | [] => (Continue (Some id), w, [CallSelect id])
        | _ :: _ => (Respond (json_status (Message "Siz allaqachon topshirdingiz") 409),
                     w, [CallSelect id])
        end
    end.
Proof.
  intros (d & tk & Hd & Ht & Hv & Hid).
  unfold resolveIdentity. rewrite Hd, Ht, Hv.
  cbn [valid userId ValidWithIdentity negb truthy_id]. rewrite Hid.
  unfold rows_of, hbind, return_if, db_select.
  destruct (select_error e); simpl; [reflexivity|].
  destruct (filter (has_chat_id id) (table w)); reflexivity.
Qed.

(** ** [POST] step by step *)

Lemma storeSubmission_run e fn ln un pr doc oid w :
  storeSubmission e fn ln un pr doc oid w =
  let c := CallUpload (filePath e doc) doc (contentTypeOf doc) in
  let failed := json_status (Message "Failed to upload document") 500 in
  match upload_error e with
  | Some _ => (Respond failed, w, [c])
  | None =>
      let w1 := {| table := table w; bucket := bucket w ++ [(filePath e doc, doc)] |} in
      match truthy (upload_path e) with
      | None => (Respond failed, w1, [c])
      | Some p =>
          let row := {| first_name := fn; last_name := ln; university := un;
                        program := pr; doc_path := Some p;
                        telegram_chat_id := oid |} in
          match insert_error e with
          | Some _ =>
              (Respond (json_status (Message "Failed to save submission") 500),
               w1, [c; CallInsert row])
          | None =>
              (Continue (json_response OkTrue),
               {| table := table w ++ [row]; bucket := bucket w1 |},
               [c; CallInsert row])
          end
      end
  end.
Proof.
  unfold storeSubmission, upload_document, storage_upload, db_insert, hbind, return_if.
  destruct (upload_error e); simpl; [reflexivity|].
  destruct (truthy (upload_path e)); simpl; [|reflexivity].
  destruct (insert_error e); reflexivity.
Qed.

Lemma POST_fields e r w fd fn ln un pr doc :
  formData r = Some fd -> create_fields fd fn ln un pr doc ->
  POST e r w
  = hbind (resolveIdentity e (form_string fd "initData"))
          (storeSubmission e fn ln un pr doc) w.
Proof.
  intros F (H1 & H2 & H3 & H4 & H5). unfold POST.
  now rewrite F, H1, H2, H3, H4, H5.
Qed.

Lemma POST_missing e r w fd :
  formData r = Some fd ->
  (forall fn ln un pr doc, ~ create_fields fd fn ln un pr doc) ->
  POST e r w = (Respond (missing_fields_response), w, []).
Proof.
  intros F H. unfold POST. rewrite F.
  destruct (truthy (form_string fd "firstName")) as [fn|] eqn:H1; [|reflexivity].
  destruct (truthy (form_string fd "lastName")) as [ln|] eqn:H2; [|reflexivity].
  destruct (truthy (form_string fd "university")) as [un|] eqn:H3; [|reflexivity].
  destruct (truthy (form_string fd "program")) as [pr|] eqn:H4; [|reflexivity].
  destruct (form_get fd (lit "document")) as [[s|doc]|] eqn:H5; try reflexivity.
  exfalso. apply (H fn ln un pr doc). unfold create_fields. auto.
Qed.

Lemma create_fields_dec fd :
  (exists fn ln un pr doc, create_fields fd fn ln un pr doc)
  \/ (forall fn ln un pr doc, ~ create_fields fd fn ln un pr doc).
Proof.
  unfold create_fields.
  destruct (truthy (form_string fd "firstName")) as [fn|];
    [|right; intros ? ? ? ? ? (H & _); discriminate H].
  destruct (truthy (form_string fd "lastName")) as [ln|];
    [|right; intros ? ? ? ? ? (_ & H & _); discriminate H].
  destruct (truthy (form_string fd "university")) as [un|];
    [|right; intros ? ? ? ? ? (_ & _ & H & _); discriminate H].
  destruct (truthy (form_string fd "program")) as [pr|];
    [|right; intros ? ? ? ? ? (_ & _ & _ & H & _); discriminate H].
  destruct (form_get fd (lit "document")) as [[s|doc]|];
    try (right; intros ? ? ? ? ? (_ & _ & _ & _ & H); discriminate H).
  left. exists fn, ln, un, pr, doc. auto.
Qed.

Lemma POST_outcomes e r w : POST_outcome e r w (run (POST e r) w).
Proof.
  destruct (formData r) as [fd|] eqn:F.
  2:{ unfold run, POST. rewrite F. now constructor. }
  destruct (create_fields_dec fd) as [(fn & ln & un & pr & doc & C)|C].
  2:{ unfold run. rewrite (POST_missing e r w fd F C). now apply post_missing with fd. }
  unfold run. rewrite (POST_fields e r w fd fn ln un pr doc F C).
  unfold hbind.
  destruct (resolveIdentity_cases e (form_string fd "initData") w)
    as [(id & R & _)|[(R & _)|(resp & t & R & _)]]; rewrite R.
  - destruct (storeSubmission e fn ln un pr doc (Some id) w) as [[s w'] t'] eqn:S.
    replace (match s with Continue r0 | Respond r0 => (r0, w', [CallSelect id] ++ t') end)
      with (match s with Continue x => x | Respond x => x end, w', [CallSelect id] ++ t')
      by (destruct s; reflexivity).
    eapply post_stored; eauto.
  - destruct (storeSubmission e fn ln un pr doc None w) as [[s w'] t'] eqn:S.
    replace (match s with Continue r0 | Respond r0 => (r0, w', [] ++ t') end)
      with (match s with Continue x => x | Respond x => x end, w', [] ++ t')
      by (destruct s; reflexivity).
    eapply post_stored; eauto.
  - eapply post_rejected; eauto.
Qed.

Lemma POST_keeps_at_most_one e r w :
  at_most_one_per_identity (table w) ->
  at_most_one_per_identity (table (world_after (run (POST e r) w))).
Proof.
  intros I. destruct (POST_outcomes e r w) as [F|fd F C|fd fn ln un pr doc resp t F C R
                                              |fd fn ln un pr doc oid t s w' t' F C R S];
    unfold world_after; simpl; auto.
  rewrite storeSubmission_run in S. cbv zeta in S.
  apply resolveIdentity_continue in R. destruct R as [_ R].
  destruct (upload_error e); [inversion S; subst; auto|].
  destruct (truthy (upload_path e)); [|inversion S; subst; auto].
  destruct (insert_error e); inversion S; subst; simpl; auto.
  destruct oid as [id|].
  - destruct R as (_ & _ & _ & R). now apply at_most_one_new_identity with id.
  - now apply at_most_one_anonymous.
Qed.

(** ** [PUT] and [GET] step by step *)

Lemma PUT_found e r w fd id fn ln un pr row rest :
  formData r = Some fd -> resolves e fd id -> update_fields fd fn ln un pr ->
  select_error e = None -> rows_of id (table w) = row :: rest ->
  PUT e r w
  = match reviseSubmission e id fn ln un pr (form_get fd (lit "document")) row w with
    | (s, w', t) => (s, w', CallSelect id :: t)
    end.
Proof.
  intros F (d & tk & Hd & Ht & Hv & Hid) (H1 & H2 & H3 & H4) S R.
  unfold PUT. rewrite F, Hd, Ht, Hv.
  cbn [valid userId ValidWithIdentity truthy_id]. rewrite Hid, H1, H2, H3, H4.
  unfold hbind at 1. unfold db_select. rewrite S.
  unfold hbind at 1. unfold return_if. cbn [error is_error data respond pure].
  fold (rows_of id (table w)). rewrite R. cbn [firstn].
  destruct (reviseSubmission _ _ _ _ _ _ _ _ _) as [[s w'] t]. reflexivity.
Qed.

Lemma reviseSubmission_keep e id fn ln un pr doc row w :
  (forall f, doc <> Some (FormFile f)) ->
  update_error e = None ->
  reviseSubmission e id fn ln un pr doc row w
  = (Continue (json_response (OkDocPath (doc_path row))),
     {| table := apply_update id fn ln un pr (doc_path row) (table w);
        bucket := bucket w |},
     [CallUpdate id fn ln un pr (doc_path row)]).
Proof.
  intros Hdoc U. unfold reviseSubmission.
  assert (E : match doc with
              | Some (FormFile file) =>
                  path <~ upload_document e file
                            (json_status (Message "Faylni yuklashda xatolik") 500) ;;
                  pure (Some path)
              | _ => pure (doc_path row)
              end = pure (doc_path row)).
  { destruct doc as [[s|f]|]; try reflexivity. now destruct (Hdoc f). }
  rewrite E. unfold hbind, pure, db_update, return_if. rewrite U. reflexivity.
Qed.

Lemma reviseSubmission_replace e id fn ln un pr f p row w :
  upload_error e = None -> truthy (upload_path e) = Some p ->
  update_error e = None ->
  reviseSubmission e id fn ln un pr (Some (FormFile f)) row w
  = (Continue (json_response (OkDocPath (Some p))),
     {| table := apply_update id fn ln un pr (Some p) (table w);
        bucket := bucket w ++ [(filePath e f, f)] |},
     [CallUpload (filePath e f) f (contentTypeOf f);
      CallUpdate id fn ln un pr (Some p)]).
Proof.
  intros UE UP U.
  unfold reviseSubmission, upload_document, storage_upload, hbind, pure,
    db_update, return_if.
  rewrite UE. cbn [error is_error data]. rewrite UP, U. reflexivity.
Qed.

Lemma GET_run e r w :
  run (GET e r) w =
  match truthy (getInitDataFromRequest r), truthy (TELEGRAM_BOT_TOKEN e) with
  | Some initData, Some botToken =>
      let v := validateTelegramInitData initData botToken in
      match (if valid v then truthy_id (userId v) else None) with
      | None => (json_response ExistsFalse, w, [])
      | Some id =>
          match select_error e with
          | Some _ => (json_status (Message "Tekshirishda xatolik") 500, w, [CallSelect id])
          | None =>
              (json_response
                 (ExistsWith (negb (is_empty (rows_of id (table w))))
                             (option_map project (hd_error (rows_of id (table w))))),
               w, [CallSelect id])
          end
      end
  | _, _ => (json_response ExistsFalse, w, [])
  end.
Proof.
  unfold run, GET.
  destruct (truthy (getInitDataFromRequest r)) as [d|]; [|reflexivity].
  destruct (truthy (TELEGRAM_BOT_TOKEN e)) as [tk|]; [|reflexivity].
  cbv zeta.
  destruct (if valid _ then _ else _) as [id|]; [|reflexivity].
  unfold hbind, db_select, return_if, rows_of.
  destruct (select_error e); [reflexivity|]. simpl.
  destruct (filter (has_chat_id id) (table w)); reflexivity.
Qed.

Lemma GET_world e r w : world_after (run (GET e r) w) = w.
Proof.
  rewrite GET_run.
  destruct (truthy (getInitDataFromRequest r)); [|reflexivity].
  destruct (truthy (TELEGRAM_BOT_TOKEN e)); [|reflexivity].
  cbv zeta. destruct (if valid _ then _ else _); [|reflexivity].
  destruct (select_error e); reflexivity.
Qed.

Lemma PUT_table e r w :
  table (world_after (run (PUT e r) w)) = table w
  \/ exists id fn ln un pr p,
       table (world_after (run (PUT e r) w)) = apply_update id fn ln un pr p (table w).
Proof.
  remember (run (PUT e r) w) as x eqn:X.
  unfold run, PUT in X.
  destruct (formData r) as [fd|]; [|subst; now left].
  destruct (truthy (form_string fd "initData")) as [d|]; [|subst; now left].
  destruct (truthy (TELEGRAM_BOT_TOKEN e)) as [tk|]; [|subst; now left].
  cbv zeta in X.
  destruct (if valid _ then _ else _) as [id|]; [|subst; now left].
  destruct (truthy (form_string fd "firstName")) as [fn|]; [|subst; now left].
  destruct (truthy (form_string fd "lastName")) as [ln|]; [|subst; now left].
  destruct (truthy (form_string fd "university")) as [un|]; [|subst; now left].
  destruct (truthy (form_string fd "program")) as [pr|]; [|subst; now left].
  unfold hbind at 1 in X. unfold db_select in X.
  destruct (select_error e); [subst; now left|].
  unfold hbind at 1 in X. unfold return_if in X.
  cbn [error is_error data respond pure firstn] in X.
  destruct (filter (has_chat_id id) (table w)) as [|row rest]; [subst; now left|].
  unfold reviseSubmission, upload_document, storage_upload, db_update, hbind,
    return_if, pure in X.
  destruct (form_get fd (lit "document")) as [[s|f]|].
  - destruct (update_error e); simpl in X; subst; [now left|].
    right. now exists id, fn, ln, un, pr, (doc_path row).
  - destruct (upload_error e); simpl in X; [subst; now left|].
    destruct (truthy (upload_path e)) as [p|]; simpl in X; [|subst; now left].
    destruct (update_error e); simpl in X; subst; [now left|].
    right. now exists id, fn, ln, un, pr, (Some p).
  - destruct (update_error e); simpl in X; subst; [now left|].
    right. now exists id, fn, ln, un, pr, (doc_path row).
Qed.

Lemma PUT_keeps_at_most_one e r w :
  at_most_one_per_identity (table w) ->
  at_most_one_per_identity (table (world_after (run (PUT e r) w))).
Proof.
  intros I. destruct (PUT_table e r w) as [E|(id & fn & ln & un & pr & p & E)]; rewrite E; auto.
  intros id'. rewrite rows_of_apply_update_length. apply I.
Qed.

(** ** The sample requests *)

Lemma sample_create_fields doc d :
  create_fields (sample_form (Some doc) d)
    (lit "Ali") (lit "Valiyev") (lit "TATU") (lit "masters") doc.
Proof. unfold create_fields. destruct d; conjs; reflexivity. Qed.

Lemma sample_update_fields doc d :
  update_fields (sample_form doc d)
    (lit "Ali") (lit "Valiyev") (lit "TATU") (lit "masters").
Proof. unfold update_fields. destruct doc, d; conjs; reflexivity. Qed.

Lemma sample_resolves doc e :
  TELEGRAM_BOT_TOKEN e = Some sample_bot_token ->
  resolves e (sample_form doc (Some token_42)) id_42.
Proof.
  intros H. exists token_42, sample_bot_token. rewrite H.
  split; [destruct doc; reflexivity|]. split; [reflexivity|].
  split; [exact token_42_verifies | reflexivity].
Qed.

(* ================================================================== *)
(** * Create *)
(* ================================================================== *)

(** C5.  Every handler keeps at most one row for every identity.  When
    Create is called twice in sequence with tokens of the same identity, starting
    without a row for it and with the collaborators answering, the first
    call succeeds and appends one row, and the second call returns the
    conflict status 409 after the lookup alone: nothing is uploaded or
    inserted and the world is unchanged. *)
Theorem create_twice_conflicts :
  (forall e r w,
      at_most_one_per_identity (table w) ->
      at_most_one_per_identity (table (world_after (run (POST e r) w)))
      /\ at_most_one_per_identity (table (world_after (run (PUT e r) w)))
      /\ at_most_one_per_identity (table (world_after (run (GET e r) w))))
  /\
  (forall e1 e2 r1 r2 w fd1 fd2 fn1 ln1 un1 pr1 doc1 fn2 ln2 un2 pr2 doc2 id p,
      formData r1 = Some fd1 -> create_fields fd1 fn1 ln1 un1 pr1 doc1 ->
      resolves e1 fd1 id ->
      formData r2 = Some fd2 -> create_fields fd2 fn2 ln2 un2 pr2 doc2 ->
      resolves e2 fd2 id ->
      rows_of id (table w) = [] ->
      select_error e1 = None -> upload_error e1 = None ->
      truthy (upload_path e1) = Some p -> insert_error e1 = None ->
      select_error e2 = None ->
      run (POST e1 r1) w
        = (json_response OkTrue,
           {| table := table w ++
                       [{| first_name := fn1; last_name := ln1; university := un1;
                           program := pr1; doc_path := Some p;
                           telegram_chat_id := Some id |}];
              bucket := bucket w ++ [(filePath e1 doc1, doc1)] |},
           [CallSelect id;
            CallUpload (filePath e1 doc1) doc1 (contentTypeOf doc1);
            CallInsert {| first_name := fn1; last_name := ln1; university := un1;
                          program := pr1; doc_path := Some p;
                          telegram_chat_id := Some id |}])
      /\ run (POST e2 r2) (world_after (run (POST e1 r1) w))
         = (json_status (Message "Siz allaqachon topshirdingiz") 409,
            world_after (run (POST e1 r1) w), [CallSelect id])
      /\ rows_of id (table (world_after (run (POST e1 r1) w)))
         = [{| first_name := fn1; last_name := ln1; university := un1;
               program := pr1; doc_path := Some p;
               telegram_chat_id := Some id |}]).
Proof.
  split.
  { intros e r w I. split; [now apply POST_keeps_at_most_one|].
    split; [now apply PUT_keeps_at_most_one | now rewrite GET_world]. }
  intros e1 e2 r1 r2 w fd1 fd2 fn1 ln1 un1 pr1 doc1 fn2 ln2 un2 pr2 doc2 id p
         F1 C1 R1 F2 C2 R2 Hnone S1 U1 P1 I1 S2.
  assert (First : run (POST e1 r1) w
      = (json_response OkTrue,
         {| table := table w ++
                     [{| first_name := fn1; last_name := ln1; university := un1;
                         program := pr1; doc_path := Some p;
                         telegram_chat_id := Some id |}];
            bucket := bucket w ++ [(filePath e1 doc1, doc1)] |},
         [CallSelect id;
          CallUpload (filePath e1 doc1) doc1 (contentTypeOf doc1);
          CallInsert {| first_name := fn1; last_name := ln1; university := un1;
                        program := pr1; doc_path := Some p;
                        telegram_chat_id := Some id |}])).
  { unfold run. rewrite (POST_fields _ _ _ _ _ _ _ _ _ F1 C1).
    unfold hbind. rewrite (resolves_run _ _ _ _ R1), S1, Hnone.
    rewrite storeSubmission_run. cbv zeta. rewrite U1, P1, I1. reflexivity. }
  rewrite First. unfold world_after. cbn [fst snd].
  assert (Hrows : rows_of id (table w ++
                     [{| first_name := fn1; last_name := ln1; university := un1;
                         program := pr1; doc_path := Some p;
                         telegram_chat_id := Some id |}])
                  = [{| first_name := fn1; last_name := ln1; university := un1;
                        program := pr1; doc_path := Some p;
                        telegram_chat_id := Some id |}]).
  { rewrite rows_of_new_row, Hnone.
    destruct R1 as (_ & _ & _ & _ & _ & T).
    now rewrite (number_eqb_refl id T). }
  split; [reflexivity|]. split; [|exact Hrows].
  unfold run. rewrite (POST_fields _ _ _ _ _ _ _ _ _ F2 C2).
  unfold hbind. rewrite (resolves_run _ _ _ _ R2), S2.
  cbn [table]. rewrite Hrows. reflexivity.
Qed.

Lemma create_twice_conflicts_witness :
  run (POST (sample_env (Some sample_bot_token) None None)
            (sample_request (Some sample_file) (Some token_42))) empty_world
  = (json_response OkTrue,
     {| table := [sample_row (Some id_42)];
        bucket := [(sample_path, sample_file)] |},
     [CallSelect id_42;
      CallUpload sample_path sample_file (lit "application/zip");
      CallInsert (sample_row (Some id_42))])
  /\ response_of
       (run (POST (sample_env (Some sample_bot_token) None None)
                  (sample_request (Some sample_file) (Some token_42)))
            {| table := [sample_row (Some id_42)];
               bucket := [(sample_path, sample_file)] |})
     = json_status (Message "Siz allaqachon topshirdingiz") 409.
Proof.
  destruct (proj2 create_twice_conflicts
              (sample_env (Some sample_bot_token) None None)
              (sample_env (Some sample_bot_token) None None)
              (sample_request (Some sample_file) (Some token_42))
              (sample_request (Some sample_file) (Some token_42))
              empty_world
              (sample_form (Some sample_file) (Some token_42))
              (sample_form (Some sample_file) (Some token_42))
              (lit "Ali") (lit "Valiyev") (lit "TATU") (lit "masters") sample_file
              (lit "Ali") (lit "Valiyev") (lit "TATU") (lit "masters") sample_file
              id_42 sample_path
              eq_refl (sample_create_fields _ _)
              (sample_resolves (Some sample_file)
                 (sample_env (Some sample_bot_token) None None) eq_refl)
              eq_refl (sample_create_fields _ _)
              (sample_resolves (Some sample_file)
                 (sample_env (Some sample_bot_token) None None) eq_refl)
              eq_refl eq_refl eq_refl eq_refl eq_refl eq_refl)
    as (First & Second & _).
  split; [exact First|].
  rewrite First in Second. apply (f_equal response_of) in Second. exact Second.
Defined.

(** C6 (as amended).  When the insert call reports an error, a violated
    uniqueness constraint included, Create fails with status 500 and the
    message of a failed save, and the table is unchanged.  The conflict
    status 409 comes from the lookup before the insert only. *)
Theorem insert_error_is_persistence_failure e r w :
  (forall row err,
      In (CallInsert row) (calls_made (run (POST e r) w)) ->
      insert_error e = Some err ->
      response_of (run (POST e r) w)
        = json_status (Message "Failed to save submission") 500
      /\ table (world_after (run (POST e r) w)) = table w)
  /\ (status (response_of (run (POST e r) w)) = 409 ->
      exists id, calls_made (run (POST e r) w) = [CallSelect id]
                 /\ rows_of id (table w) <> []).
Proof.
  destruct (POST_outcomes e r w) as [F|fd F C|fd fn ln un pr doc resp t F C R
                                    |fd fn ln un pr doc oid t s w' t' F C R S];
    unfold response_of, world_after, calls_made; simpl.
  - split; [intros ? ? []|discriminate].
  - split; [intros ? ? []|discriminate].
  - apply resolveIdentity_respond in R. destruct R as (_ & NI & _ & H409).
    split; [|exact H409]. intros row err Hin. now apply NI in Hin.
  - rewrite storeSubmission_run in S. cbv zeta in S.
    apply resolveIdentity_continue in R. destruct R as [_ R].
    assert (T : forall row, ~ In (CallInsert row) t).
    { intros row. destruct oid; [destruct R as [-> _]|destruct R as [-> _]];
        simpl; intuition discriminate. }
    destruct (upload_error e); [inversion S; subst; simpl|].
    { split; [|discriminate]. intros row err Hin.
      apply in_app_or in Hin. destruct Hin as [Hin|Hin]; [now apply T in Hin|].
      simpl in Hin. intuition discriminate. }
    destruct (truthy (upload_path e)); [|inversion S; subst; simpl].
    2:{ split; [|discriminate]. intros row err Hin.
        apply in_app_or in Hin. destruct Hin as [Hin|Hin]; [now apply T in Hin|].
        simpl in Hin. intuition discriminate. }
    destruct (insert_error e); inversion S; subst; simpl.
    + split; [auto|discriminate].
    + split; [|discriminate]. intros row err _ H. discriminate H.
Qed.

Lemma insert_error_is_persistence_failure_witness :
  response_of (run (POST (sample_env None None (Some UniqueViolation))
                         (sample_request (Some sample_file) None)) empty_world)
    = json_status (Message "Failed to save submission") 500
  /\ table (world_after
              (run (POST (sample_env None None (Some UniqueViolation))
                         (sample_request (Some sample_file) None)) empty_world))
     = [].
Proof.
  apply (proj1 (insert_error_is_persistence_failure
                  (sample_env None None (Some UniqueViolation))
                  (sample_request (Some sample_file) None) empty_world)
               (sample_row None) UniqueViolation).
  - vm_compute. auto.
  - reflexivity.
Defined.

(** The claim C6 fails: the identity 42 has no row at the lookup, the
    insert reports a violated uniqueness constraint, and Create answers
    500, not the conflict status 409. *)
Lemma unique_violation_gives_500 :
  insert_error (sample_env (Some sample_bot_token) None (Some UniqueViolation))
    = Some UniqueViolation
  /\ response_of
       (run (POST (sample_env (Some sample_bot_token) None (Some UniqueViolation))
                  (sample_request (Some sample_file) (Some token_42))) empty_world)
     = json_status (Message "Failed to save submission") 500
  /\ status (response_of
       (run (POST (sample_env (Some sample_bot_token) None (Some UniqueViolation))
                  (sample_request (Some sample_file) (Some token_42))) empty_world))
     <> 409.
Proof.
  assert (H : response_of
       (run (POST (sample_env (Some sample_bot_token) None (Some UniqueViolation))
                  (sample_request (Some sample_file) (Some token_42))) empty_world)
     = json_status (Message "Failed to save submission") 500).
  { unfold run.
    rewrite (POST_fields
               (sample_env (Some sample_bot_token) None (Some UniqueViolation))
               (sample_request (Some sample_file) (Some token_42))
               empty_world (sample_form (Some sample_file) (Some token_42))
               _ _ _ _ _ eq_refl (sample_create_fields sample_file _)).
    unfold hbind.
    rewrite (resolves_run
               (sample_env (Some sample_bot_token) None (Some UniqueViolation))
               (sample_form (Some sample_file) (Some token_42)) id_42)
      by (apply sample_resolves; reflexivity).
    reflexivity. }
  split; [reflexivity|]. split; [exact H|]. rewrite H. discriminate.
Qed.

(** C7 (as amended).  Create answers 400 with the message of missing
    fields, before any call to the blob store or the repository, exactly
    when one of the four text fields is absent or empty or [document] is
    not a File.  The size of the File is not examined. *)
Theorem missing_fields_iff e r w fd :
  formData r = Some fd ->
  (truthy (form_string fd "firstName") = None
   \/ truthy (form_string fd "lastName") = None
   \/ truthy (form_string fd "university") = None
   \/ truthy (form_string fd "program") = None
   \/ (forall f, form_get fd (lit "document") <> Some (FormFile f)))
  <-> run (POST e r) w = (missing_fields_response, w, []).
Proof.
  intros F. split.
  - intros H. unfold run. rewrite (POST_missing e r w fd F); [reflexivity|].
    intros fn ln un pr doc (H1 & H2 & H3 & H4 & H5).
    destruct H as [H|[H|[H|[H|H]]]]; try congruence; now apply (H doc).
  - intros H.
    destruct (create_fields_dec fd) as [(fn & ln & un & pr & doc & C)|C].
    + exfalso. unfold run in H.
      rewrite (POST_fields e r w fd fn ln un pr doc F C) in H. unfold hbind in H.
      destruct (resolveIdentity_cases e (form_string fd "initData") w)
        as [(id & R & _)|[(R & _)|(resp & t & R & _)]]; rewrite R in H.
      * rewrite storeSubmission_run in H. cbv zeta in H.
        destruct (upload_error e); [discriminate H|].
        destruct (truthy (upload_path e)); [|discriminate H].
        destruct (insert_error e); discriminate H.
      * rewrite storeSubmission_run in H. cbv zeta in H.
        destruct (upload_error e); [discriminate H|].
        destruct (truthy (upload_path e)); [|discriminate H].
        destruct (insert_error e); discriminate H.
      * unfold resolveIdentity in R.
        destruct (truthy (form_string fd "initData")); [|discriminate R].
        destruct (truthy (TELEGRAM_BOT_TOKEN e)); [|discriminate R].
        unfold hbind, return_if, db_select in R.
        destruct (negb _); [inversion R; subst; discriminate H|].
        simpl in R.
        destruct (truthy_id _); [|inversion R; subst; discriminate H].
        destruct (select_error e); simpl in R; [inversion R; subst; discriminate H|].
        destruct (filter _ _); simpl in R; inversion R; subst; discriminate H.
    + unfold create_fields in C.
      destruct (truthy (form_string fd "firstName")) as [fn|]; auto.
      destruct (truthy (form_string fd "lastName")) as [ln|]; auto.
      destruct (truthy (form_string fd "university")) as [un|]; auto.
      destruct (truthy (form_string fd "program")) as [pr|]; auto.
      do 4 right. intros f Hf. apply (C fn ln un pr f). auto.
Qed.

Lemma missing_fields_iff_witness :
  run (POST (sample_env None None None) (sample_request None None)) empty_world
  = (missing_fields_response, empty_world, []).
Proof.
  apply (proj1 (missing_fields_iff (sample_env None None None)
                  (sample_request None None)
                  empty_world (sample_form None None) eq_refl)).
  do 4 right. intros f. vm_compute. discriminate.
Defined.

(** The claim C7 fails for a document of zero bytes: Create does not answer
    with missing fields; it uploads the empty file and inserts a row. *)
Lemma empty_document_is_stored :
  file_bytes empty_file = []
  /\ response_of (run (POST (sample_env None None None)
                            (sample_request (Some empty_file) None)) empty_world)
     = json_response OkTrue
  /\ response_of (run (POST (sample_env None None None)
                            (sample_request (Some empty_file) None)) empty_world)
     <> missing_fields_response
  /\ In (CallUpload (filePath (sample_env None None None) empty_file) empty_file
                    (lit "application/zip"))
        (calls_made (run (POST (sample_env None None None)
                               (sample_request (Some empty_file) None)) empty_world))
  /\ length (table (world_after
               (run (POST (sample_env None None None)
                          (sample_request (Some empty_file) None)) empty_world)))
     = 1%nat.
Proof.
  vm_compute. conjs; auto. discriminate.
Qed.

(** ** Create without a configured secret *)

Lemma POST_without_secret e r w fd :
  truthy (TELEGRAM_BOT_TOKEN e) = None ->
  formData r = Some fd ->
  POST e r w =
  match truthy (form_string fd "firstName"),
        truthy (form_string fd "lastName"),
        truthy (form_string fd "university"),
        truthy (form_string fd "program"),
        form_get fd (lit "document") with
  | Some fn, Some ln, Some un, Some pr, Some (FormFile doc) =>
      storeSubmission e fn ln un pr doc None w
  | _, _, _, _, _ => (Respond missing_fields_response, w, [])
  end.
Proof.
  intros T F. unfold POST. rewrite F.
  destruct (truthy (form_string fd "firstName")) as [fn|]; [|reflexivity].
  destruct (truthy (form_string fd "lastName")) as [ln|]; [|reflexivity].
  destruct (truthy (form_string fd "university")) as [un|]; [|reflexivity].
  destruct (truthy (form_string fd "program")) as [pr|]; [|reflexivity].
  destruct (form_get fd (lit "document")) as [[s|doc]|]; try reflexivity.
  unfold hbind, resolveIdentity. rewrite T.
  destruct (truthy (form_string fd "initData")); simpl;
    destruct (storeSubmission e fn ln un pr doc None w) as [[s w'] t']; reflexivity.
Qed.

(** C10.  Without a configured secret the outcome of Create does not
    depend on the token: two forms that differ in [initData] only give the
    same response, world and calls, so a forged, unparseable or absent
    token gives what the anonymous path gives.  No lookup is made, and a
    row that is inserted has a null identity key.  A form with the four
    fields and the document is answered [{ok: true}] when the upload and
    the insert succeed, after exactly the upload and the insert of the row
    of the submitted fields with a null identity key, which is appended to
    the table. *)
Theorem create_without_secret_ignores_token e r1 r2 w fd1 fd2 :
  truthy (TELEGRAM_BOT_TOKEN e) = None ->
  formData r1 = Some fd1 -> formData r2 = Some fd2 ->
  (forall name, name <> lit "initData" -> form_get fd1 name = form_get fd2 name) ->
  run (POST e r1) w = run (POST e r2) w
  /\ (forall id, ~ In (CallSelect id) (calls_made (run (POST e r1) w)))
  /\ (forall row, In (CallInsert row) (calls_made (run (POST e r1) w)) ->
                  telegram_chat_id row = None)
  /\ (status (response_of (run (POST e r1) w)) = 200 ->
      exists row, telegram_chat_id row = None
                  /\ table (world_after (run (POST e r1) w)) = table w ++ [row])
  /\ (forall fn ln un pr doc p,
         create_fields fd1 fn ln un pr doc ->
         upload_error e = None -> truthy (upload_path e) = Some p ->
         insert_error e = None ->
         run (POST e r1) w
         = (json_response OkTrue,
            {| table := table w ++
                        [{| first_name := fn; last_name := ln; university := un;
                            program := pr; doc_path := Some p;
                            telegram_chat_id := None |}];
               bucket := bucket w ++ [(filePath e doc, doc)] |},
            [CallUpload (filePath e doc) doc (contentTypeOf doc);
             CallInsert {| first_name := fn; last_name := ln; university := un;
                           program := pr; doc_path := Some p;
                           telegram_chat_id := None |}])).
Proof.
  intros T F1 F2 Same.
  assert (Stored : forall fn ln un pr doc p,
         create_fields fd1 fn ln un pr doc ->
         upload_error e = None -> truthy (upload_path e) = Some p ->
         insert_error e = None ->
         run (POST e r1) w
         = (json_response OkTrue,
            {| table := table w ++
                        [{| first_name := fn; last_name := ln; university := un;
                            program := pr; doc_path := Some p;
                            telegram_chat_id := None |}];
               bucket := bucket w ++ [(filePath e doc, doc)] |},
            [CallUpload (filePath e doc) doc (contentTypeOf doc);
             CallInsert {| first_name := fn; last_name := ln; university := un;
                           program := pr; doc_path := Some p;
                           telegram_chat_id := None |}])).
  { intros fn ln un pr doc p (H1 & H2 & H3 & H4 & H5) UE UP IE. unfold run.
    rewrite (POST_without_secret e r1 w fd1 T F1), H1, H2, H3, H4, H5.
    rewrite storeSubmission_run. cbv zeta. now rewrite UE, UP, IE. }
  assert (Same_run : run (POST e r1) w = run (POST e r2) w
  /\ (forall id, ~ In (CallSelect id) (calls_made (run (POST e r1) w)))
  /\ (forall row, In (CallInsert row) (calls_made (run (POST e r1) w)) ->
                  telegram_chat_id row = None)
  /\ (status (response_of (run (POST e r1) w)) = 200 ->
      exists row, telegram_chat_id row = None
                  /\ table (world_after (run (POST e r1) w)) = table w ++ [row])).
  { unfold run.
    rewrite (POST_without_secret e r1 w fd1 T F1), (POST_without_secret e r2 w fd2 T F2).
    unfold form_string.
    rewrite <- !Same by (vm_compute; discriminate).
    split; [reflexivity|].
    fold (form_string fd1 "firstName") (form_string fd1 "lastName")
         (form_string fd1 "university") (form_string fd1 "program").
    unfold response_of, world_after, calls_made.
    destruct (truthy (form_string fd1 "firstName")) as [fn|]; [|trace_facts].
    destruct (truthy (form_string fd1 "lastName")) as [ln|]; [|trace_facts].
    destruct (truthy (form_string fd1 "university")) as [un|]; [|trace_facts].
    destruct (truthy (form_string fd1 "program")) as [pr|]; [|trace_facts].
    destruct (form_get fd1 (lit "document")) as [[s|doc]|]; try solve [trace_facts].
    rewrite storeSubmission_run. cbv zeta.
    destruct (upload_error e); [trace_facts|].
    destruct (truthy (upload_path e)); [|trace_facts].
    destruct (insert_error e); [trace_facts|].
    - destruct H as [H|[H|[]]]; [discriminate H|]. now inversion H.
    - conjs; simpl.
      + intros id. intuition discriminate.
      + intros row [H|[H|[]]]; [discriminate H|]. now inversion H.
      + intros _. eexists. split; [|reflexivity]. reflexivity. }
  destruct Same_run as (A & B & C & D).
  split; [exact A|]. split; [exact B|]. split; [exact C|].
  split; [exact D | exact Stored].
Qed.

Lemma create_without_secret_ignores_token_witness :
  run (POST (sample_env None None None)
            (sample_request (Some sample_file) (Some token_bad_user))) empty_world
  = run (POST (sample_env None None None)
              (sample_request (Some sample_file) None)) empty_world
  /\ run (POST (sample_env None None None)
               (sample_request (Some sample_file) (Some token_bad_user))) empty_world
     = (json_response OkTrue,
        {| table := [sample_row None]; bucket := [(sample_path, sample_file)] |},
        [CallUpload sample_path sample_file (lit "application/zip");
         CallInsert (sample_row None)]).
Proof.
  destruct (create_without_secret_ignores_token (sample_env None None None)
              (sample_request (Some sample_file) (Some token_bad_user))
              (sample_request (Some sample_file) None) empty_world
              (sample_form (Some sample_file) (Some token_bad_user))
              (sample_form (Some sample_file) None)
              eq_refl eq_refl eq_refl) as (A & _ & _ & _ & E).
  - intros name Hn. unfold sample_form. cbn [app form_get].
    repeat match goal with
           | |- context [str_eqb ?a name] =>
               destruct (str_eqb a name) eqn:?; [reflexivity|]
           end.
    destruct (str_eqb (lit "initData") name) eqn:E; [|reflexivity].
    apply str_eqb_eq in E. congruence.
  - split; [exact A|].
    exact (E (lit "Ali") (lit "Valiyev") (lit "TATU") (lit "masters")
             sample_file sample_path
             (sample_create_fields sample_file (Some token_bad_user))
             eq_refl eq_refl eq_refl).
Defined.

(* ================================================================== *)
(** * Update and lookup *)
(* ================================================================== *)

(** C8.  For an identity with a stored submission, with the lookup and
    the update answering: Update without a new document writes the path of
    the row found into the rows of the identity, uploads nothing and
    returns that path, so that with one row for the identity no stored path
    changes; Update with a new document stores and returns the path
    reported for the fresh upload and no other.  In both cases the rows of
    the identity take the four text fields supplied and keep their identity
    key, and every other row stays as it is. *)
Theorem update_document_path e r w fd id fn ln un pr row rest :
  formData r = Some fd -> resolves e fd id -> update_fields fd fn ln un pr ->
  select_error e = None -> rows_of id (table w) = row :: rest ->
  update_error e = None ->
  ((forall f, form_get fd (lit "document") <> Some (FormFile f)) ->
   run (PUT e r) w
     = (json_response (OkDocPath (doc_path row)),
        {| table :=
             map (fun x => if has_chat_id id x
                           then {| first_name := fn; last_name := ln;
                                university := un; program := pr;
                                doc_path := doc_path row;
                                telegram_chat_id := telegram_chat_id x |}
                           else x)
                 (table w);
           bucket := bucket w |},
        [CallSelect id; CallUpdate id fn ln un pr (doc_path row)])
   /\ rows_of id (table (world_after (run (PUT e r) w)))
      = map (fun x => {| first_name := fn; last_name := ln;
                         university := un; program := pr;
                         doc_path := doc_path row;
                         telegram_chat_id := telegram_chat_id x |})
            (row :: rest)
   /\ (rest = [] ->
       map doc_path (table (world_after (run (PUT e r) w)))
       = map doc_path (table w)))
  /\
  (forall f p,
      form_get fd (lit "document") = Some (FormFile f) ->
      upload_error e = None -> truthy (upload_path e) = Some p ->
      run (PUT e r) w
        = (json_response (OkDocPath (Some p)),
           {| table :=
                map (fun x => if has_chat_id id x
                              then {| first_name := fn; last_name := ln;
                                   university := un; program := pr;
                                   doc_path := Some p;
                                   telegram_chat_id := telegram_chat_id x |}
                              else x)
                    (table w);
              bucket := bucket w ++ [(filePath e f, f)] |},
           [CallSelect id; CallUpload (filePath e f) f (contentTypeOf f);
            CallUpdate id fn ln un pr (Some p)])
      /\ rows_of id (table (world_after (run (PUT e r) w)))
         = map (fun x => {| first_name := fn; last_name := ln;
                            university := un; program := pr;
                            doc_path := Some p;
                            telegram_chat_id := telegram_chat_id x |})
               (row :: rest)).
Proof.
  intros F R C S Hrows U. split.
  - intros Hdoc.
    assert (E : run (PUT e r) w
     = (json_response (OkDocPath (doc_path row)),
        {| table :=
             map (fun x => if has_chat_id id x
                           then {| first_name := fn; last_name := ln;
                                university := un; program := pr;
                                doc_path := doc_path row;
                                telegram_chat_id := telegram_chat_id x |}
                           else x)
                 (table w);
           bucket := bucket w |},
        [CallSelect id; CallUpdate id fn ln un pr (doc_path row)])).
    { unfold run. rewrite (PUT_found e r w fd id fn ln un pr row rest F R C S Hrows).
      now rewrite (reviseSubmission_keep _ _ _ _ _ _ _ _ _ Hdoc U). }
    split; [exact E|].
    rewrite E. unfold world_after. cbn [fst snd table]. split.
    + pose proof (rows_of_apply_update id fn ln un pr (doc_path row) (table w)) as Q.
      rewrite Hrows in Q. exact Q.
    + intros Hrest. rewrite map_map. apply map_ext_in. intros x Hx.
      destruct (has_chat_id id x) eqn:Hc; [|reflexivity].
      cbn [doc_path].
      assert (Hin : In x (rows_of id (table w))) by (apply filter_In; auto).
      rewrite Hrows, Hrest in Hin. destruct Hin as [Hin|[]]. now subst x.
  - intros f p Hdoc UE UP.
    assert (E : run (PUT e r) w
        = (json_response (OkDocPath (Some p)),
           {| table :=
                map (fun x => if has_chat_id id x
                              then {| first_name := fn; last_name := ln;
                                   university := un; program := pr;
                                   doc_path := Some p;
                                   telegram_chat_id := telegram_chat_id x |}
                              else x)
                    (table w);
              bucket := bucket w ++ [(filePath e f, f)] |},
           [CallSelect id; CallUpload (filePath e f) f (contentTypeOf f);
            CallUpdate id fn ln un pr (Some p)])).
    { unfold run. rewrite (PUT_found e r w fd id fn ln un pr row rest F R C S Hrows).
      now rewrite Hdoc, (reviseSubmission_replace _ _ _ _ _ _ _ _ _ _ UE UP U). }
    split; [exact E|].
    rewrite E. unfold world_after. cbn [fst snd table].
    pose proof (rows_of_apply_update id fn ln un pr (Some p) (table w)) as Q.
    rewrite Hrows in Q. exact Q.
Qed.

Lemma update_document_path_witness :
  run (PUT (sample_env (Some sample_bot_token) None None)
           (sample_request None (Some token_42)))
      {| table := [stored_row]; bucket := [] |}
  = (json_response (OkDocPath (doc_path stored_row)),
     {| table := [{| first_name := lit "Ali"; last_name := lit "Valiyev";
                     university := lit "TATU"; program := lit "masters";
                     doc_path := doc_path stored_row;
                     telegram_chat_id := Some id_42 |}];
        bucket := [] |},
     [CallSelect id_42;
      CallUpdate id_42 (lit "Ali") (lit "Valiyev") (lit "TATU") (lit "masters")
                 (doc_path stored_row)])
  /\ run (PUT (sample_env (Some sample_bot_token) None None)
              (sample_request (Some sample_file) (Some token_42)))
         {| table := [stored_row]; bucket := [] |}
     = (json_response (OkDocPath (Some sample_path)),
        {| table := [sample_row (Some id_42)];
           bucket := [(sample_path, sample_file)] |},
        [CallSelect id_42;
         CallUpload sample_path sample_file (lit "application/zip");
         CallUpdate id_42 (lit "Ali") (lit "Valiyev") (lit "TATU") (lit "masters")
                    (Some sample_path)]).
Proof.
  split.
  - destruct (update_document_path
                (sample_env (Some sample_bot_token) None None)
                (sample_request None (Some token_42))
                {| table := [stored_row]; bucket := [] |}
                (sample_form None (Some token_42)) id_42
                (lit "Ali") (lit "Valiyev") (lit "TATU") (lit "masters")
                stored_row [] eq_refl
                (sample_resolves None
                   (sample_env (Some sample_bot_token) None None) eq_refl)
                (sample_update_fields _ _) eq_refl eq_refl eq_refl) as [K _].
    destruct K as [K _]; [intros f; vm_compute; discriminate|].
    rewrite K. reflexivity.
  - destruct (update_document_path
                (sample_env (Some sample_bot_token) None None)
                (sample_request (Some sample_file) (Some token_42))
                {| table := [stored_row]; bucket := [] |}
                (sample_form (Some sample_file) (Some token_42)) id_42
                (lit "Ali") (lit "Valiyev") (lit "TATU") (lit "masters")
                stored_row [] eq_refl
                (sample_resolves (Some sample_file)
                   (sample_env (Some sample_bot_token) None None) eq_refl)
                (sample_update_fields _ _) eq_refl eq_refl eq_refl) as [_ K].
    destruct (K sample_file sample_path eq_refl eq_refl eq_refl) as [K' _].
    rewrite K'. reflexivity.
Defined.

(** C9 (as amended).  Lookup never changes the world.  Without a token or
    without a configured secret, and for a token that is invalid or carries
    no identity, it answers [{exists: false}] with status 200 and calls no
    collaborator.  With an identity it makes the select for that identity
    and nothing else: when the select succeeds it answers with status 200
    and [{exists, submission}], the projection of the first row of the
    identity or [false] and [null] when there is none; when the select
    fails it answers with status 500, the only other status. *)
Theorem lookup_result e r w :
  world_after (run (GET e r) w) = w
  /\ (truthy (getInitDataFromRequest r) = None
      \/ truthy (TELEGRAM_BOT_TOKEN e) = None ->
      run (GET e r) w = (json_response ExistsFalse, w, []))
  /\ (forall initData botToken,
         truthy (getInitDataFromRequest r) = Some initData ->
         truthy (TELEGRAM_BOT_TOKEN e) = Some botToken ->
         valid (validateTelegramInitData initData botToken) = false
         \/ truthy_id (userId (validateTelegramInitData initData botToken)) = None ->
         run (GET e r) w = (json_response ExistsFalse, w, []))
  /\ (select_error e = None ->
      status (response_of (run (GET e r) w)) = 200
      /\ (payload (response_of (run (GET e r) w)) = ExistsFalse
          \/ exists found submission,
               payload (response_of (run (GET e r) w))
               = ExistsWith found submission))
  /\ (status (response_of (run (GET e r) w)) <> 200 ->
      response_of (run (GET e r) w)
        = json_status (Message "Tekshirishda xatolik") 500
      /\ select_error e <> None
      /\ exists id, calls_made (run (GET e r) w) = [CallSelect id])
  /\ (forall initData botToken id,
         truthy (getInitDataFromRequest r) = Some initData ->
         truthy (TELEGRAM_BOT_TOKEN e) = Some botToken ->
         validateTelegramInitData initData botToken = ValidWithIdentity id ->
         truthy_number id = true ->
         match select_error e with
         | None =>
             run (GET e r) w
             = (json_response
                  match rows_of id (table w) with
                  | [] => ExistsWith false None
                  | row :: _ =>
                      ExistsWith true
                        (Some {| p_firstName := first_name row;
                                 p_lastName := last_name row;
                                 p_university := university row;
                                 p_program := program row;
                                 p_docPath := doc_path row |})
                  end,
                w, [CallSelect id])
         | Some _ =>
             run (GET e r) w
             = (json_status (Message "Tekshirishda xatolik") 500, w, [CallSelect id])
         end).
Proof.
  assert (Resolved : forall initData botToken id,
         truthy (getInitDataFromRequest r) = Some initData ->
         truthy (TELEGRAM_BOT_TOKEN e) = Some botToken ->
         validateTelegramInitData initData botToken = ValidWithIdentity id ->
         truthy_number id = true ->
         match select_error e with
         | None =>
             run (GET e r) w
             = (json_response
                  match rows_of id (table w) with
                  | [] => ExistsWith false None
                  | row :: _ =>
                      ExistsWith true
                        (Some {| p_firstName := first_name row;
                                 p_lastName := last_name row;
                                 p_university := university row;
                                 p_program := program row;
                                 p_docPath := doc_path row |})
                  end,
                w, [CallSelect id])
         | Some _ =>
             run (GET e r) w
             = (json_status (Message "Tekshirishda xatolik") 500, w, [CallSelect id])
         end).
  { intros d tk id Hd Ht Hv Hid. rewrite GET_run, Hd, Ht, Hv. cbv zeta.
    cbn [valid userId ValidWithIdentity truthy_id]. rewrite Hid.
    destruct (select_error e); [reflexivity|].
    destruct (rows_of id (table w)); reflexivity. }
  assert (Others : world_after (run (GET e r) w) = w
  /\ (truthy (getInitDataFromRequest r) = None
      \/ truthy (TELEGRAM_BOT_TOKEN e) = None ->
      run (GET e r) w = (json_response ExistsFalse, w, []))
  /\ (forall initData botToken,
         truthy (getInitDataFromRequest r) = Some initData ->
         truthy (TELEGRAM_BOT_TOKEN e) = Some botToken ->
         valid (validateTelegramInitData initData botToken) = false
         \/ truthy_id (userId (validateTelegramInitData initData botToken)) = None ->
         run (GET e r) w = (json_response ExistsFalse, w, []))
  /\ (select_error e = None ->
      status (response_of (run (GET e r) w)) = 200
      /\ (payload (response_of (run (GET e r) w)) = ExistsFalse
          \/ exists found submission,
               payload (response_of (run (GET e r) w))
               = ExistsWith found submission))
  /\ (status (response_of (run (GET e r) w)) <> 200 ->
      response_of (run (GET e r) w)
        = json_status (Message "Tekshirishda xatolik") 500
      /\ select_error e <> None
      /\ exists id, calls_made (run (GET e r) w) = [CallSelect id])).
  {
    rewrite GET_run. unfold world_after, response_of, calls_made.
    destruct (truthy (getInitDataFromRequest r)) as [d|].
    2:{ conjs; simpl; auto; try discriminate; try congruence. }
    destruct (truthy (TELEGRAM_BOT_TOKEN e)) as [tk|].
    2:{ conjs; simpl; auto; try discriminate; try congruence. }
    cbv zeta.
    destruct (valid (validateTelegramInitData d tk)) eqn:V.
    2:{ conjs; simpl; auto; try discriminate; try congruence. }
    destruct (truthy_id (userId (validateTelegramInitData d tk))) as [id|] eqn:U.
    2:{ conjs; simpl; auto; try discriminate; try congruence. }
    destruct (select_error e) as [err|] eqn:S; conjs; simpl; auto;
      try discriminate; try congruence.
    - intros [H|H]; discriminate H.
    - intros d' tk' Hd Ht [H|H]; inversion Hd; inversion Ht; subst; congruence.
    - intros _. conjs; [reflexivity | discriminate | now exists id].
    - intros [H|H]; discriminate H.
    - intros d' tk' Hd Ht [H|H]; inversion Hd; inversion Ht; subst; congruence.
    - intros _. split; [reflexivity|]. right. eauto.
  }
  destruct Others as (A & B & C & D & E).
  split; [exact A|]. split; [exact B|]. split; [exact C|]. split; [exact D|].
  split; [exact E | exact Resolved].
Qed.

Lemma lookup_result_witness :
  run (GET (sample_env None None None) (lookup_request (Some token_42))) empty_world
  = (json_response ExistsFalse, empty_world, [])
  /\ run (GET (sample_env (Some sample_bot_token) None None)
              (lookup_request (Some token_42)))
         {| table := [stored_row]; bucket := [] |}
     = (json_response
          (ExistsWith true
             (Some {| p_firstName := lit "Ali"; p_lastName := lit "Vali";
                      p_university := lit "TDIU"; p_program := lit "bachelors";
                      p_docPath :=
                        Some (lit "documents/1690000000000-abc123-old.zip") |})),
        {| table := [stored_row]; bucket := [] |}, [CallSelect id_42]).
Proof.
  split.
  - apply (proj1 (proj2 (lookup_result (sample_env None None None)
                           (lookup_request (Some token_42)) empty_world))).
    right. reflexivity.
  - exact (proj2 (proj2 (proj2 (proj2 (proj2
             (lookup_result (sample_env (Some sample_bot_token) None None)
                (lookup_request (Some token_42))
                {| table := [stored_row]; bucket := [] |})))))
             token_42 sample_bot_token id_42 eq_refl eq_refl
             token_42_verifies eq_refl).
Defined.

(** The claim C9 fails when the select fails: with a valid token of the
    user 42, Lookup answers with status 500. *)
Lemma lookup_surfaces_select_error :
  select_error (sample_env (Some sample_bot_token) (Some OtherError) None)
    = Some OtherError
  /\ response_of
       (run (GET (sample_env (Some sample_bot_token) (Some OtherError) None)
                 (lookup_request (Some token_42))) empty_world)
     = json_status (Message "Tekshirishda xatolik") 500
  /\ status (response_of
       (run (GET (sample_env (Some sample_bot_token) (Some OtherError) None)
                 (lookup_request (Some token_42))) empty_world))
     <> 200.
Proof.
  assert (H : response_of
       (run (GET (sample_env (Some sample_bot_token) (Some OtherError) None)
                 (lookup_request (Some token_42))) empty_world)
     = json_status (Message "Tekshirishda xatolik") 500).
  { rewrite GET_run.
    change (truthy (getInitDataFromRequest (lookup_request (Some token_42))))
      with (Some token_42).
    change (truthy (TELEGRAM_BOT_TOKEN
                      (sample_env (Some sample_bot_token) (Some OtherError) None)))
      with (Some sample_bot_token).
    cbv beta iota zeta. rewrite token_42_verifies. reflexivity. }
  split; [reflexivity|]. split; [exact H|]. rewrite H. discriminate.
Qed.
(* ================================================================== *)
(** * The handlers in full *)
(* ================================================================== *)

(** ** What each handler does, case by case *)

Lemma valid_with_identity v id :
  valid v = true -> userId v = Some id -> v = ValidWithIdentity id.
Proof. destruct v as [b u]. simpl. intros -> ->. reflexivity. Qed.

Lemma truthy_id_some o id :
  truthy_id o = Some id -> o = Some id /\ truthy_number id = true.
Proof.
  destruct o as [x|]; simpl; [|discriminate].
  destruct (truthy_number x) eqn:T; [|discriminate].
  intros H. inversion H. subst. auto.
Qed.

Lemma resolveIdentity_run e o w :
  resolveIdentity e o w =
  match truthy o, truthy (TELEGRAM_BOT_TOKEN e) with
  | Some d, Some tk =>
      if negb (valid (validateTelegramInitData d tk)) then
        (Respond (json_status (Message "Telegram ma'lumotlari tasdiqlanmadi") 401), w, [])
      else
        match truthy_id (userId (validateTelegramInitData d tk)) with
        | None =>
            (Respond (json_status (Message "Telegram foydalanuvchisi aniqlanmadi") 400),
             w, [])
        | Some id =>
            match select_error e with
            | Some _ =>
                (Respond (json_status (Message "Tekshirishda xatolik") 500), w,
                 [CallSelect id])
            | None =>
                match rows_of id (table w) with
                | [] => (Continue (Some id), w, [CallSelect id])
                | _ :: _ =>
                    (Respond (json_status (Message "Siz allaqachon topshirdingiz") 409),
                     w, [CallSelect id])
                end
            end
        end
  | _, _ => (Continue None, w, [])
  end.
Proof.
  unfold resolveIdentity.
  destruct (truthy o) as [d|]; [|reflexivity].
  destruct (truthy (TELEGRAM_BOT_TOKEN e)) as [tk|]; [|reflexivity].
  cbv zeta. unfold hbind at 1. unfold return_if at 1.
  destruct (valid (validateTelegramInitData d tk)); [|reflexivity].
  cbn [negb pure].
  destruct (truthy_id (userId (validateTelegramInitData d tk))) as [id|]; [|reflexivity].
  unfold hbind, db_select, return_if, rows_of.
  destruct (select_error e); [reflexivity|]. cbn.
  destruct (filter (has_chat_id id) (table w)); reflexivity.
Qed.

(** The response, world and calls of [POST]. *)
Lemma POST_run e r w :
  run (POST e r) w =
  match formData r with
  | None => (json_status (Message "Unexpected error") 500, w, [])
  | Some fd =>
      match truthy (form_string fd "firstName"),
            truthy (form_string fd "lastName"),
            truthy (form_string fd "university"),
            truthy (form_string fd "program"),
            form_get fd (lit "document") with
      | Some fn, Some ln, Some un, Some pr, Some (FormFile doc) =>
          match resolveIdentity e (form_string fd "initData") w with
          | (Respond resp, w1, t) => (resp, w1, t)
          | (Continue oid, w1, t) =>
              match storeSubmission e fn ln un pr doc oid w1 with
              | (s, w2, t2) =>
                  (match s with Continue x => x | Respond x => x end, w2, t ++ t2)
              end
          end
      | _, _, _, _, _ => (missing_fields_response, w, [])
      end
  end.
Proof.
  unfold run, POST.
  destruct (formData r) as [fd|]; [|reflexivity].
  destruct (truthy (form_string fd "firstName")); [|reflexivity].
  destruct (truthy (form_string fd "lastName")); [|reflexivity].
  destruct (truthy (form_string fd "university")); [|reflexivity].
  destruct (truthy (form_string fd "program")); [|reflexivity].
  destruct (form_get fd (lit "document")) as [[s|doc]|]; try reflexivity.
  unfold hbind at 1.
  destruct (resolveIdentity e (form_string fd "initData") w) as [[[oid|resp] w1] t];
    [|reflexivity].
  destruct (storeSubmission _ _ _ _ _ _ _ _) as [[[x|x] w2] t2]; reflexivity.
Qed.

(** The part of [PUT] after the row was found. *)
Lemma reviseSubmission_run e id fn ln un pr doc row w :
  reviseSubmission e id fn ln un pr doc row w =
  match doc with
  | Some (FormFile f) =>
      let c := CallUpload (filePath e f) f (contentTypeOf f) in
      let failed := json_status (Message "Faylni yuklashda xatolik") 500 in
      match upload_error e with
      | Some _ => (Respond failed, w, [c])
      | None =>
          let w1 := {| table := table w; bucket := bucket w ++ [(filePath e f, f)] |} in
          match truthy (upload_path e) with
          | None => (Respond failed, w1, [c])
          | Some p =>
              match update_error e with
              | Some _ =>
                  (Respond (json_status (Message "Yangilashda xatolik") 500), w1,
                   [c; CallUpdate id fn ln un pr (Some p)])
              | None =>
                  (Continue (json_response (OkDocPath (Some p))),
                   {| table := apply_update id fn ln un pr (Some p) (table w);
                      bucket := bucket w1 |},
                   [c; CallUpdate id fn ln un pr (Some p)])
              end
          end
      end
  | _ =>
      match update_error e with
      | Some _ =>
          (Respond (json_status (Message "Yangilashda xatolik") 500), w,
           [CallUpdate id fn ln un pr (doc_path row)])
      | None =>
          (Continue (json_response (OkDocPath (doc_path row))),
           {| table := apply_update id fn ln un pr (doc_path row) (table w);
              bucket := bucket w |},
           [CallUpdate id fn ln un pr (doc_path row)])
      end
  end.
Proof.
  unfold reviseSubmission, upload_document, storage_upload, db_update, hbind,
    return_if, pure.
  destruct doc as [[s|f]|].
  - destruct (update_error e); reflexivity.
  - destruct (upload_error e); cbn; [reflexivity|].
    destruct (truthy (upload_path e)); cbn; [|reflexivity].
    destruct (update_error e); reflexivity.
  - destruct (update_error e); reflexivity.
Qed.

(** The response, world and calls of [PUT]. *)
Lemma PUT_run e r w :
  run (PUT e r) w =
  match formData r with
  | None => (json_status (Message "Unexpected error") 500, w, [])
  | Some fd =>
      match truthy (form_string fd "initData"), truthy (TELEGRAM_BOT_TOKEN e) with
      | Some d, Some tk =>
          match (if valid (validateTelegramInitData d tk)
                 then truthy_id (userId (validateTelegramInitData d tk))
                 else None) with
          | None =>
              (json_status (Message "Telegram ma'lumotlari tasdiqlanmadi") 401, w, [])
          | Some id =>
              match truthy (form_string fd "firstName"),
                    truthy (form_string fd "lastName"),
                    truthy (form_string fd "university"),
                    truthy (form_string fd "program") with
              | Some fn, Some ln, Some un, Some pr =>
                  match select_error e with
                  | Some _ =>
                      (json_status (Message "Tekshirishda xatolik") 500, w,
                       [CallSelect id])
                  | None =>
                      match rows_of id (table w) with
                      | [] => (json_status (Message "Topilmadi") 404, w, [CallSelect id])
                      | row :: _ =>
                          match reviseSubmission e id fn ln un pr
                                  (form_get fd (lit "document")) row w with
                          | (s, w', t) =>
                              (match s with Continue x => x | Respond x => x end,
                               w', CallSelect id :: t)
                          end
                      end
                  end
              | _, _, _, _ =>
                  (json_status (Message "Majburiy maydonlar to'ldirilmagan") 400, w, [])
              end
          end
      | _, _ => (json_status (Message "Telegram ma'lumotlari kerak") 400, w, [])
      end
  end.
Proof.
  unfold run, PUT.
  destruct (formData r) as [fd|]; [|reflexivity].
  destruct (truthy (form_string fd "initData")) as [d|]; [|reflexivity].
  destruct (truthy (TELEGRAM_BOT_TOKEN e)) as [tk|]; [|reflexivity].
  cbv zeta.
  destruct (if valid _ then _ else _) as [id|]; [|reflexivity].
  destruct (truthy (form_string fd "firstName")) as [fn|]; [|reflexivity].
  destruct (truthy (form_string fd "lastName")) as [ln|]; [|reflexivity].
  destruct (truthy (form_string fd "university")) as [un|]; [|reflexivity].
  destruct (truthy (form_string fd "program")) as [pr|]; [|reflexivity].
  unfold hbind at 1. unfold db_select.
  destruct (select_error e); [reflexivity|].
  unfold hbind at 1. unfold return_if.
  cbn [error is_error data respond pure firstn].
  fold (rows_of id (table w)).
  destruct (rows_of id (table w)) as [|row rest]; [reflexivity|].
  cbn [firstn].
  destruct (reviseSubmission _ _ _ _ _ _ _ _ _) as [[[x|x] w'] t]; reflexivity.
Qed.

(** [POST] with every case of the identity check and of the store
    written out. *)
Lemma POST_cases e r w :
  run (POST e r) w =
  match formData r with
  | None => (json_status (Message "Unexpected error") 500, w, [])
  | Some fd =>
      match truthy (form_string fd "firstName"),
            truthy (form_string fd "lastName"),
            truthy (form_string fd "university"),
            truthy (form_string fd "program"),
            form_get fd (lit "document") with
      | Some fn, Some ln, Some un, Some pr, Some (FormFile doc) =>
          let store (oid : option number) (t : list call) :=
            let c := CallUpload (filePath e doc) doc (contentTypeOf doc) in
            let failed := json_status (Message "Failed to upload document") 500 in
            match upload_error e with
            | Some _ => (failed, w, t ++ [c])
            | None =>
                let w1 := {| table := table w;
                             bucket := bucket w ++ [(filePath e doc, doc)] |} in
                match truthy (upload_path e) with
                | None => (failed, w1, t ++ [c])
                | Some p =>
                    let row := {| first_name := fn; last_name := ln;
                                  university := un; program := pr;
                                  doc_path := Some p; telegram_chat_id := oid |} in
                    match insert_error e with
                    | Some _ =>
                        (json_status (Message "Failed to save submission") 500,
                         w1, t ++ [c; CallInsert row])
                    | None =>
                        (json_response OkTrue,
                         {| table := table w ++ [row]; bucket := bucket w1 |},
                         t ++ [c; CallInsert row])
                    end
                end
            end in
          match truthy (form_string fd "initData"), truthy (TELEGRAM_BOT_TOKEN e) with
          | Some d, Some tk =>
              if negb (valid (validateTelegramInitData d tk)) then
                (json_status (Message "Telegram ma'lumotlari tasdiqlanmadi") 401, w, [])
              else
                match truthy_id (userId (validateTelegramInitData d tk)) with
                | None =>
                    (json_status (Message "Telegram foydalanuvchisi aniqlanmadi") 400,
                     w, [])
                | Some id =>
                    match select_error e with
                    | Some _ =>
                        (json_status (Message "Tekshirishda xatolik") 500, w,
                         [CallSelect id])
                    | None =>
                        match rows_of id (table w) with
                        | [] => store (Some id) [CallSelect id]
                        | _ :: _ =>
                            (json_status (Message "Siz allaqachon topshirdingiz") 409,
                             w, [CallSelect id])
                        end
                    end
                end
          | _, _ => store None []
          end
      | _, _, _, _, _ => (missing_fields_response, w, [])
      end
  end.
Proof.
  rewrite POST_run.
  destruct (formData r) as [fd|]; [|reflexivity].
  destruct (truthy (form_string fd "firstName")) as [fn|]; [|reflexivity].
  destruct (truthy (form_string fd "lastName")) as [ln|]; [|reflexivity].
  destruct (truthy (form_string fd "university")) as [un|]; [|reflexivity].
  destruct (truthy (form_string fd "program")) as [pr|]; [|reflexivity].
  destruct (form_get fd (lit "document")) as [[s|doc]|]; try reflexivity.
  rewrite resolveIdentity_run. cbv zeta.
  assert (S : forall oid t,
             match storeSubmission e fn ln un pr doc oid w with
             | (s, w2, t2) =>
                 (match s with Continue x => x | Respond x => x end, w2, t ++ t2)
             end
             = match upload_error e with
               | Some _ =>
                   (json_status (Message "Failed to upload document") 500, w,
                    t ++ [CallUpload (filePath e doc) doc (contentTypeOf doc)])
               | None =>
                   match truthy (upload_path e) with
                   | None =>
                       (json_status (Message "Failed to upload document") 500,
                        {| table := table w;
                           bucket := bucket w ++ [(filePath e doc, doc)] |},
                        t ++ [CallUpload (filePath e doc) doc (contentTypeOf doc)])
                   | Some p =>
                       match insert_error e with
                       | Some _ =>
                           (json_status (Message "Failed to save submission") 500,
                            {| table := table w;
                               bucket := bucket w ++ [(filePath e doc, doc)] |},
                            t ++ [CallUpload (filePath e doc) doc (contentTypeOf doc);
                                  CallInsert
                                    {| first_name := fn; last_name := ln;
                                       university := un; program := pr;
                                       doc_path := Some p;
                                       telegram_chat_id := oid |}])
                       | None =>
                           (json_response OkTrue,
                            {| table := table w ++
                                 [{| first_name := fn; last_name := ln;
                                     university := un; program := pr;
                                     doc_path := Some p;
                                     telegram_chat_id := oid |}];
                               bucket := bucket w ++ [(filePath e doc, doc)] |},
                            t ++ [CallUpload (filePath e doc) doc (contentTypeOf doc);
                                  CallInsert
                                    {| first_name := fn; last_name := ln;
                                       university := un; program := pr;
                                       doc_path := Some p;
                                       telegram_chat_id := oid |}])
                       end
                   end
               end).
  { intros oid t. rewrite storeSubmission_run. cbv zeta.
    destruct (upload_error e); [reflexivity|].
    destruct (truthy (upload_path e)); [|reflexivity].
    destruct (insert_error e); reflexivity. }
  destruct (truthy (form_string fd "initData")) as [d|]; [|apply S].
  destruct (truthy (TELEGRAM_BOT_TOKEN e)) as [tk|]; [|apply S].
  destruct (negb (valid (validateTelegramInitData d tk))); [reflexivity|].
  destruct (truthy_id (userId (validateTelegramInitData d tk))) as [id|]; [|reflexivity].
  destruct (select_error e); [reflexivity|].
  destruct (rows_of id (table w)); [apply S | reflexivity].
Qed.

(** [PUT] with every case of the revision written out. *)
Lemma PUT_cases e r w :
  run (PUT e r) w =
  match formData r with
  | None => (json_status (Message "Unexpected error") 500, w, [])
  | Some fd =>
      match truthy (form_string fd "initData"), truthy (TELEGRAM_BOT_TOKEN e) with
      | Some d, Some tk =>
          match (if valid (validateTelegramInitData d tk)
                 then truthy_id (userId (validateTelegramInitData d tk))
                 else None) with
          | None =>
              (json_status (Message "Telegram ma'lumotlari tasdiqlanmadi") 401, w, [])
          | Some id =>
              match truthy (form_string fd "firstName"),
                    truthy (form_string fd "lastName"),
                    truthy (form_string fd "university"),
                    truthy (form_string fd "program") with
              | Some fn, Some ln, Some un, Some pr =>
                  match select_error e with
                  | Some _ =>
                      (json_status (Message "Tekshirishda xatolik") 500, w,
                       [CallSelect id])
                  | None =>
                      match rows_of id (table w) with
                      | [] => (json_status (Message "Topilmadi") 404, w, [CallSelect id])
                      | row :: _ =>
                          let revise (docPath : option jsstring) (w1 : World)
                                     (t : list call) :=
                            match update_error e with
                            | Some _ =>
                                (json_status (Message "Yangilashda xatolik") 500, w1,
                                 CallSelect id
                                 :: t ++ [CallUpdate id fn ln un pr docPath])
                            | None =>
                                (json_response (OkDocPath docPath),
                                 {| table := apply_update id fn ln un pr docPath
                                               (table w);
                                    bucket := bucket w1 |},
                                 CallSelect id
                                 :: t ++ [CallUpdate id fn ln un pr docPath])
                            end in
                          match form_get fd (lit "document") with
                          | Some (FormFile f) =>
                              let c := CallUpload (filePath e f) f (contentTypeOf f) in
                              let failed :=
                                json_status (Message "Faylni yuklashda xatolik") 500 in
                              match upload_error e with
                              | Some _ => (failed, w, [CallSelect id; c])
                              | None =>
                                  let w1 := {| table := table w;
                                               bucket := bucket w
                                                         ++ [(filePath e f, f)] |} in
                                  match truthy (upload_path e) with
                                  | None => (failed, w1, [CallSelect id; c])
                                  | Some p => revise (Some p) w1 [c]
                                  end
                              end
                          | _ => revise (doc_path row) w []
                          end
                      end
                  end
              | _, _, _, _ =>
                  (json_status (Message "Majburiy maydonlar to'ldirilmagan") 400, w, [])
              end
          end
      | _, _ => (json_status (Message "Telegram ma'lumotlari kerak") 400, w, [])
      end
  end.
Proof.
  rewrite PUT_run.
  destruct (formData r) as [fd|]; [|reflexivity].
  destruct (truthy (form_string fd "initData")) as [d|]; [|reflexivity].
  destruct (truthy (TELEGRAM_BOT_TOKEN e)) as [tk|]; [|reflexivity].
  destruct (if valid _ then _ else _) as [id|]; [|reflexivity].
  destruct (truthy (form_string fd "firstName")) as [fn|]; [|reflexivity].
  destruct (truthy (form_string fd "lastName")) as [ln|]; [|reflexivity].
  destruct (truthy (form_string fd "university")) as [un|]; [|reflexivity].
  destruct (truthy (form_string fd "program")) as [pr|]; [|reflexivity].
  destruct (select_error e); [reflexivity|].
  destruct (rows_of id (table w)) as [|row rest]; [reflexivity|].
  rewrite reviseSubmission_run. cbv zeta.
  destruct (form_get fd (lit "document")) as [[s|f]|].
  - destruct (update_error e); reflexivity.
  - destruct (upload_error e); [reflexivity|].
    destruct (truthy (upload_path e)); [|reflexivity].
    destruct (update_error e); reflexivity.
  - destruct (update_error e); reflexivity.
Qed.

(** Case analysis on whatever a goal or a hypothesis matches on. *)
Ltac break_match :=
  match goal with
  | |- context [match ?x with _ => _ end] => destruct x eqn:?
  end.

Ltac break_match_in H :=
  match type of H with
  | context [match ?x with _ => _ end] => destruct x eqn:?
  end.

(** The identity a verified session carries. *)
Lemma resolved_identity d tk id :
  (if valid (validateTelegramInitData d tk)
   then truthy_id (userId (validateTelegramInitData d tk)) else None) = Some id ->
  validateTelegramInitData d tk = ValidWithIdentity id /\ truthy_number id = true.
Proof.
  destruct (valid (validateTelegramInitData d tk)) eqn:V; [|discriminate].
  intros H. apply truthy_id_some in H. destruct H as [U T].
  split; [now apply valid_with_identity | exact T].
Qed.

Lemma resolves_identity e fd id d tk :
  resolves e fd id ->
  truthy (form_string fd "initData") = Some d ->
  truthy (TELEGRAM_BOT_TOKEN e) = Some tk ->
  validateTelegramInitData d tk = ValidWithIdentity id /\ truthy_number id = true.
Proof.
  intros (d' & tk' & Hd & Ht & Hv & Hid) Ed Et.
  rewrite Hd in Ed. rewrite Ht in Et. inversion Ed. inversion Et. subst. auto.
Qed.

Lemma rows_of_self id t row :
  truthy_number id = true -> telegram_chat_id row = Some id ->
  rows_of id (t ++ [row]) = rows_of id t ++ [row].
Proof.
  intros T H. rewrite rows_of_app. f_equal.
  unfold rows_of. simpl. unfold has_chat_id. rewrite H.
  now rewrite (number_eqb_refl id T).
Qed.

(** ** Sample requests *)

(** The sample request with the token of the user 42, on an empty world. *)
Lemma sample_create_run :
  run (POST (sample_env (Some sample_bot_token) None None)
            (sample_request (Some sample_file) (Some token_42))) empty_world
  = (json_response OkTrue,
     {| table := [sample_row (Some id_42)];
        bucket := [(sample_path, sample_file)] |},
     [CallSelect id_42;
      CallUpload sample_path sample_file (lit "application/zip");
      CallInsert (sample_row (Some id_42))]).
Proof.
  unfold run.
  rewrite (POST_fields (sample_env (Some sample_bot_token) None None)
             (sample_request (Some sample_file) (Some token_42)) empty_world
             (sample_form (Some sample_file) (Some token_42))
             _ _ _ _ _ eq_refl
             (sample_create_fields sample_file (Some token_42))).
  unfold hbind.
  pose proof (sample_resolves (Some sample_file)
                (sample_env (Some sample_bot_token) None None) eq_refl) as R.
  rewrite (resolves_run _ _ _ empty_world R).
  cbn [select_error sample_env table empty_world rows_of filter].
  rewrite storeSubmission_run. reflexivity.
Qed.

(** The sample revision without a new document, for the user 42 and the
    row stored earlier. *)
Lemma sample_update_run :
  run (PUT (sample_env (Some sample_bot_token) None None)
           (sample_request None (Some token_42)))
      {| table := [stored_row]; bucket := [] |}
  = (json_response
       (OkDocPath (Some (lit "documents/1690000000000-abc123-old.zip"))),
     {| table := [{| first_name := lit "Ali"; last_name := lit "Valiyev";
                     university := lit "TATU"; program := lit "masters";
                     doc_path := Some (lit "documents/1690000000000-abc123-old.zip");
                     telegram_chat_id := Some id_42 |}];
        bucket := [] |},
     [CallSelect id_42;
      CallUpdate id_42 (lit "Ali") (lit "Valiyev") (lit "TATU") (lit "masters")
        (Some (lit "documents/1690000000000-abc123-old.zip"))]).
Proof.
  pose proof (sample_resolves None
                (sample_env (Some sample_bot_token) None None) eq_refl) as R.
  unfold run.
  rewrite (PUT_found (sample_env (Some sample_bot_token) None None)
             (sample_request None (Some token_42))
             {| table := [stored_row]; bucket := [] |}
             (sample_form None (Some token_42)) id_42
             (lit "Ali") (lit "Valiyev") (lit "TATU") (lit "masters")
             stored_row [] eq_refl R (sample_update_fields _ _) eq_refl eq_refl).
  rewrite reviseSubmission_keep; [reflexivity | intros f; discriminate | reflexivity].
Qed.

(* ================================================================== *)
(** * Further properties of Create *)
(* ================================================================== *)

(** A request that was refused: another status, the table as it was. *)
Ltac refused :=
  solve [right; conjs; simpl; try reflexivity; intro; discriminate].

(** X1.  Create stores all or nothing in the table: either it answers
    [{ok: true}] and the table has gained exactly the row of the submitted
    fields, with the path the store reported for the document, or it
    answers with another status and the table is as it was. *)
Theorem POST_all_or_nothing e r w :
  (response_of (run (POST e r) w) = json_response OkTrue
   /\ exists fd fn ln un pr doc p oid,
        formData r = Some fd /\ create_fields fd fn ln un pr doc
        /\ truthy (upload_path e) = Some p
        /\ world_after (run (POST e r) w)
           = {| table := table w ++
                         [{| first_name := fn; last_name := ln; university := un;
                             program := pr; doc_path := Some p;
                             telegram_chat_id := oid |}];
                bucket := bucket w ++ [(filePath e doc, doc)] |})
  \/ (status (response_of (run (POST e r) w)) <> 200
      /\ payload (response_of (run (POST e r) w)) <> OkTrue
      /\ table (world_after (run (POST e r) w)) = table w).
Proof.
  rewrite POST_cases. unfold response_of, world_after. cbv zeta.
  destruct (formData r) as [fd|] eqn:F; [|refused].
  destruct (truthy (form_string fd "firstName")) as [fn|] eqn:H1; [|refused].
  destruct (truthy (form_string fd "lastName")) as [ln|] eqn:H2; [|refused].
  destruct (truthy (form_string fd "university")) as [un|] eqn:H3; [|refused].
  destruct (truthy (form_string fd "program")) as [pr|] eqn:H4; [|refused].
  destruct (form_get fd (lit "document")) as [[s|doc]|] eqn:H5; try refused.
  assert (C : create_fields fd fn ln un pr doc) by (unfold create_fields; auto).
  repeat break_match; try refused;
    left; (split; [reflexivity|]); cbn [fst snd];
    do 8 eexists; (split; [reflexivity|]); (split; [exact C|]);
    (split; [first [reflexivity | eassumption]|]); reflexivity.
Qed.

(** The cases of a call being in a list of calls that is known. *)
Ltac in_calls H :=
  simpl in H;
  repeat match type of H with
         | _ \/ _ => destruct H as [H|H]
         | False => contradiction
         end;
  try discriminate H.

(** X2.  A row that Create inserts carries an identity key only if the
    token of the form verified under the configured bot token with that
    identity and the identity had no row before; it carries none only if no
    token was sent or no bot token is configured. *)
Theorem stored_identity_is_verified e r w row :
  In (CallInsert row) (calls_made (run (POST e r) w)) ->
  exists fd,
    formData r = Some fd
    /\ match telegram_chat_id row with
       | Some id => resolves e fd id /\ rows_of id (table w) = []
       | None =>
           truthy (form_string fd "initData") = None
           \/ truthy (TELEGRAM_BOT_TOKEN e) = None
       end.
Proof.
  rewrite POST_cases. unfold calls_made. cbv zeta.
  destruct (formData r) as [fd|] eqn:F; [|intros []].
  intros H. exists fd. split; [reflexivity|]. revert H.
  destruct (truthy (form_string fd "firstName")) as [fn|]; [|intros []].
  destruct (truthy (form_string fd "lastName")) as [ln|]; [|intros []].
  destruct (truthy (form_string fd "university")) as [un|]; [|intros []].
  destruct (truthy (form_string fd "program")) as [pr|]; [|intros []].
  destruct (form_get fd (lit "document")) as [[s|doc]|]; try (intros []).
  destruct (truthy (form_string fd "initData")) as [d|] eqn:Hd.
  2:{ intros H; repeat break_match_in H; in_calls H;
      inversion H; subst; cbn [telegram_chat_id]; auto. }
  destruct (truthy (TELEGRAM_BOT_TOKEN e)) as [tk|] eqn:Ht.
  2:{ intros H; repeat break_match_in H; in_calls H;
      inversion H; subst; cbn [telegram_chat_id]; auto. }
  destruct (valid (validateTelegramInitData d tk)) eqn:V; cbn [negb]; [|intros []].
  destruct (truthy_id (userId (validateTelegramInitData d tk))) as [id|] eqn:U;
    [|intros []].
  apply truthy_id_some in U. destruct U as [U T].
  pose proof (valid_with_identity _ _ V U) as Hv.
  destruct (select_error e); [intros [H|[]]; discriminate H|].
  destruct (rows_of id (table w)) eqn:R; [|intros [H|[]]; discriminate H].
  intros H; repeat break_match_in H; in_calls H;
    inversion H; subst; cbn [telegram_chat_id];
    (split; [exists d, tk; auto | assumption]).
Qed.

Lemma stored_identity_is_verified_witness :
  exists fd,
    formData (sample_request (Some sample_file) (Some token_42)) = Some fd
    /\ resolves (sample_env (Some sample_bot_token) None None) fd id_42
    /\ rows_of id_42 (table empty_world) = [].
Proof.
  destruct (stored_identity_is_verified
              (sample_env (Some sample_bot_token) None None)
              (sample_request (Some sample_file) (Some token_42))
              empty_world (sample_row (Some id_42))) as (fd & F & R).
  - rewrite sample_create_run. unfold calls_made. cbn [snd].
    right. right. left. reflexivity.
  - exists fd. split; [exact F|]. exact R.
Defined.

(** X3.  With a bot token configured, a form whose token does not verify
    is refused with status 401, and one whose token verifies without a
    usable identity (no [user], no numeric [id], or the [id] 0) with status
    400; in both cases no collaborator is called and the world is as it
    was.  Nothing is stored as anonymous when a token was sent. *)
Theorem POST_rejects_unverified_token e r w fd fn ln un pr doc d tk :
  formData r = Some fd -> create_fields fd fn ln un pr doc ->
  truthy (form_string fd "initData") = Some d ->
  truthy (TELEGRAM_BOT_TOKEN e) = Some tk ->
  (valid (validateTelegramInitData d tk) = false ->
   run (POST e r) w
   = (json_status (Message "Telegram ma'lumotlari tasdiqlanmadi") 401, w, []))
  /\ (valid (validateTelegramInitData d tk) = true ->
      truthy_id (userId (validateTelegramInitData d tk)) = None ->
      run (POST e r) w
      = (json_status (Message "Telegram foydalanuvchisi aniqlanmadi") 400, w, [])).
Proof.
  intros F (H1 & H2 & H3 & H4 & H5) Hd Ht.
  rewrite POST_cases, F, H1, H2, H3, H4, H5, Hd, Ht. cbv zeta.
  split.
  - intros V. now rewrite V.
  - intros V U. now rewrite V, U.
Qed.

Lemma POST_rejects_unverified_token_witness :
  run (POST (sample_env (Some sample_bot_token) None None)
            (sample_request (Some sample_file) (Some token_bad_user))) empty_world
  = (json_status (Message "Telegram ma'lumotlari tasdiqlanmadi") 401, empty_world, [])
  /\ run (POST (sample_env (Some sample_bot_token) None None)
               (sample_request (Some sample_file) (Some token_user_x_last)))
         empty_world
     = (json_status (Message "Telegram foydalanuvchisi aniqlanmadi") 400,
        empty_world, []).
Proof.
  split.
  - apply (proj1 (POST_rejects_unverified_token
                    (sample_env (Some sample_bot_token) None None)
                    (sample_request (Some sample_file) (Some token_bad_user))
                    empty_world
                    (sample_form (Some sample_file) (Some token_bad_user))
                    (lit "Ali") (lit "Valiyev") (lit "TATU") (lit "masters")
                    sample_file token_bad_user sample_bot_token
                    eq_refl (sample_create_fields _ _) eq_refl eq_refl)).
    now rewrite token_bad_user_result.
  - apply (proj2 (POST_rejects_unverified_token
                    (sample_env (Some sample_bot_token) None None)
                    (sample_request (Some sample_file) (Some token_user_x_last))
                    empty_world
                    (sample_form (Some sample_file) (Some token_user_x_last))
                    (lit "Ali") (lit "Valiyev") (lit "TATU") (lit "masters")
                    sample_file token_user_x_last sample_bot_token
                    eq_refl (sample_create_fields _ _) eq_refl eq_refl)).
    + now rewrite token_user_x_last_result.
    + now rewrite token_user_x_last_result.
Defined.

(** X4.  Create never takes an upload back.  When the store refuses the
    upload, nothing is stored and nothing is inserted; once the store took
    the document it stays in the bucket, also when the store reports no
    path or the insert fails, in which cases the answer is 500 and the
    table is as it was. *)
Theorem POST_keeps_the_upload e r w p f c :
  In (CallUpload p f c) (calls_made (run (POST e r) w)) ->
  p = filePath e f /\ c = contentTypeOf f
  /\ match upload_error e with
     | Some _ =>
         world_after (run (POST e r) w) = w
         /\ response_of (run (POST e r) w)
            = json_status (Message "Failed to upload document") 500
         /\ forall row, ~ In (CallInsert row) (calls_made (run (POST e r) w))
     | None =>
         bucket (world_after (run (POST e r) w)) = bucket w ++ [(p, f)]
         /\ match truthy (upload_path e) with
            | None =>
                table (world_after (run (POST e r) w)) = table w
                /\ response_of (run (POST e r) w)
                   = json_status (Message "Failed to upload document") 500
                /\ forall row, ~ In (CallInsert row) (calls_made (run (POST e r) w))
            | Some _ =>
                match insert_error e with
                | Some _ =>
                    table (world_after (run (POST e r) w)) = table w
                    /\ response_of (run (POST e r) w)
                       = json_status (Message "Failed to save submission") 500
                | None => response_of (run (POST e r) w) = json_response OkTrue
                end
            end
     end.
Proof.
  rewrite POST_cases. unfold calls_made, world_after, response_of. cbv zeta.
  destruct (formData r) as [fd|]; [|intros []].
  destruct (truthy (form_string fd "firstName")) as [fn|]; [|intros []].
  destruct (truthy (form_string fd "lastName")) as [ln|]; [|intros []].
  destruct (truthy (form_string fd "university")) as [un|]; [|intros []].
  destruct (truthy (form_string fd "program")) as [pr|]; [|intros []].
  destruct (form_get fd (lit "document")) as [[s|doc]|]; try (intros []).
  destruct (upload_error e) as [ue|];
    [|destruct (truthy (upload_path e)) as [path|];
      [destruct (insert_error e) as [ie|]|]];
    repeat break_match; intros H; in_calls H; inversion H; subst;
    conjs; try reflexivity; intros row K; in_calls K.
Qed.

Lemma POST_keeps_the_upload_witness :
  bucket (world_after
            (run (POST (sample_env None None (Some OtherError))
                       (sample_request (Some sample_file) None)) empty_world))
  = [(sample_path, sample_file)]
  /\ table (world_after
              (run (POST (sample_env None None (Some OtherError))
                         (sample_request (Some sample_file) None)) empty_world))
     = []
  /\ response_of
       (run (POST (sample_env None None (Some OtherError))
                  (sample_request (Some sample_file) None)) empty_world)
     = json_status (Message "Failed to save submission") 500.
Proof.
  destruct (POST_keeps_the_upload
              (sample_env None None (Some OtherError))
              (sample_request (Some sample_file) None) empty_world
              sample_path sample_file (lit "application/zip"))
    as (_ & _ & B & T & R).
  - vm_compute. left. reflexivity.
  - split; [exact B|]. split; [exact T | exact R].
Defined.

(* ================================================================== *)
(** * Further properties of Update *)
(* ================================================================== *)

(** ** Updated tables *)

Lemma has_chat_id_key id row :
  has_chat_id id row = true -> telegram_chat_id row = Some id.
Proof.
  unfold has_chat_id. destruct (telegram_chat_id row) as [x|]; [|discriminate].
  intros H. apply number_eqb_eq in H. now subst.
Qed.

Lemma apply_update_keys id fn ln un pr p t :
  map telegram_chat_id (apply_update id fn ln un pr p t) = map telegram_chat_id t.
Proof.
  unfold apply_update. rewrite map_map. apply map_ext.
  intros row. now destruct (has_chat_id id row).
Qed.

Lemma apply_update_nth id fn ln un pr p t i row :
  nth_error t i = Some row -> telegram_chat_id row <> Some id ->
  nth_error (apply_update id fn ln un pr p t) i = Some row.
Proof.
  intros H K. unfold apply_update.
  rewrite nth_error_map, H. cbn [option_map].
  destruct (has_chat_id id row) eqn:E; [|reflexivity].
  now apply has_chat_id_key in E.
Qed.

Lemma apply_update_twice id fn ln un pr p t :
  apply_update id fn ln un pr p (apply_update id fn ln un pr p t)
  = apply_update id fn ln un pr p t.
Proof.
  unfold apply_update. rewrite map_map. apply map_ext.
  intros row. destruct (has_chat_id id row) eqn:E.
  - replace (has_chat_id id (updated fn ln un pr p row)) with true; reflexivity.
  - now rewrite E.
Qed.

(** What [PUT] does to the table, and when. *)
Lemma PUT_effect e r w :
  (status (response_of (run (PUT e r) w)) <> 200
   /\ table (world_after (run (PUT e r) w)) = table w)
  \/ exists fd id fn ln un pr row rest,
       formData r = Some fd /\ resolves e fd id /\ update_fields fd fn ln un pr
       /\ select_error e = None /\ update_error e = None
       /\ rows_of id (table w) = row :: rest
       /\ run (PUT e r) w
          = match form_get fd (lit "document") with
            | Some (FormFile f) =>
                (json_response (OkDocPath (truthy (upload_path e))),
                 {| table := apply_update id fn ln un pr (truthy (upload_path e))
                               (table w);
                    bucket := bucket w ++ [(filePath e f, f)] |},
                 [CallSelect id; CallUpload (filePath e f) f (contentTypeOf f);
                  CallUpdate id fn ln un pr (truthy (upload_path e))])
            | _ =>
                (json_response (OkDocPath (doc_path row)),
                 {| table := apply_update id fn ln un pr (doc_path row) (table w);
                    bucket := bucket w |},
                 [CallSelect id; CallUpdate id fn ln un pr (doc_path row)])
            end.
Proof.
  rewrite PUT_cases. unfold response_of, world_after. cbv zeta.
  destruct (formData r) as [fd|] eqn:F; [|left; trace_facts].
  destruct (truthy (form_string fd "initData")) as [d|] eqn:Hd; [|left; trace_facts].
  destruct (truthy (TELEGRAM_BOT_TOKEN e)) as [tk|] eqn:Ht; [|left; trace_facts].
  destruct (if valid _ then _ else _) as [id|] eqn:V; [|left; trace_facts].
  apply resolved_identity in V. destruct V as [V T].
  assert (R : resolves e fd id) by (exists d, tk; auto).
  destruct (truthy (form_string fd "firstName")) as [fn|] eqn:H1; [|left; trace_facts].
  destruct (truthy (form_string fd "lastName")) as [ln|] eqn:H2; [|left; trace_facts].
  destruct (truthy (form_string fd "university")) as [un|] eqn:H3; [|left; trace_facts].
  destruct (truthy (form_string fd "program")) as [pr|] eqn:H4; [|left; trace_facts].
  assert (C : update_fields fd fn ln un pr) by (unfold update_fields; auto).
  destruct (select_error e) eqn:S; [left; trace_facts|].
  destruct (rows_of id (table w)) as [|row rest] eqn:Hrows; [left; trace_facts|].
  destruct (update_error e) eqn:U.
  { left. repeat break_match; trace_facts. }
  destruct (form_get fd (lit "document")) as [[s|f]|] eqn:D.
  - right. exists fd, id, fn, ln, un, pr, row, rest. conjs; auto; now rewrite D.
  - destruct (upload_error e); [left; trace_facts|].
    destruct (truthy (upload_path e)) as [p|]; [|left; trace_facts].
    right. exists fd, id, fn, ln, un, pr, row, rest. conjs; auto; now rewrite D.
  - right. exists fd, id, fn, ln, un, pr, row, rest. conjs; auto; now rewrite D.
Qed.

(** X5.  Update asks for the session before anything else: without a
    token or without a configured bot token it answers 400, with a token
    that does not verify or carries no usable identity 401, whatever the
    other fields are; only then are the four text fields required.  In each
    of these cases no collaborator is called and the world is as it was. *)
Theorem PUT_checks_session_first e r w fd :
  formData r = Some fd ->
  (truthy (form_string fd "initData") = None
   \/ truthy (TELEGRAM_BOT_TOKEN e) = None ->
   run (PUT e r) w = (json_status (Message "Telegram ma'lumotlari kerak") 400, w, []))
  /\ (forall d tk,
         truthy (form_string fd "initData") = Some d ->
         truthy (TELEGRAM_BOT_TOKEN e) = Some tk ->
         valid (validateTelegramInitData d tk) = false
         \/ truthy_id (userId (validateTelegramInitData d tk)) = None ->
         run (PUT e r) w
         = (json_status (Message "Telegram ma'lumotlari tasdiqlanmadi") 401, w, []))
  /\ (forall id,
         resolves e fd id ->
         truthy (form_string fd "firstName") = None
         \/ truthy (form_string fd "lastName") = None
         \/ truthy (form_string fd "university") = None
         \/ truthy (form_string fd "program") = None ->
         run (PUT e r) w
         = (json_status (Message "Majburiy maydonlar to'ldirilmagan") 400, w, [])).
Proof.
  intros F. rewrite PUT_cases, F. conjs.
  - intros [H|H]; rewrite H; [reflexivity|].
    now destruct (truthy (form_string fd "initData")).
  - intros d tk Hd Ht [H|H]; rewrite Hd, Ht, ?H; [reflexivity|].
    now destruct (valid (validateTelegramInitData d tk)).
  - intros id (d & tk & Hd & Ht & Hv & Hid) H.
    rewrite Hd, Ht, Hv. cbn [valid userId ValidWithIdentity truthy_id].
    rewrite Hid.
    destruct H as [H|[H|[H|H]]]; rewrite H; repeat break_match; reflexivity.
Qed.

Lemma PUT_checks_session_first_witness :
  run (PUT (sample_env (Some sample_bot_token) None None)
           (sample_request (Some sample_file) None)) empty_world
  = (json_status (Message "Telegram ma'lumotlari kerak") 400, empty_world, [])
  /\ run (PUT (sample_env (Some sample_bot_token) None None)
              (sample_request (Some sample_file) (Some token_bad_user))) empty_world
     = (json_status (Message "Telegram ma'lumotlari tasdiqlanmadi") 401,
        empty_world, []).
Proof.
  split.
  - apply (proj1 (PUT_checks_session_first
                    (sample_env (Some sample_bot_token) None None)
                    (sample_request (Some sample_file) None) empty_world
                    (sample_form (Some sample_file) None) eq_refl)).
    left. reflexivity.
  - apply (proj1 (proj2 (PUT_checks_session_first
                    (sample_env (Some sample_bot_token) None None)
                    (sample_request (Some sample_file) (Some token_bad_user))
                    empty_world
                    (sample_form (Some sample_file) (Some token_bad_user)) eq_refl))
             token_bad_user sample_bot_token eq_refl eq_refl).
    left. now rewrite token_bad_user_result.
Defined.

(** X6.  Update for an identity without a row answers 404 after the
    lookup alone; and whenever Update answers 404, it made the lookup and
    nothing else, found no row of the identity of the session, and left the
    world as it was. *)
Theorem PUT_not_found e r w :
  (forall fd id fn ln un pr,
      formData r = Some fd -> resolves e fd id -> update_fields fd fn ln un pr ->
      select_error e = None -> rows_of id (table w) = [] ->
      run (PUT e r) w = (json_status (Message "Topilmadi") 404, w, [CallSelect id]))
  /\ (status (response_of (run (PUT e r) w)) = 404 ->
      exists fd id,
        formData r = Some fd /\ resolves e fd id
        /\ rows_of id (table w) = []
        /\ run (PUT e r) w = (json_status (Message "Topilmadi") 404, w, [CallSelect id])).
Proof.
  split.
  - intros fd id fn ln un pr F (d & tk & Hd & Ht & Hv & Hid) (H1 & H2 & H3 & H4) S R.
    rewrite PUT_cases, F, Hd, Ht, Hv.
    cbn [valid userId ValidWithIdentity truthy_id].
    now rewrite Hid, H1, H2, H3, H4, S, R.
  - rewrite PUT_cases. unfold response_of. cbv zeta.
    destruct (formData r) as [fd|] eqn:F; [|discriminate].
    destruct (truthy (form_string fd "initData")) as [d|] eqn:Hd; [|discriminate].
    destruct (truthy (TELEGRAM_BOT_TOKEN e)) as [tk|] eqn:Ht; [|discriminate].
    destruct (if valid _ then _ else _) as [id|] eqn:V; [|discriminate].
    apply resolved_identity in V. destruct V as [V T].
    assert (R : resolves e fd id) by (exists d, tk; auto).
    destruct (truthy (form_string fd "firstName")) as [fn|]; [|discriminate].
    destruct (truthy (form_string fd "lastName")) as [ln|]; [|discriminate].
    destruct (truthy (form_string fd "university")) as [un|]; [|discriminate].
    destruct (truthy (form_string fd "program")) as [pr|]; [|discriminate].
    destruct (select_error e); [discriminate|].
    destruct (rows_of id (table w)) as [|row rest] eqn:Hrows.
    + intros _. exists fd, id. auto.
    + repeat break_match; discriminate.
Qed.

Lemma PUT_not_found_witness :
  run (PUT (sample_env (Some sample_bot_token) None None)
           (sample_request None (Some token_42))) empty_world
  = (json_status (Message "Topilmadi") 404, empty_world, [CallSelect id_42]).
Proof.
  apply (proj1 (PUT_not_found (sample_env (Some sample_bot_token) None None)
                              (sample_request None (Some token_42)) empty_world)
           (sample_form None (Some token_42)) id_42
           (lit "Ali") (lit "Valiyev") (lit "TATU") (lit "masters")
           eq_refl
           (sample_resolves None (sample_env (Some sample_bot_token) None None) eq_refl)
           (sample_update_fields _ _) eq_refl eq_refl).
Defined.

(** X7.  Update changes the table all or nothing: either it answers 200
    with the resolved document path, and every row of the identity of the
    session has taken the four submitted fields and that path, which is the
    path reported for the new document or else the path of the row found,
    while every other row is as it was; or it answers with another status
    and the table is as it was. *)
Theorem PUT_all_or_nothing e r w :
  (status (response_of (run (PUT e r) w)) <> 200
   /\ table (world_after (run (PUT e r) w)) = table w)
  \/ exists fd id fn ln un pr row rest p,
       formData r = Some fd /\ resolves e fd id /\ update_fields fd fn ln un pr
       /\ rows_of id (table w) = row :: rest
       /\ p = match form_get fd (lit "document") with
              | Some (FormFile _) => truthy (upload_path e)
              | _ => doc_path row
              end
       /\ response_of (run (PUT e r) w) = json_response (OkDocPath p)
       /\ table (world_after (run (PUT e r) w))
          = map (fun x => if has_chat_id id x
                          then {| first_name := fn; last_name := ln;
                                  university := un; program := pr;
                                  doc_path := p;
                                  telegram_chat_id := telegram_chat_id x |}
                          else x)
                (table w)
       /\ rows_of id (table (world_after (run (PUT e r) w)))
          = map (fun x => {| first_name := fn; last_name := ln;
                             university := un; program := pr;
                             doc_path := p;
                             telegram_chat_id := telegram_chat_id x |})
                (row :: rest).
Proof.
  destruct (PUT_effect e r w)
    as [H|(fd & id & fn & ln & un & pr & row & rest & F & R & C & S & U & Hrows & E)];
    [now left|].
  right. exists fd, id, fn, ln, un, pr, row, rest.
  rewrite E. unfold response_of, world_after.
  destruct (form_get fd (lit "document")) as [[s|f]|]; eexists;
    (split; [exact F|]); (split; [exact R|]); (split; [exact C|]);
    (split; [exact Hrows|]); (split; [reflexivity|]); cbn [fst snd table];
    (split; [reflexivity|]); (split; [reflexivity|]);
    match goal with
    | |- rows_of _ (apply_update _ _ _ _ _ ?p _) = _ =>
        pose proof (rows_of_apply_update id fn ln un pr p (table w)) as Q;
        rewrite Hrows in Q; exact Q
    end.
Qed.

(** X8.  Update adds and removes no row, changes the identity key of no
    row, and leaves every row alone that does not carry the identity of
    the session: the rows of other users and the anonymous rows stay as
    they are, at their places. *)
Theorem PUT_leaves_other_rows e r w :
  length (table (world_after (run (PUT e r) w))) = length (table w)
  /\ map telegram_chat_id (table (world_after (run (PUT e r) w)))
     = map telegram_chat_id (table w)
  /\ forall i row,
       nth_error (table w) i = Some row ->
       (forall fd id, formData r = Some fd -> resolves e fd id ->
                      telegram_chat_id row <> Some id) ->
       nth_error (table (world_after (run (PUT e r) w))) i = Some row.
Proof.
  destruct (PUT_effect e r w)
    as [[_ H]|(fd & id & fn & ln & un & pr & row0 & rest & F & R & C & S & U & Hrows & E)].
  { rewrite H. auto. }
  assert (T : exists p, table (world_after (run (PUT e r) w))
                        = apply_update id fn ln un pr p (table w)).
  { rewrite E. unfold world_after.
    destruct (form_get fd (lit "document")) as [[s|f]|]; eexists; reflexivity. }
  destruct T as [p T]. rewrite T. conjs.
  - unfold apply_update. apply length_map.
  - apply apply_update_keys.
  - intros i row H K. apply apply_update_nth; [exact H|]. exact (K fd id F R).
Qed.

Lemma PUT_leaves_other_rows_witness :
  nth_error (table (world_after
                      (run (PUT (sample_env (Some sample_bot_token) None None)
                                (sample_request None (Some token_42)))
                           {| table := [sample_row None; stored_row]; bucket := [] |})))
            0
  = Some (sample_row None).
Proof.
  apply (proj2 (proj2 (PUT_leaves_other_rows
                         (sample_env (Some sample_bot_token) None None)
                         (sample_request None (Some token_42))
                         {| table := [sample_row None; stored_row]; bucket := [] |}))
           0%nat (sample_row None) eq_refl).
  intros fd id _ _. discriminate.
Defined.

(** X9.  Update without a new document is idempotent: once it succeeded,
    repeating the request, at any later time, leaves the table as the first
    time left it, and answers as the first time when the lookup and the
    update succeed again. *)
Theorem PUT_without_document_is_idempotent e1 e2 r w fd :
  formData r = Some fd ->
  (forall f, form_get fd (lit "document") <> Some (FormFile f)) ->
  TELEGRAM_BOT_TOKEN e2 = TELEGRAM_BOT_TOKEN e1 ->
  status (response_of (run (PUT e1 r) w)) = 200 ->
  table (world_after (run (PUT e2 r) (world_after (run (PUT e1 r) w))))
  = table (world_after (run (PUT e1 r) w))
  /\ (select_error e2 = None -> update_error e2 = None ->
      response_of (run (PUT e2 r) (world_after (run (PUT e1 r) w)))
      = response_of (run (PUT e1 r) w)).
Proof.
  intros F Hdoc Htok Hok.
  destruct (PUT_effect e1 r w)
    as [[H _]|(fd' & id & fn & ln & un & pr & row & rest & F' & R & C & S & U & Hrows & E)];
    [contradiction|].
  rewrite F in F'. inversion F'. subst fd'. clear F'.
  assert (E1 : run (PUT e1 r) w
               = (json_response (OkDocPath (doc_path row)),
                  {| table := apply_update id fn ln un pr (doc_path row) (table w);
                     bucket := bucket w |},
                  [CallSelect id; CallUpdate id fn ln un pr (doc_path row)])).
  { rewrite E. destruct (form_get fd (lit "document")) as [[s|f]|]; try reflexivity.
    now destruct (Hdoc f). }
  rewrite E1. unfold world_after, response_of. cbn [fst snd].
  destruct R as (d & tk & Hd & Ht & Hv & Hid).
  destruct C as (H1 & H2 & H3 & H4).
  rewrite PUT_cases, F, Hd, Htok, Ht, Hv.
  cbn [valid userId ValidWithIdentity truthy_id table bucket].
  rewrite Hid, H1, H2, H3, H4, rows_of_apply_update, Hrows. cbn [map]. cbv zeta.
  assert (D : match form_get fd (lit "document") with
              | Some (FormFile f) => False
              | _ => True
              end).
  { destruct (form_get fd (lit "document")) as [[s|f]|]; auto. now destruct (Hdoc f). }
  destruct (select_error e2); [split; [reflexivity | discriminate]|].
  destruct (form_get fd (lit "document")) as [[s|f]|]; [|contradiction|];
    cbn [doc_path updated];
    (destruct (update_error e2);
     [split; [reflexivity | discriminate]
     |split; [cbn [fst snd table]; apply apply_update_twice | reflexivity]]).
Qed.

Lemma PUT_without_document_is_idempotent_witness :
  table (world_after
           (run (PUT (sample_env (Some sample_bot_token) None None)
                     (sample_request None (Some token_42)))
                (world_after
                   (run (PUT (sample_env (Some sample_bot_token) None None)
                             (sample_request None (Some token_42)))
                        {| table := [stored_row]; bucket := [] |}))))
  = table (world_after
             (run (PUT (sample_env (Some sample_bot_token) None None)
                       (sample_request None (Some token_42)))
                  {| table := [stored_row]; bucket := [] |})).
Proof.
  refine (proj1 (PUT_without_document_is_idempotent
                   (sample_env (Some sample_bot_token) None None)
                   (sample_env (Some sample_bot_token) None None)
                   (sample_request None (Some token_42))
                   {| table := [stored_row]; bucket := [] |}
                   (sample_form None (Some token_42)) eq_refl _ eq_refl _)).
  - intros f. discriminate.
  - rewrite sample_update_run. reflexivity.
Defined.

(** X28.  Update never takes an upload back either.  When the store
    refuses the new document, nothing is stored and no update is made; once
    the store took it, it stays in the bucket, also when the store reports
    no path or the update fails, in which cases the answer is 500 and the
    table, with the path of the document stored before, is as it was. *)
Theorem PUT_keeps_the_upload e r w p f c :
  In (CallUpload p f c) (calls_made (run (PUT e r) w)) ->
  p = filePath e f /\ c = contentTypeOf f
  /\ match upload_error e with
     | Some _ =>
         world_after (run (PUT e r) w) = w
         /\ response_of (run (PUT e r) w)
            = json_status (Message "Faylni yuklashda xatolik") 500
         /\ forall id fn ln un pr d,
              ~ In (CallUpdate id fn ln un pr d) (calls_made (run (PUT e r) w))
     | None =>
         bucket (world_after (run (PUT e r) w)) = bucket w ++ [(p, f)]
         /\ match truthy (upload_path e) with
            | None =>
                table (world_after (run (PUT e r) w)) = table w
                /\ response_of (run (PUT e r) w)
                   = json_status (Message "Faylni yuklashda xatolik") 500
                /\ forall id fn ln un pr d,
                     ~ In (CallUpdate id fn ln un pr d)
                          (calls_made (run (PUT e r) w))
            | Some path =>
                match update_error e with
                | Some _ =>
                    table (world_after (run (PUT e r) w)) = table w
                    /\ response_of (run (PUT e r) w)
                       = json_status (Message "Yangilashda xatolik") 500
                | None =>
                    response_of (run (PUT e r) w)
                    = json_response (OkDocPath (Some path))
                end
            end
     end.
Proof.
  rewrite PUT_cases. unfold calls_made, world_after, response_of. cbv zeta.
  destruct (formData r) as [fd|]; [|intros []].
  destruct (truthy (form_string fd "initData")) as [d|]; [|intros []].
  destruct (truthy (TELEGRAM_BOT_TOKEN e)) as [tk|]; [|intros []].
  destruct (if valid _ then _ else _) as [id|]; [|intros []].
  destruct (truthy (form_string fd "firstName")) as [fn|]; [|intros []].
  destruct (truthy (form_string fd "lastName")) as [ln|]; [|intros []].
  destruct (truthy (form_string fd "university")) as [un|]; [|intros []].
  destruct (truthy (form_string fd "program")) as [pr|]; [|intros []].
  destruct (select_error e); [intros H; in_calls H|].
  destruct (rows_of id (table w)) as [|row rest]; [intros H; in_calls H|].
  destruct (form_get fd (lit "document")) as [[s|doc]|];
    [destruct (update_error e); intros H; in_calls H
    | | destruct (update_error e); intros H; in_calls H].
  destruct (upload_error e) as [ue|];
    [|destruct (truthy (upload_path e)) as [path|];
      [destruct (update_error e) as [de|]|]];
    intros H; in_calls H; inversion H; subst;
    conjs; try reflexivity; intros; intros K; in_calls K.
Qed.

Lemma PUT_keeps_the_upload_witness :
  bucket (world_after
            (run (PUT {| TELEGRAM_BOT_TOKEN := Some sample_bot_token;
                         date_now := 1700000000000;
                         random_suffix := lit "k3x9qz";
                         select_error := None;
                         upload_error := None;
                         upload_path := Some sample_path;
                         insert_error := None;
                         update_error := Some OtherError |}
                      (sample_request (Some sample_file) (Some token_42)))
                 {| table := [stored_row]; bucket := [] |}))
  = [(sample_path, sample_file)]
  /\ table (world_after
              (run (PUT {| TELEGRAM_BOT_TOKEN := Some sample_bot_token;
                           date_now := 1700000000000;
                           random_suffix := lit "k3x9qz";
                           select_error := None;
                           upload_error := None;
                           upload_path := Some sample_path;
                           insert_error := None;
                           update_error := Some OtherError |}
                        (sample_request (Some sample_file) (Some token_42)))
                   {| table := [stored_row]; bucket := [] |}))
     = [stored_row]
  /\ response_of
       (run (PUT {| TELEGRAM_BOT_TOKEN := Some sample_bot_token;
                    date_now := 1700000000000;
                    random_suffix := lit "k3x9qz";
                    select_error := None;
                    upload_error := None;
                    upload_path := Some sample_path;
                    insert_error := None;
                    update_error := Some OtherError |}
                 (sample_request (Some sample_file) (Some token_42)))
            {| table := [stored_row]; bucket := [] |})
     = json_status (Message "Yangilashda xatolik") 500.
Proof.
  destruct (PUT_keeps_the_upload
              {| TELEGRAM_BOT_TOKEN := Some sample_bot_token;
                 date_now := 1700000000000;
                 random_suffix := lit "k3x9qz";
                 select_error := None;
                 upload_error := None;
                 upload_path := Some sample_path;
                 insert_error := None;
                 update_error := Some OtherError |}
              (sample_request (Some sample_file) (Some token_42))
              {| table := [stored_row]; bucket := [] |}
              sample_path sample_file (lit "application/zip"))
    as (_ & _ & B & T & R).
  - rewrite PUT_cases. unfold calls_made. cbv zeta.
    cbn [formData sample_request TELEGRAM_BOT_TOKEN].
    destruct (sample_resolves (Some sample_file)
                {| TELEGRAM_BOT_TOKEN := Some sample_bot_token;
                   date_now := 1700000000000;
                   random_suffix := lit "k3x9qz";
                   select_error := None;
                   upload_error := None;
                   upload_path := Some sample_path;
                   insert_error := None;
                   update_error := Some OtherError |} eq_refl)
      as (d & tk & Hd & Ht & Hv & Hid).
    cbn [TELEGRAM_BOT_TOKEN] in Ht. rewrite Hd, Ht, Hv.
    cbn [valid userId ValidWithIdentity truthy_id]. rewrite Hid.
    destruct (sample_update_fields (Some sample_file) (Some token_42))
      as (H1 & H2 & H3 & H4).
    rewrite H1, H2, H3, H4. cbn. right. left. reflexivity.
  - split; [exact B|]. split; [exact T | exact R].
Defined.

(* ================================================================== *)
(** * Create, Update and Lookup together *)
(* ================================================================== *)

(** The lookup for a session that carries an identity. *)
Lemma GET_resolved e rg w d tk id :
  truthy (getInitDataFromRequest rg) = Some d ->
  truthy (TELEGRAM_BOT_TOKEN e) = Some tk ->
  validateTelegramInitData d tk = ValidWithIdentity id ->
  truthy_number id = true -> select_error e = None ->
  run (GET e rg) w
  = (json_response
       (ExistsWith (negb (is_empty (rows_of id (table w))))
                   (option_map project (hd_error (rows_of id (table w))))),
     w, [CallSelect id]).
Proof.
  intros Hd Ht Hv Hid S. rewrite GET_run, Hd, Ht, Hv. cbv zeta.
  cbn [valid userId ValidWithIdentity truthy_id]. now rewrite Hid, S.
Qed.

(** A Create that succeeded for a session with an identity. *)
Lemma POST_ok_resolved e r w fd fn ln un pr doc id :
  formData r = Some fd -> create_fields fd fn ln un pr doc -> resolves e fd id ->
  response_of (run (POST e r) w) = json_response OkTrue ->
  exists p,
    truthy (upload_path e) = Some p
    /\ rows_of id (table w) = []
    /\ run (POST e r) w
       = (json_response OkTrue,
          {| table := table w ++
                      [{| first_name := fn; last_name := ln; university := un;
                          program := pr; doc_path := Some p;
                          telegram_chat_id := Some id |}];
             bucket := bucket w ++ [(filePath e doc, doc)] |},
          [CallSelect id; CallUpload (filePath e doc) doc (contentTypeOf doc);
           CallInsert {| first_name := fn; last_name := ln; university := un;
                         program := pr; doc_path := Some p;
                         telegram_chat_id := Some id |}]).
Proof.
  intros F C R. unfold run.
  rewrite (POST_fields e r w fd fn ln un pr doc F C). unfold hbind.
  rewrite (resolves_run e fd id w R).
  destruct (select_error e); [discriminate|].
  destruct (rows_of id (table w)) eqn:Hrows; [|discriminate].
  rewrite storeSubmission_run. cbv zeta.
  destruct (upload_error e); [discriminate|].
  destruct (truthy (upload_path e)) as [p|]; [|discriminate].
  destruct (insert_error e); [discriminate|]. intros _.
  exists p. auto.
Qed.

(** X10.  What Create stored, Lookup returns: after a Create that
    answered [{ok: true}] for a session with an identity, the Lookup with
    the same token finds the submission, with the four fields as submitted
    and the path the store reported for the document. *)
Theorem create_then_lookup e e' r rg w fd fn ln un pr doc id :
  formData r = Some fd -> create_fields fd fn ln un pr doc -> resolves e fd id ->
  response_of (run (POST e r) w) = json_response OkTrue ->
  truthy (getInitDataFromRequest rg) = truthy (form_string fd "initData") ->
  TELEGRAM_BOT_TOKEN e' = TELEGRAM_BOT_TOKEN e -> select_error e' = None ->
  run (GET e' rg) (world_after (run (POST e r) w))
  = (json_response
       (ExistsWith true
          (Some {| p_firstName := fn; p_lastName := ln; p_university := un;
                   p_program := pr; p_docPath := truthy (upload_path e) |})),
     world_after (run (POST e r) w), [CallSelect id]).
Proof.
  intros F C R Hok Hg Htok S'.
  pose proof R as (d & tk & Hd & Ht & Hv & Hid).
  rewrite Hd in Hg. rewrite <- Htok in Ht.
  rewrite (GET_resolved e' rg _ d tk id Hg Ht Hv Hid S').
  destruct (POST_ok_resolved e r w fd fn ln un pr doc id F C R Hok)
    as (p & Hp & Hrows & E).
  rewrite E, Hp. unfold world_after. cbn [fst snd table].
  rewrite rows_of_self, Hrows by auto. reflexivity.
Qed.

Lemma create_then_lookup_witness :
  run (GET (sample_env (Some sample_bot_token) None None)
           (lookup_request (Some token_42)))
      (world_after
         (run (POST (sample_env (Some sample_bot_token) None None)
                    (sample_request (Some sample_file) (Some token_42)))
              empty_world))
  = (json_response
       (ExistsWith true
          (Some {| p_firstName := lit "Ali"; p_lastName := lit "Valiyev";
                   p_university := lit "TATU"; p_program := lit "masters";
                   p_docPath := Some sample_path |})),
     world_after
       (run (POST (sample_env (Some sample_bot_token) None None)
                  (sample_request (Some sample_file) (Some token_42)))
            empty_world),
     [CallSelect id_42]).
Proof.
  refine (create_then_lookup
            (sample_env (Some sample_bot_token) None None)
            (sample_env (Some sample_bot_token) None None)
            (sample_request (Some sample_file) (Some token_42))
            (lookup_request (Some token_42)) empty_world
            (sample_form (Some sample_file) (Some token_42))
            (lit "Ali") (lit "Valiyev") (lit "TATU") (lit "masters") sample_file id_42
            eq_refl (sample_create_fields _ _)
            (sample_resolves (Some sample_file)
               (sample_env (Some sample_bot_token) None None) eq_refl)
            _ eq_refl eq_refl eq_refl).
  rewrite sample_create_run. reflexivity.
Defined.

(** X11.  What Update wrote, Lookup returns: after an Update that
    answered 200 with a document path, the Lookup with the same token
    finds the submission with the four fields of the Update and that
    path. *)
Theorem update_then_lookup e e' r rg w fd fn ln un pr id p :
  formData r = Some fd -> update_fields fd fn ln un pr -> resolves e fd id ->
  response_of (run (PUT e r) w) = json_response (OkDocPath p) ->
  truthy (getInitDataFromRequest rg) = truthy (form_string fd "initData") ->
  TELEGRAM_BOT_TOKEN e' = TELEGRAM_BOT_TOKEN e -> select_error e' = None ->
  run (GET e' rg) (world_after (run (PUT e r) w))
  = (json_response
       (ExistsWith true
          (Some {| p_firstName := fn; p_lastName := ln; p_university := un;
                   p_program := pr; p_docPath := p |})),
     world_after (run (PUT e r) w), [CallSelect id]).
Proof.
  intros F C R Hok Hg Htok S'.
  pose proof R as (d & tk & Hd & Ht & Hv & Hid).
  rewrite Hd in Hg. rewrite <- Htok in Ht.
  rewrite (GET_resolved e' rg _ d tk id Hg Ht Hv Hid S').
  rewrite Htok in Ht.
  destruct (PUT_effect e r w)
    as [[H _]|(fd' & id' & fn' & ln' & un' & pr' & row & rest
               & F' & R' & C' & S & U & Hrows & E)].
  { rewrite Hok in H. now destruct H. }
  rewrite F in F'. inversion F'. subst fd'. clear F'.
  destruct (resolves_identity e fd id' d tk R' Hd Ht) as [Hv' _].
  rewrite Hv in Hv'. inversion Hv'. subst id'.
  destruct C as (H1 & H2 & H3 & H4). destruct C' as (H1' & H2' & H3' & H4').
  rewrite H1 in H1'. rewrite H2 in H2'. rewrite H3 in H3'. rewrite H4 in H4'.
  inversion H1'. inversion H2'. inversion H3'. inversion H4'. subst.
  rewrite E in Hok |- *. unfold world_after, response_of in *.
  destruct (form_get fd (lit "document")) as [[s|f]|]; cbn [fst snd table] in *;
    inversion Hok; subst; rewrite rows_of_apply_update, Hrows; reflexivity.
Qed.

Lemma update_then_lookup_witness :
  run (GET (sample_env (Some sample_bot_token) None None)
           (lookup_request (Some token_42)))
      (world_after
         (run (PUT (sample_env (Some sample_bot_token) None None)
                   (sample_request None (Some token_42)))
              {| table := [stored_row]; bucket := [] |}))
  = (json_response
       (ExistsWith true
          (Some {| p_firstName := lit "Ali"; p_lastName := lit "Valiyev";
                   p_university := lit "TATU"; p_program := lit "masters";
                   p_docPath := Some (lit "documents/1690000000000-abc123-old.zip") |})),
     world_after
       (run (PUT (sample_env (Some sample_bot_token) None None)
                 (sample_request None (Some token_42)))
            {| table := [stored_row]; bucket := [] |}),
     [CallSelect id_42]).
Proof.
  refine (update_then_lookup
            (sample_env (Some sample_bot_token) None None)
            (sample_env (Some sample_bot_token) None None)
            (sample_request None (Some token_42))
            (lookup_request (Some token_42))
            {| table := [stored_row]; bucket := [] |}
            (sample_form None (Some token_42))
            (lit "Ali") (lit "Valiyev") (lit "TATU") (lit "masters") id_42
            (Some (lit "documents/1690000000000-abc123-old.zip"))
            eq_refl (sample_update_fields _ _)
            (sample_resolves None
               (sample_env (Some sample_bot_token) None None) eq_refl)
            _ eq_refl eq_refl eq_refl).
  rewrite sample_update_run. reflexivity.
Defined.

(** X12.  After a Create that answered [{ok: true}] for a session, an
    Update of the same session is never answered with 404: with the lookup
    and the update succeeding and no new document, it answers 200 with the
    path the Create stored, and the row of the identity takes the new
    fields. *)
Theorem create_then_update e1 e2 r1 r2 w fd1 fd2 fn1 ln1 un1 pr1 doc1 fn2 ln2 un2 pr2 id :
  formData r1 = Some fd1 -> create_fields fd1 fn1 ln1 un1 pr1 doc1 ->
  resolves e1 fd1 id ->
  response_of (run (POST e1 r1) w) = json_response OkTrue ->
  formData r2 = Some fd2 -> update_fields fd2 fn2 ln2 un2 pr2 ->
  resolves e2 fd2 id ->
  (forall f, form_get fd2 (lit "document") <> Some (FormFile f)) ->
  select_error e2 = None -> update_error e2 = None ->
  response_of (run (PUT e2 r2) (world_after (run (POST e1 r1) w)))
  = json_response (OkDocPath (truthy (upload_path e1)))
  /\ rows_of id (table (world_after
                          (run (PUT e2 r2) (world_after (run (POST e1 r1) w)))))
     = [{| first_name := fn2; last_name := ln2; university := un2;
           program := pr2; doc_path := truthy (upload_path e1);
           telegram_chat_id := Some id |}].
Proof.
  intros F1 C1 R1 Hok F2 C2 R2 Hdoc S2 U2.
  assert (T : truthy_number id = true) by (destruct R1 as (_ & _ & _ & _ & _ & T); exact T).
  destruct (POST_ok_resolved e1 r1 w fd1 fn1 ln1 un1 pr1 doc1 id F1 C1 R1 Hok)
    as (p & Hp & Hnone & E).
  assert (Hrows : rows_of id (table (world_after (run (POST e1 r1) w)))
                  = [{| first_name := fn1; last_name := ln1; university := un1;
                        program := pr1; doc_path := Some p;
                        telegram_chat_id := Some id |}]).
  { rewrite E. unfold world_after. cbn [fst snd table].
    rewrite rows_of_self, Hnone by auto. reflexivity. }
  rewrite Hp.
  remember (world_after (run (POST e1 r1) w)) as w1 eqn:Ew1.
  assert (E2 : run (PUT e2 r2) w1
               = (json_response (OkDocPath (Some p)),
                  {| table := apply_update id fn2 ln2 un2 pr2 (Some p) (table w1);
                     bucket := bucket w1 |},
                  [CallSelect id; CallUpdate id fn2 ln2 un2 pr2 (Some p)])).
  { unfold run.
    rewrite (PUT_found e2 r2 w1 fd2 id fn2 ln2 un2 pr2 _ [] F2 R2 C2 S2 Hrows).
    now rewrite (reviseSubmission_keep e2 id fn2 ln2 un2 pr2 _ _ _ Hdoc U2). }
  rewrite E2. unfold response_of, world_after. cbn [fst snd table].
  split; [reflexivity|].
  now rewrite rows_of_apply_update, Hrows.
Qed.

Lemma create_then_update_witness :
  response_of
    (run (PUT (sample_env (Some sample_bot_token) None None)
              (sample_request None (Some token_42)))
         (world_after
            (run (POST (sample_env (Some sample_bot_token) None None)
                       (sample_request (Some sample_file) (Some token_42)))
                 empty_world)))
  = json_response (OkDocPath (Some sample_path)).
Proof.
  refine (proj1 (create_then_update
            (sample_env (Some sample_bot_token) None None)
            (sample_env (Some sample_bot_token) None None)
            (sample_request (Some sample_file) (Some token_42))
            (sample_request None (Some token_42)) empty_world
            (sample_form (Some sample_file) (Some token_42))
            (sample_form None (Some token_42))
            (lit "Ali") (lit "Valiyev") (lit "TATU") (lit "masters") sample_file
            (lit "Ali") (lit "Valiyev") (lit "TATU") (lit "masters") id_42
            eq_refl (sample_create_fields _ _)
            (sample_resolves (Some sample_file)
               (sample_env (Some sample_bot_token) None None) eq_refl)
            _ eq_refl (sample_update_fields _ _)
            (sample_resolves None
               (sample_env (Some sample_bot_token) None None) eq_refl)
            _ eq_refl eq_refl)).
  - rewrite sample_create_run. reflexivity.
  - intros f. discriminate.
Defined.

(** X13.  Lookup tells what Create and Update will answer.  For the same
    token and with the lookup of the repository succeeding, Lookup reports
    an existing submission exactly when Create answers 409, and it reports
    that none exists for the identity exactly when Update answers 404. *)
Theorem lookup_predicts_create_and_update e rg r w fd fn ln un pr doc :
  formData r = Some fd -> create_fields fd fn ln un pr doc ->
  truthy (getInitDataFromRequest rg) = truthy (form_string fd "initData") ->
  select_error e = None ->
  ((exists s, payload (response_of (run (GET e rg) w)) = ExistsWith true s)
   <-> status (response_of (run (POST e r) w)) = 409)
  /\ (payload (response_of (run (GET e rg) w)) = ExistsWith false None
      <-> status (response_of (run (PUT e r) w)) = 404).
Proof.
  intros F (H1 & H2 & H3 & H4 & H5) Hg S.
  rewrite GET_run, POST_cases, PUT_cases, F, H1, H2, H3, H4, H5, Hg, S.
  unfold response_of. cbv zeta.
  destruct (truthy (form_string fd "initData")) as [d|].
  2:{ split; (split; [intros H | repeat break_match; discriminate]).
      - destruct H as [s H]. discriminate H.
      - discriminate H. }
  destruct (truthy (TELEGRAM_BOT_TOKEN e)) as [tk|].
  2:{ split; (split; [intros H | repeat break_match; discriminate]).
      - destruct H as [s H]. discriminate H.
      - discriminate H. }
  destruct (valid (validateTelegramInitData d tk)); cbn [negb].
  2:{ split; (split; [intros H | discriminate]).
      - destruct H as [s H]. discriminate H.
      - discriminate H. }
  destruct (truthy_id (userId (validateTelegramInitData d tk))) as [id|].
  2:{ split; (split; [intros H | discriminate]).
      - destruct H as [s H]. discriminate H.
      - discriminate H. }
  destruct (rows_of id (table w)) as [|row rest]; cbn [fst is_empty negb hd_error option_map].
  - split; split.
    + intros [s H]. discriminate H.
    + repeat break_match; discriminate.
    + reflexivity.
    + reflexivity.
  - split; split.
    + reflexivity.
    + intros _. eexists. reflexivity.
    + discriminate.
    + repeat break_match; discriminate.
Qed.

Lemma lookup_predicts_create_and_update_witness :
  (exists s,
      payload (response_of
                 (run (GET (sample_env (Some sample_bot_token) None None)
                           (lookup_request (Some token_42)))
                      {| table := [stored_row]; bucket := [] |}))
      = ExistsWith true s)
  <-> status (response_of
                (run (POST (sample_env (Some sample_bot_token) None None)
                           (sample_request (Some sample_file) (Some token_42)))
                     {| table := [stored_row]; bucket := [] |}))
      = 409.
Proof.
  exact (proj1 (lookup_predicts_create_and_update
                  (sample_env (Some sample_bot_token) None None)
                  (lookup_request (Some token_42))
                  (sample_request (Some sample_file) (Some token_42))
                  {| table := [stored_row]; bucket := [] |}
                  (sample_form (Some sample_file) (Some token_42))
                  (lit "Ali") (lit "Valiyev") (lit "TATU") (lit "masters") sample_file
                  eq_refl (sample_create_fields _ _) eq_refl eq_refl)).
Defined.

(* ================================================================== *)
(** * Sequences of requests *)
(* ================================================================== *)

Lemma anonymous_create_run e r w :
  anonymous_create (MethodPOST, e, r) ->
  exists row,
    telegram_chat_id row = None
    /\ response_of (run (POST e r) w) = json_response OkTrue
    /\ table (world_after (run (POST e r) w)) = table w ++ [row].
Proof.
  intros (_ & U & P & I & fd & fn & ln & un & pr & doc & F & C & A).
  destruct C as (H1 & H2 & H3 & H4 & H5).
  rewrite POST_cases, F, H1, H2, H3, H4, H5, U, I. cbv zeta.
  destruct (truthy (upload_path e)) as [p|]; [|now destruct P].
  unfold response_of, world_after.
  destruct A as [A|A]; rewrite A.
  - eexists. split; [|split; reflexivity]. reflexivity.
  - destruct (truthy (form_string fd "initData"));
      (eexists; split; [|split; reflexivity]; reflexivity).
Qed.

(** X14.  Creates without a session never conflict: any number of
    requests in a row that send no token, or find no bot token configured,
    are each answered with [{ok: true}] when the upload and the insert
    succeed, and each appends one row without an identity key. *)
Theorem anonymous_creates_never_conflict requests w :
  Forall anonymous_create requests ->
  Forall (fun resp => resp = json_response OkTrue) (fst (serve requests w))
  /\ exists rows,
       table (snd (serve requests w)) = table w ++ rows
       /\ length rows = length requests
       /\ Forall (fun row => telegram_chat_id row = None) rows.
Proof.
  intros H. revert w.
  induction H as [|[[m e] r] rest A _ IH]; intros w.
  - simpl. split; [constructor|]. exists []. rewrite app_nil_r. auto.
  - pose proof A as (Hm & _). subst m.
    destruct (anonymous_create_run e r w A) as (row & K & Hok & Ht).
    cbn [serve route].
    destruct (IH (world_after (run (POST e r) w))) as (Hall & rows & Hrows & Hlen & Hanon).
    destruct (serve rest (world_after (run (POST e r) w))) as [responses w'].
    cbn [fst snd] in *. split.
    + constructor; [exact Hok | exact Hall].
    + exists (row :: rows). rewrite Hrows, Ht, <- app_assoc. cbn [app length].
      split; [reflexivity|]. split; [now rewrite Hlen|]. now constructor.
Qed.

Lemma sample_anonymous_create :
  anonymous_create (MethodPOST, sample_env (Some sample_bot_token) None None,
                    sample_request (Some sample_file) None).
Proof.
  split; [reflexivity|]. split; [reflexivity|]. split; [discriminate|].
  split; [reflexivity|].
  exists (sample_form (Some sample_file) None),
         (lit "Ali"), (lit "Valiyev"), (lit "TATU"), (lit "masters"), sample_file.
  split; [reflexivity|]. split; [apply sample_create_fields|]. left. reflexivity.
Qed.

Lemma anonymous_creates_never_conflict_witness :
  Forall (fun resp => resp = json_response OkTrue)
         (fst (serve [(MethodPOST, sample_env (Some sample_bot_token) None None,
                       sample_request (Some sample_file) None);
                      (MethodPOST, sample_env (Some sample_bot_token) None None,
                       sample_request (Some sample_file) None)] empty_world))
  /\ exists rows,
       table (snd (serve [(MethodPOST, sample_env (Some sample_bot_token) None None,
                           sample_request (Some sample_file) None);
                          (MethodPOST, sample_env (Some sample_bot_token) None None,
                           sample_request (Some sample_file) None)] empty_world))
       = table empty_world ++ rows
       /\ length rows = 2%nat
       /\ Forall (fun row => telegram_chat_id row = None) rows.
Proof.
  apply (anonymous_creates_never_conflict
           [(MethodPOST, sample_env (Some sample_bot_token) None None,
             sample_request (Some sample_file) None);
            (MethodPOST, sample_env (Some sample_bot_token) None None,
             sample_request (Some sample_file) None)] empty_world).
  repeat constructor; apply sample_anonymous_create.
Defined.

(** What one request of any method keeps. *)
Lemma route_keeps m e r w :
  (exists files, bucket (world_after (run (route m e r) w)) = bucket w ++ files)
  /\ (exists keys,
         map telegram_chat_id (table (world_after (run (route m e r) w)))
         = map telegram_chat_id (table w) ++ keys)
  /\ (at_most_one_per_identity (table w) ->
      at_most_one_per_identity (table (world_after (run (route m e r) w)))).
Proof.
  destruct m; cbn [route].
  - rewrite GET_world. conjs; [exists [] | exists [] | auto]; now rewrite app_nil_r.
  - conjs; [| |apply POST_keeps_at_most_one];
      rewrite POST_cases; unfold world_after; cbv zeta;
      repeat break_match; cbn [fst snd table bucket];
      try (exists []; now rewrite app_nil_r);
      try (eexists; reflexivity);
      rewrite map_app; eexists; reflexivity.
  - conjs; [| |apply PUT_keeps_at_most_one].
    + rewrite PUT_cases; unfold world_after; cbv zeta;
        repeat break_match; cbn [fst snd table bucket];
        try (exists []; now rewrite app_nil_r); eexists; reflexivity.
    + exists []. rewrite app_nil_r.
      destruct (PUT_table e r w) as [E|(id & fn & ln & un & pr & p & E)]; rewrite E;
        [reflexivity | apply apply_update_keys].
Qed.

(** X15.  Nothing that is stored is lost: over any sequence of requests
    to the three handlers, the files in the bucket stay and files are only
    added, the rows stay in their order with their identity keys and rows
    are only added, and a table with at most one row for every identity
    stays one. *)
Theorem serve_keeps_what_is_stored requests w :
  (exists files, bucket (snd (serve requests w)) = bucket w ++ files)
  /\ (exists keys,
         map telegram_chat_id (table (snd (serve requests w)))
         = map telegram_chat_id (table w) ++ keys)
  /\ (at_most_one_per_identity (table w) ->
      at_most_one_per_identity (table (snd (serve requests w)))).
Proof.
  revert w. induction requests as [|[[m e] r] rest IH]; intros w.
  - simpl. conjs; [exists [] | exists [] | auto]; now rewrite app_nil_r.
  - cbn [serve].
    destruct (route_keeps m e r w) as ((f1 & B1) & (k1 & K1) & I1).
    destruct (IH (world_after (run (route m e r) w))) as ((f2 & B2) & (k2 & K2) & I2).
    destruct (serve rest (world_after (run (route m e r) w))) as [responses w'].
    cbn [snd] in *. conjs.
    + exists (f1 ++ f2). now rewrite B2, B1, app_assoc.
    + exists (k1 ++ k2). now rewrite K2, K1, app_assoc.
    + auto.
Qed.

(* ================================================================== *)
(** * The earlier revisions *)
(* ================================================================== *)

(** X16.  The first revision of Create is the present one with no bot
    token configured: for every request it gives the same response, world
    and calls, whatever token the form carries. *)
Theorem first_revision_is_anonymous_create e r w :
  run (Revision1.POST e r) w = run (POST (without_bot_token e) r) w.
Proof.
  rewrite POST_cases. unfold run, Revision1.POST.
  destruct (formData r) as [fd|]; [|reflexivity].
  destruct (truthy (form_string fd "firstName")) as [fn|]; [|reflexivity].
  destruct (truthy (form_string fd "lastName")) as [ln|]; [|reflexivity].
  destruct (truthy (form_string fd "university")) as [un|]; [|reflexivity].
  destruct (truthy (form_string fd "program")) as [pr|]; [|reflexivity].
  destruct (form_get fd (lit "document")) as [[s|doc]|]; try reflexivity.
  cbv zeta.
  cbn [TELEGRAM_BOT_TOKEN without_bot_token truthy upload_error upload_path
       insert_error].
  replace (filePath (without_bot_token e) doc) with (filePath e doc) by reflexivity.
  unfold hbind, storage_upload, db_insert, return_if.
  destruct (truthy (form_string fd "initData"));
    (destruct (upload_error e); cbn; [reflexivity|];
     destruct (truthy (upload_path e)); cbn; [|reflexivity];
     destruct (insert_error e); reflexivity).
Qed.

(** The two revisions agree on a case. *)
Ltac agree :=
  solve [conjs; simpl; intros; try reflexivity; try discriminate;
         try congruence; try (split; reflexivity)].

(** X17.  The second revision of Create behaves as the present one but
    for the text of the conflict: the world after the request, the calls
    and the status are the same for every request, and so is the whole
    response unless the status is 409. *)
Theorem second_revision_differs_in_message_only e r w :
  world_after (run (Revision2.POST e r) w) = world_after (run (POST e r) w)
  /\ calls_made (run (Revision2.POST e r) w) = calls_made (run (POST e r) w)
  /\ status (response_of (run (Revision2.POST e r) w))
     = status (response_of (run (POST e r) w))
  /\ (status (response_of (run (POST e r) w)) <> 409 ->
      response_of (run (Revision2.POST e r) w) = response_of (run (POST e r) w))
  /\ (status (response_of (run (POST e r) w)) = 409 ->
      payload (response_of (run (Revision2.POST e r) w))
      = Message "Bu Telegram hisobidan allaqachon yuborilgan"
      /\ payload (response_of (run (POST e r) w))
         = Message "Siz allaqachon topshirdingiz").
Proof.
  rewrite POST_cases. unfold run, Revision2.POST.
  unfold world_after, calls_made, response_of.
  destruct (formData r) as [fd|]; [|agree].
  destruct (truthy (form_string fd "firstName")) as [fn|]; [|agree].
  destruct (truthy (form_string fd "lastName")) as [ln|]; [|agree].
  destruct (truthy (form_string fd "university")) as [un|]; [|agree].
  destruct (truthy (form_string fd "program")) as [pr|]; [|agree].
  destruct (form_get fd (lit "document")) as [[s|doc]|]; try agree.
  cbv zeta. unfold rows_of.
  destruct (truthy (form_string fd "initData")) as [d|];
    [destruct (truthy (TELEGRAM_BOT_TOKEN e)) as [tk|];
     [destruct (valid (validateTelegramInitData d tk)); cbn [negb];
      [destruct (truthy_id (userId (validateTelegramInitData d tk))) as [id|] eqn:U;
       [apply truthy_id_some in U; destruct U as [_ T]; rewrite T;
        destruct (select_error e) eqn:S;
        [|destruct (filter (has_chat_id id) (table w)) as [|row rest] eqn:R]|]|]|]|];
    unfold hbind, storage_upload, db_insert, db_select, return_if;
    rewrite ?S; cbn [error is_error data has_rows pure respond];
    rewrite ?R; cbn [firstn];
    try agree;
    (destruct (upload_error e); cbn; [agree|];
     destruct (truthy (upload_path e)); cbn; [|agree];
     destruct (insert_error e); agree).
Qed.

(* ================================================================== *)
(** * What the handlers answer, and to whom *)
(* ================================================================== *)

Lemma rows_of_head id t row :
  hd_error (rows_of id t) = Some row ->
  In row t /\ telegram_chat_id row = Some id.
Proof.
  intros H. assert (K : In row (rows_of id t)).
  { destruct (rows_of id t); inversion H. now left. }
  apply filter_In in K. destruct K as [K1 K2].
  split; [exact K1 | now apply has_chat_id_key].
Qed.

(** X18.  Lookup shows a submission to its owner only.  Whenever it
    answers with [exists], the token of the request verified under the
    configured bot token with an identity; a submission it returns is the
    projection of a row of the table that carries that identity, and it
    reports that none exists exactly when the table has no row of that
    identity. *)
Theorem lookup_returns_own_submission e r w found submission :
  payload (response_of (run (GET e r) w)) = ExistsWith found submission ->
  exists d tk id,
    truthy (getInitDataFromRequest r) = Some d
    /\ truthy (TELEGRAM_BOT_TOKEN e) = Some tk
    /\ validateTelegramInitData d tk = ValidWithIdentity id
    /\ truthy_number id = true
    /\ match submission with
       | Some p =>
           found = true
           /\ exists row,
                hd_error (rows_of id (table w)) = Some row
                /\ In row (table w) /\ telegram_chat_id row = Some id
                /\ p = project row
       | None => found = false /\ rows_of id (table w) = []
       end.
Proof.
  rewrite GET_run. unfold response_of.
  destruct (truthy (getInitDataFromRequest r)) as [d|]; [|discriminate].
  destruct (truthy (TELEGRAM_BOT_TOKEN e)) as [tk|]; [|discriminate].
  cbv zeta.
  destruct (if valid _ then _ else _) as [id|] eqn:V; [|discriminate].
  apply resolved_identity in V. destruct V as [V T].
  destruct (select_error e); [discriminate|].
  cbn [fst payload json_response]. intros H. inversion H. subst. clear H.
  exists d, tk, id. conjs; auto.
  destruct (rows_of id (table w)) as [|row rest] eqn:R; cbn; [auto|].
  split; [reflexivity|]. exists row.
  destruct (rows_of_head id (table w) row) as [K1 K2]; [now rewrite R|]. auto.
Qed.

Lemma lookup_returns_own_submission_witness :
  exists d tk id,
    truthy (getInitDataFromRequest (lookup_request (Some token_42))) = Some d
    /\ truthy (TELEGRAM_BOT_TOKEN (sample_env (Some sample_bot_token) None None))
       = Some tk
    /\ validateTelegramInitData d tk = ValidWithIdentity id
    /\ truthy_number id = true
    /\ true = true
    /\ exists row,
         hd_error (rows_of id (table {| table := [sample_row None; stored_row];
                                        bucket := [] |})) = Some row
         /\ In row (table {| table := [sample_row None; stored_row]; bucket := [] |})
         /\ telegram_chat_id row = Some id
         /\ project stored_row = project row.
Proof.
  apply (lookup_returns_own_submission
           (sample_env (Some sample_bot_token) None None)
           (lookup_request (Some token_42))
           {| table := [sample_row None; stored_row]; bucket := [] |}
           true (Some (project stored_row))).
  rewrite (GET_resolved (sample_env (Some sample_bot_token) None None)
             (lookup_request (Some token_42))
             {| table := [sample_row None; stored_row]; bucket := [] |}
             token_42 sample_bot_token id_42
             eq_refl eq_refl token_42_verifies eq_refl eq_refl).
  reflexivity.
Defined.

(** X19.  Create uploads nothing before its checks have passed: when it
    calls the store, the form held the four fields and the document, and
    either no session was to be verified, or the token verified with an
    identity for which the lookup succeeded and found no row. *)
Theorem POST_uploads_after_checks e r w p f c :
  In (CallUpload p f c) (calls_made (run (POST e r) w)) ->
  exists fd fn ln un pr,
    formData r = Some fd /\ create_fields fd fn ln un pr f
    /\ (truthy (form_string fd "initData") = None
        \/ truthy (TELEGRAM_BOT_TOKEN e) = None
        \/ exists id, resolves e fd id /\ select_error e = None
                      /\ rows_of id (table w) = []
                      /\ In (CallSelect id) (calls_made (run (POST e r) w))).
Proof.
  rewrite POST_cases. unfold calls_made. cbv zeta.
  destruct (formData r) as [fd|] eqn:F; [|intros []].
  destruct (truthy (form_string fd "firstName")) as [fn|] eqn:H1; [|intros []].
  destruct (truthy (form_string fd "lastName")) as [ln|] eqn:H2; [|intros []].
  destruct (truthy (form_string fd "university")) as [un|] eqn:H3; [|intros []].
  destruct (truthy (form_string fd "program")) as [pr|] eqn:H4; [|intros []].
  destruct (form_get fd (lit "document")) as [[s|doc]|] eqn:H5; try (intros []).
  assert (C : create_fields fd fn ln un pr doc) by (unfold create_fields; auto).
  destruct (truthy (form_string fd "initData")) as [d|] eqn:Hd.
  2:{ intros H. repeat break_match_in H; in_calls H; inversion H; subst;
      exists fd, fn, ln, un, pr; auto. }
  destruct (truthy (TELEGRAM_BOT_TOKEN e)) as [tk|] eqn:Ht.
  2:{ intros H. repeat break_match_in H; in_calls H; inversion H; subst;
      exists fd, fn, ln, un, pr; auto. }
  destruct (valid (validateTelegramInitData d tk)) eqn:V; cbn [negb]; [|intros []].
  destruct (truthy_id (userId (validateTelegramInitData d tk))) as [id|] eqn:U;
    [|intros []].
  apply truthy_id_some in U. destruct U as [U T].
  pose proof (valid_with_identity _ _ V U) as Hv.
  assert (R : resolves e fd id) by (exists d, tk; auto).
  destruct (select_error e) eqn:S; [intros [H|[]]; discriminate H|].
  destruct (rows_of id (table w)) eqn:Hrows; [|intros [H|[]]; discriminate H].
  intros H.
  assert (K : In (CallUpload p f c)
                 [CallSelect id; CallUpload (filePath e doc) doc (contentTypeOf doc)]
              \/ exists row, In (CallUpload p f c)
                   [CallSelect id; CallUpload (filePath e doc) doc (contentTypeOf doc);
                    CallInsert row]).
  { repeat break_match_in H; cbn [app] in H; eauto. }
  assert (E : f = doc).
  { destruct K as [K|[row K]]; in_calls K; now inversion K. }
  subst f. exists fd, fn, ln, un, pr. conjs; auto.
  right. right. exists id. conjs; auto.
  repeat break_match; cbn [app snd]; now left.
Qed.

Lemma POST_uploads_after_checks_witness :
  exists fd fn ln un pr,
    formData (sample_request (Some sample_file) (Some token_42)) = Some fd
    /\ create_fields fd fn ln un pr sample_file
    /\ (truthy (form_string fd "initData") = None
        \/ truthy (TELEGRAM_BOT_TOKEN (sample_env (Some sample_bot_token) None None))
           = None
        \/ exists id,
             resolves (sample_env (Some sample_bot_token) None None) fd id
             /\ select_error (sample_env (Some sample_bot_token) None None) = None
             /\ rows_of id (table empty_world) = []
             /\ In (CallSelect id)
                   (calls_made
                      (run (POST (sample_env (Some sample_bot_token) None None)
                                 (sample_request (Some sample_file) (Some token_42)))
                           empty_world))).
Proof.
  apply (POST_uploads_after_checks
           (sample_env (Some sample_bot_token) None None)
           (sample_request (Some sample_file) (Some token_42)) empty_world
           sample_path sample_file (lit "application/zip")).
  rewrite sample_create_run. right. left. reflexivity.
Defined.

(** X20.  The statuses of the three handlers.  Create answers with one
    of 200, 400, 401, 409 and 500, Update with one of 200, 400, 401, 404
    and 500, Lookup with 200 or 500; the status is 200 exactly when the
    body is the one of a success, which is [{ok: true}] for Create,
    [{ok: true, docPath}] for Update and [{exists}] or
    [{exists, submission}] for Lookup. *)
Theorem statuses_of_the_handlers e r w :
  (In (status (response_of (run (POST e r) w))) [200; 400; 401; 409; 500]
   /\ (status (response_of (run (POST e r) w)) = 200
       <-> payload (response_of (run (POST e r) w)) = OkTrue))
  /\ (In (status (response_of (run (PUT e r) w))) [200; 400; 401; 404; 500]
      /\ (status (response_of (run (PUT e r) w)) = 200
          <-> exists p, payload (response_of (run (PUT e r) w)) = OkDocPath p))
  /\ (In (status (response_of (run (GET e r) w))) [200; 500]
      /\ (status (response_of (run (GET e r) w)) = 200
          <-> payload (response_of (run (GET e r) w)) = ExistsFalse
              \/ exists found s,
                   payload (response_of (run (GET e r) w)) = ExistsWith found s)).
Proof.
  rewrite POST_cases, PUT_cases, GET_run. unfold response_of. cbv zeta.
  split; [|split].
  - repeat break_match; cbn; (split; [tauto|]); split; intros H;
      try reflexivity; discriminate H.
  - repeat break_match; cbn; (split; [tauto|]); split; intros H;
      try reflexivity; try discriminate H; try (eexists; reflexivity);
      destruct H as [p H]; discriminate H.
  - repeat break_match; cbn; (split; [tauto|]); split; intros H;
      try reflexivity; try discriminate H;
      try (left; reflexivity); try (right; do 2 eexists; reflexivity);
      destruct H as [H|(found' & s' & H)]; discriminate H.
Qed.

(* ================================================================== *)
(** * The comparison of signatures *)
(* ================================================================== *)

Lemma hex_value_lower c : hex_value (hex_lower c) = hex_value c.
Proof.
  unfold hex_lower, is_upper_hex_letter.
  destruct ((0x41 <=? c) && (c <=? 0x46)) eqn:E; [|reflexivity].
  bool_to_prop. unfold hex_value.
  replace ((0x30 <=? c + 0x20) && (c + 0x20 <=? 0x39)) with false
    by (symmetry; apply andb_false_iff; right; apply N.leb_gt; lia).
  replace ((0x61 <=? c + 0x20) && (c + 0x20 <=? 0x66)) with true
    by (symmetry; apply andb_true_iff; split; apply N.leb_le; lia).
  replace ((0x30 <=? c) && (c <=? 0x39)) with false
    by (symmetry; apply andb_false_iff; right; apply N.leb_gt; lia).
  replace ((0x61 <=? c) && (c <=? 0x66)) with false
    by (symmetry; apply andb_false_iff; left; apply N.leb_gt; lia).
  replace ((0x41 <=? c) && (c <=? 0x46)) with true
    by (symmetry; apply andb_true_iff; split; apply N.leb_le; lia).
  f_equal. lia.
Qed.

(** Properties of strings read two characters at a time. *)
Lemma pairs_ind (P : list N -> Prop) :
  P [] -> (forall c, P [c]) ->
  (forall a b s, P s -> P (a :: b :: s)) ->
  forall s : list N, P s.
Proof.
  intros H0 H1 H2.
  assert (K : forall s, P s /\ forall c, P (c :: s)).
  { induction s as [|a s [IH1 IH2]]; split; auto. }
  intros s. apply K.
Qed.

Lemma hex_value_low_lower c :
  hex_value (low_byte (hex_lower c)) = hex_value (low_byte c).
Proof.
  destruct (is_upper_hex_letter c) eqn:E.
  - assert (R : 0x41 <= c <= 0x46)
      by (unfold is_upper_hex_letter in E; bool_to_prop; lia).
    rewrite (low_byte_small c) by lia.
    rewrite low_byte_small; [apply hex_value_lower|].
    unfold hex_lower. rewrite E. lia.
  - unfold hex_lower. now rewrite E.
Qed.

Lemma buffer_from_hex_lower s :
  buffer_from_hex (map hex_lower s) = buffer_from_hex s.
Proof.
  induction s as [|c|a b s IH] using pairs_ind; try reflexivity.
  cbn [map buffer_from_hex]. now rewrite !hex_value_low_lower, IH.
Qed.

Lemma hex_digit_small c : is_hex_digit c = true -> c < 256.
Proof.
  unfold is_hex_digit, is_lower_hex, is_upper_hex_letter.
  intros H. apply orb_true_iff in H. destruct H as [H|H];
    [apply orb_true_iff in H; destruct H as [H|H]|]; bool_to_prop; lia.
Qed.

Lemma hex_digit_value c :
  is_hex_digit c = true ->
  exists v, v < 16 /\ hex_value c = Some v /\ hex_char v = hex_lower c.
Proof.
  unfold is_hex_digit, is_lower_hex, is_upper_hex_letter, hex_lower,
    is_upper_hex_letter, hex_value, hex_char.
  intros H. apply orb_true_iff in H. destruct H as [H|H].
  - apply orb_true_iff in H. destruct H as [H|H].
    + rewrite H. bool_to_prop. exists (c - 0x30).
      replace ((0x41 <=? c) && (c <=? 0x46)) with false
        by (symmetry; apply andb_false_iff; left; apply N.leb_gt; lia).
      replace (c - 0x30 <? 10) with true by (symmetry; apply N.ltb_lt; lia).
      conjs; [lia | reflexivity | lia].
    + rewrite H. bool_to_prop.
      replace ((0x30 <=? c) && (c <=? 0x39)) with false
        by (symmetry; apply andb_false_iff; right; apply N.leb_gt; lia).
      replace ((0x41 <=? c) && (c <=? 0x46)) with false
        by (symmetry; apply andb_false_iff; right; apply N.leb_gt; lia).
      exists (c - 0x61 + 10).
      replace (c - 0x61 + 10 <? 10) with false by (symmetry; apply N.ltb_ge; lia).
      conjs; [lia | reflexivity | lia].
  - rewrite H. bool_to_prop.
    replace ((0x30 <=? c) && (c <=? 0x39)) with false
      by (symmetry; apply andb_false_iff; right; apply N.leb_gt; lia).
    replace ((0x61 <=? c) && (c <=? 0x66)) with false
      by (symmetry; apply andb_false_iff; left; apply N.leb_gt; lia).
    exists (c - 0x41 + 10).
    replace (c - 0x41 + 10 <? 10) with false by (symmetry; apply N.ltb_ge; lia).
    conjs; [lia | reflexivity | lia].
Qed.

(** Decoding an even number of hexadecimal digits and encoding the bytes
    again gives the digits in lowercase. *)
Lemma hex_encode_buffer_from_hex s :
  hex_digits s -> Nat.even (length s) = true ->
  hex_encode (buffer_from_hex s) = map hex_lower s.
Proof.
  induction s as [|c|a b s IH] using pairs_ind; intros H E.
  - reflexivity.
  - discriminate E.
  - inversion H as [|? ? Ha H']. inversion H' as [|? ? Hb Hs]. subst.
    destruct (hex_digit_value a Ha) as (x & Hx & Vx & Cx).
    destruct (hex_digit_value b Hb) as (y & Hy & Vy & Cy).
    cbn [buffer_from_hex].
    rewrite (low_byte_small a (hex_digit_small a Ha)),
            (low_byte_small b (hex_digit_small b Hb)), Vx, Vy.
    cbn [hex_encode flat_map map app].
    fold (hex_encode (buffer_from_hex s)). rewrite (IH Hs E).
    replace ((x * 16 + y) / 16) with x by (apply N.div_unique with y; lia).
    replace ((x * 16 + y) mod 16) with y by (apply N.mod_unique with x; lia).
    now rewrite Cx, Cy.
Qed.

Lemma buffer_from_hex_length s :
  hex_digits s -> Nat.even (length s) = true ->
  (2 * length (buffer_from_hex s) = length s)%nat.
Proof.
  intros H E. rewrite <- hex_encode_length, (hex_encode_buffer_from_hex s H E).
  apply length_map.
Qed.

(** The comparison of the computed signature with any string of
    hexadecimal digits. *)
Lemma hashMatches_hex t c h :
  hex_digits h ->
  hashMatches (computedHash t c) h
  = Return (str_eqb (map hex_lower h) (computedHash t c)).
Proof.
  intros H. unfold hashMatches. rewrite computedHash_length.
  destruct (Nat.eqb 64 (length h)) eqn:L.
  - apply Nat.eqb_eq in L.
    assert (E : Nat.even (length h) = true) by (now rewrite <- L).
    pose proof (buffer_from_hex_length h H E) as Lh.
    unfold timingSafeEqual.
    rewrite computedHash_decoded, hmac_sha256_length.
    replace (Nat.eqb 32 (length (buffer_from_hex h))) with true
      by (symmetry; apply Nat.eqb_eq; lia).
    f_equal.
    destruct (bytes_eqb _ _) eqn:B; symmetry.
    + apply bytes_eqb_eq in B. apply str_eqb_eq.
      rewrite <- (hex_encode_buffer_from_hex h H E), <- B. reflexivity.
    + destruct (str_eqb _ _) eqn:S; [|reflexivity].
      apply str_eqb_eq in S.
      assert (B' : bytes_eqb (hmac_sha256 (webAppSecret t) (utf8_encode c))
                             (buffer_from_hex h) = true).
      { apply bytes_eqb_eq. rewrite <- buffer_from_hex_lower, S.
        symmetry. apply computedHash_decoded. }
      congruence.
  - f_equal. symmetry.
    destruct (str_eqb _ _) eqn:S; [|reflexivity].
    apply str_eqb_eq in S. apply (f_equal (@length _)) in S.
    rewrite length_map, computedHash_length in S.
    apply Nat.eqb_neq in L. exfalso. apply L. symmetry. exact S.
Qed.

(** X21.  The hash of a token is compared with the computed signature as
    hexadecimal digits, whatever the case of its letters: a token whose
    hash is made of hexadecimal digits passes the comparison exactly when
    the hash in lowercase is the computed signature, and then the result is
    what the [user] field gives. *)
Theorem hash_letter_case_is_ignored initData botToken hash :
  get (URLSearchParams initData) (lit "hash") = Some hash ->
  hex_digits hash ->
  validateTelegramInitData initData botToken
  = if str_eqb (map hex_lower hash)
         (computedHash botToken (dataCheckString (URLSearchParams initData)))
    then try_catch (identityOf (URLSearchParams initData)) (fun _ => Invalid)
    else Invalid.
Proof.
  intros G H. unfold validateTelegramInitData.
  rewrite validateBody_unfold, G, (hashMatches_hex _ _ _ H).
  destruct hash as [|c hash].
  - cbn [truthy_str negb map try_catch].
    destruct (computedHash botToken _) eqn:E; [|reflexivity].
    apply (f_equal (@length _)) in E. rewrite computedHash_length in E.
    discriminate E.
  - cbn [truthy_str negb bind].
    destruct (str_eqb _ _); reflexivity.
Qed.

Lemma token_a_b_signature :
  computedHash sample_bot_token (dataCheckString (URLSearchParams token_a_b))
  = lit "a5db7deec1e49e3005470a7ac968360287e99e785f679f406722510d84341f88".
Proof.
  pose proof token_a_b_hash as H.
  assert (G : get (URLSearchParams token_a_b) (lit "hash")
              = Some (lit "a5db7deec1e49e3005470a7ac968360287e99e785f679f406722510d84341f88"))
    by (vm_compute; reflexivity).
  rewrite G in H.
  exact (eq_sym (f_equal (fun o => match o with Some x => x | None => [] end) H)).
Qed.

Lemma hash_letter_case_is_ignored_witness :
  validateTelegramInitData token_a_b_capitals sample_bot_token = ValidNoIdentity.
Proof.
  rewrite (hash_letter_case_is_ignored token_a_b_capitals sample_bot_token
             (lit "A5DB7DEEC1E49E3005470A7AC968360287E99E785F679F406722510D84341F88")).
  - replace (dataCheckString (URLSearchParams token_a_b_capitals))
      with (dataCheckString (URLSearchParams token_a_b))
      by (vm_compute; reflexivity).
    rewrite token_a_b_signature. vm_compute. reflexivity.
  - vm_compute. reflexivity.
  - unfold hex_digits. vm_compute. repeat constructor.
Defined.

(** X22.  A token is valid only with a hash of the length of a SHA-256
    signature in hexadecimal, 64 characters, that passes the comparison;
    for a hash of any other length the verifier returns Invalid without
    comparing, so no exception arises. *)
Theorem valid_needs_hash_of_64 initData botToken :
  (valid (validateTelegramInitData initData botToken) = true ->
   exists hash,
     get (URLSearchParams initData) (lit "hash") = Some hash
     /\ length hash = 64%nat
     /\ hashMatches
          (computedHash botToken (dataCheckString (URLSearchParams initData))) hash
        = Return true)
  /\ (forall hash,
         get (URLSearchParams initData) (lit "hash") = Some hash ->
         length hash <> 64%nat ->
         validateBody initData botToken = Return Invalid
         /\ validateTelegramInitData initData botToken = Invalid).
Proof.
  unfold validateTelegramInitData. rewrite validateBody_unfold. split.
  - destruct (get (URLSearchParams initData) (lit "hash")) as [hash|];
      [|discriminate].
    destruct (negb (truthy_str hash)); [discriminate|].
    destruct (hashMatches _ hash) as [[|]|] eqn:M; try discriminate.
    intros _. exists hash. conjs; auto.
    unfold hashMatches in M. rewrite computedHash_length in M.
    destruct (Nat.eqb 64 (length hash)) eqn:L; [|discriminate M].
    apply Nat.eqb_eq in L. auto.
  - intros hash G L. rewrite G.
    destruct (negb (truthy_str hash)); [auto|].
    unfold hashMatches. rewrite computedHash_length.
    replace (Nat.eqb 64 (length hash)) with false
      by (symmetry; apply Nat.eqb_neq; auto).
    auto.
Qed.

Lemma valid_needs_hash_of_64_witness :
  validateBody token_short_hash sample_bot_token = Return Invalid
  /\ validateTelegramInitData token_short_hash sample_bot_token = Invalid.
Proof.
  apply (proj2 (valid_needs_hash_of_64 token_short_hash sample_bot_token)
           (lit "a5db7dee")).
  - vm_compute. reflexivity.
  - vm_compute. discriminate.
Defined.

(* ================================================================== *)
(** * File names and upload paths *)
(* ================================================================== *)

Lemma name_char_no_separator c : is_name_char c = true -> is_separator c = false.
Proof.
  unfold is_name_char, is_safe_char, is_separator. intros H.
  apply orb_false_iff. split; apply N.eqb_neq; intros ->; discriminate H.
Qed.

Lemma safeFileName_chars name :
  Forall (fun c => is_name_char c = true /\ is_separator c = false)
         (safeFileName name).
Proof.
  unfold safeFileName. apply Forall_map, Forall_forall. intros c _.
  assert (K : is_name_char (if is_safe_char c then c else 0x5F) = true).
  { unfold is_name_char. destruct (is_safe_char c) eqn:E; [now rewrite E|].
    apply orb_true_iff. right. reflexivity. }
  split; [exact K | now apply name_char_no_separator].
Qed.

(** X23.  The sanitized file name has the length of the name, consists
    of the characters [a-z], [A-Z], [0-9], [.], [-] and [_] only, so that it
    holds no path separator, keeps the characters of those that the name
    has, and is left as it is by a second sanitization. *)
Theorem safeFileName_is_safe name :
  length (safeFileName name) = length name
  /\ Forall (fun c => is_name_char c = true /\ is_separator c = false)
            (safeFileName name)
  /\ (forall i c, nth_error name i = Some c -> is_safe_char c = true ->
                  nth_error (safeFileName name) i = Some c)
  /\ (forall i c, nth_error name i = Some c -> is_safe_char c = false ->
                  nth_error (safeFileName name) i = Some 0x5F)
  /\ safeFileName (safeFileName name) = safeFileName name.
Proof.
  split; [apply length_map|]. split; [apply safeFileName_chars|].
  unfold safeFileName. conjs.
  - intros i c H S. refine (eq_trans (map_nth_error _ i name H) _). now rewrite S.
  - intros i c H S. refine (eq_trans (map_nth_error _ i name H) _). now rewrite S.
  - rewrite map_map. apply map_ext. intros c.
    destruct (is_safe_char c) eqn:E; [now rewrite E | reflexivity].
Qed.

Lemma uint_digits_are_digits u :
  Forall (fun c => is_base36 c = true) (uint_digits u).
Proof. induction u; simpl; constructor; auto. Qed.

Lemma base36_is_name_char c : is_base36 c = true -> is_name_char c = true.
Proof.
  unfold is_base36, is_name_char, is_safe_char. intros H.
  apply orb_true_iff in H. destruct H as [H|H]; rewrite H;
    repeat (rewrite ?orb_true_r, ?orb_true_l); reflexivity.
Qed.

(** The part of an upload path after [documents/]. *)
Lemma filePath_name e f :
  Forall (fun c => is_base36 c = true) (random_suffix e) ->
  exists name,
    filePath e f = lit "documents/" ++ name
    /\ Forall (fun c => is_name_char c = true /\ is_separator c = false) name.
Proof.
  intros H. unfold filePath. eexists. split; [reflexivity|].
  assert (K : forall s, Forall (fun c => is_base36 c = true) s ->
                        Forall (fun c => is_name_char c = true
                                         /\ is_separator c = false) s).
  { intros s Hs. eapply Forall_impl; [|exact Hs]. intros c Hc.
    pose proof (base36_is_name_char c Hc) as N.
    split; [exact N | now apply name_char_no_separator]. }
  apply Forall_app. split; [apply K, uint_digits_are_digits|].
  apply Forall_app. split; [repeat constructor|].
  apply Forall_app. split; [now apply K|].
  apply Forall_app. split; [repeat constructor|].
  apply safeFileName_chars.
Qed.

Lemma contentTypeOf_truthy f : truthy_str (contentTypeOf f) = true.
Proof.
  unfold contentTypeOf. destruct (truthy_str (file_type f)) eqn:E; [exact E | reflexivity].
Qed.

(** The upload calls of [POST] and of [PUT]. *)
Lemma POST_upload_call e r w p f c :
  In (CallUpload p f c) (calls_made (run (POST e r) w)) ->
  p = filePath e f /\ c = contentTypeOf f
  /\ exists fd, formData r = Some fd
                /\ form_get fd (lit "document") = Some (FormFile f).
Proof.
  rewrite POST_cases. unfold calls_made. cbv zeta.
  destruct (formData r) as [fd|]; [|intros []].
  destruct (truthy (form_string fd "firstName")) as [fn|]; [|intros []].
  destruct (truthy (form_string fd "lastName")) as [ln|]; [|intros []].
  destruct (truthy (form_string fd "university")) as [un|]; [|intros []].
  destruct (truthy (form_string fd "program")) as [pr|]; [|intros []].
  destruct (form_get fd (lit "document")) as [[s|doc]|] eqn:D; try (intros []).
  intros H. repeat break_match_in H; in_calls H; inversion H; subst;
    conjs; try reflexivity; (eexists; split; [reflexivity | eassumption]).
Qed.

Lemma PUT_upload_call e r w p f c :
  In (CallUpload p f c) (calls_made (run (PUT e r) w)) ->
  p = filePath e f /\ c = contentTypeOf f
  /\ exists fd, formData r = Some fd
                /\ form_get fd (lit "document") = Some (FormFile f).
Proof.
  rewrite PUT_cases. unfold calls_made. cbv zeta.
  destruct (formData r) as [fd|]; [|intros []].
  intros H. repeat break_match_in H; in_calls H; inversion H; subst;
    conjs; try reflexivity; (eexists; split; [reflexivity | eassumption]).
Qed.

(** X24.  Every upload of Create and of Update goes to a path made of
    [documents/] and a name without a path separator, provided the random
    suffix consists of digits in base 36; it sends the document of the form
    and a content type that is not empty. *)
Theorem uploads_stay_in_documents e r w p f c :
  Forall (fun x => is_base36 x = true) (random_suffix e) ->
  In (CallUpload p f c) (calls_made (run (POST e r) w))
  \/ In (CallUpload p f c) (calls_made (run (PUT e r) w)) ->
  (exists name,
      p = lit "documents/" ++ name
      /\ Forall (fun x => is_name_char x = true /\ is_separator x = false) name)
  /\ truthy_str c = true
  /\ exists fd, formData r = Some fd
                /\ form_get fd (lit "document") = Some (FormFile f).
Proof.
  intros S H.
  assert (K : p = filePath e f /\ c = contentTypeOf f
              /\ exists fd, formData r = Some fd
                            /\ form_get fd (lit "document") = Some (FormFile f)).
  { destruct H as [H|H]; [now apply POST_upload_call in H
                         | now apply PUT_upload_call in H]. }
  destruct K as (-> & -> & K).
  split; [now apply filePath_name|]. split; [apply contentTypeOf_truthy | exact K].
Qed.

Lemma uploads_stay_in_documents_witness :
  exists name,
    sample_path = lit "documents/" ++ name
    /\ Forall (fun x => is_name_char x = true /\ is_separator x = false) name.
Proof.
  refine (proj1 (uploads_stay_in_documents
                   (sample_env None None None)
                   (sample_request (Some sample_file) None) empty_world
                   sample_path sample_file (lit "application/zip") _ _)).
  - vm_compute. repeat constructor.
  - left. vm_compute. left. reflexivity.
Defined.

(* ================================================================== *)
(** * The lookup request of the client *)
(* ================================================================== *)

(** Linear arithmetic with division and remainder by constants. *)
Ltac div_lia := zify; Z.to_euclidean_division_equations; lia.

(** ** UTF-8: decoding what was encoded *)

(** A Unicode scalar value. *)
Lemma land_low x k : N.land x (N.ones k) = x mod 2 ^ k.
Proof. apply N.land_ones. Qed.

Lemma utf8_decode_code_point cp bs :
  cp < 0x110000 -> ~ (0xD800 <= cp <= 0xDFFF) ->
  utf8_decode_from None (utf8_of_code_point cp ++ bs)
  = cp :: utf8_decode_from None bs.
Proof.
  intros Hmax Hsur. unfold utf8_of_code_point.
  destruct (cp <? 0x80) eqn:E1; bool_to_prop.
  { cbn [app utf8_decode_from]. unfold utf8_lead.
    replace (cp <=? 0x7F) with true by (symmetry; apply N.leb_le; lia).
    reflexivity. }
  destruct (cp <? 0x800) eqn:E2; bool_to_prop.
  { cbn [app utf8_decode_from]. unfold utf8_lead.
    replace (0xC0 + cp / 0x40 <=? 0x7F) with false
      by (symmetry; apply N.leb_gt; div_lia).
    replace ((0xC2 <=? 0xC0 + cp / 0x40) && (0xC0 + cp / 0x40 <=? 0xDF)) with true
      by (symmetry; apply andb_true_iff; split; apply N.leb_le; div_lia).
    cbn [app u_lower u_upper u_needed u_code_point].
    replace ((0x80 <=? 0x80 + cp mod 0x40) && (0x80 + cp mod 0x40 <=? 0xBF)) with true
      by (symmetry; apply andb_true_iff; split; apply N.leb_le; div_lia).
    f_equal.
    change 0x1F with (N.ones 5). change 0x3F with (N.ones 6).
    rewrite !land_low. change (2 ^ 5) with 32. change (2 ^ 6) with 64. div_lia. }
  destruct (cp <? 0x10000) eqn:E3; bool_to_prop.
  { cbn [app utf8_decode_from]. unfold utf8_lead.
    replace (0xE0 + cp / 0x1000 <=? 0x7F) with false
      by (symmetry; apply N.leb_gt; div_lia).
    replace ((0xC2 <=? 0xE0 + cp / 0x1000) && (0xE0 + cp / 0x1000 <=? 0xDF)) with false
      by (symmetry; apply andb_false_iff; right; apply N.leb_gt; div_lia).
    replace ((0xE0 <=? 0xE0 + cp / 0x1000) && (0xE0 + cp / 0x1000 <=? 0xEF)) with true
      by (symmetry; apply andb_true_iff; split; apply N.leb_le; div_lia).
    cbn [app u_lower u_upper u_needed u_code_point].
    replace (((if 0xE0 + cp / 0x1000 =? 0xE0 then 0xA0 else 0x80)
              <=? 0x80 + (cp / 0x40) mod 0x40)
             && (0x80 + (cp / 0x40) mod 0x40
                 <=? (if 0xE0 + cp / 0x1000 =? 0xED then 0x9F else 0xBF)))
      with true.
    2:{ symmetry. apply andb_true_iff. split; apply N.leb_le.
        - destruct (0xE0 + cp / 0x1000 =? 0xE0) eqn:E; bool_to_prop; div_lia.
        - destruct (0xE0 + cp / 0x1000 =? 0xED) eqn:E; bool_to_prop; div_lia. }
    cbn [utf8_decode_from u_lower u_upper u_needed u_code_point].
    replace ((0x80 <=? 0x80 + cp mod 0x40) && (0x80 + cp mod 0x40 <=? 0xBF)) with true
      by (symmetry; apply andb_true_iff; split; apply N.leb_le; div_lia).
    f_equal.
    change 0xF with (N.ones 4). change 0x3F with (N.ones 6).
    rewrite !land_low. change (2 ^ 4) with 16. change (2 ^ 6) with 64. div_lia. }
  cbn [app utf8_decode_from]. unfold utf8_lead.
  replace (0xF0 + cp / 0x40000 <=? 0x7F) with false
    by (symmetry; apply N.leb_gt; div_lia).
  replace ((0xC2 <=? 0xF0 + cp / 0x40000) && (0xF0 + cp / 0x40000 <=? 0xDF)) with false
    by (symmetry; apply andb_false_iff; right; apply N.leb_gt; div_lia).
  replace ((0xE0 <=? 0xF0 + cp / 0x40000) && (0xF0 + cp / 0x40000 <=? 0xEF)) with false
    by (symmetry; apply andb_false_iff; right; apply N.leb_gt; div_lia).
  replace ((0xF0 <=? 0xF0 + cp / 0x40000) && (0xF0 + cp / 0x40000 <=? 0xF4)) with true
    by (symmetry; apply andb_true_iff; split; apply N.leb_le; div_lia).
  cbn [app u_lower u_upper u_needed u_code_point].
  replace (((if 0xF0 + cp / 0x40000 =? 0xF0 then 0x90 else 0x80)
            <=? 0x80 + (cp / 0x1000) mod 0x40)
           && (0x80 + (cp / 0x1000) mod 0x40
               <=? (if 0xF0 + cp / 0x40000 =? 0xF4 then 0x8F else 0xBF)))
    with true.
  2:{ symmetry. apply andb_true_iff. split; apply N.leb_le.
      - destruct (0xF0 + cp / 0x40000 =? 0xF0) eqn:E; bool_to_prop; div_lia.
      - destruct (0xF0 + cp / 0x40000 =? 0xF4) eqn:E; bool_to_prop; div_lia. }
  cbn [utf8_decode_from u_lower u_upper u_needed u_code_point].
  replace ((0x80 <=? 0x80 + (cp / 0x40) mod 0x40)
           && (0x80 + (cp / 0x40) mod 0x40 <=? 0xBF)) with true
    by (symmetry; apply andb_true_iff; split; apply N.leb_le; div_lia).
  cbn [utf8_decode_from u_lower u_upper u_needed u_code_point].
  replace ((0x80 <=? 0x80 + cp mod 0x40) && (0x80 + cp mod 0x40 <=? 0xBF)) with true
    by (symmetry; apply andb_true_iff; split; apply N.leb_le; div_lia).
  f_equal.
  change 0x7 with (N.ones 3). change 0x3F with (N.ones 6).
  rewrite !land_low. change (2 ^ 3) with 8. change (2 ^ 6) with 64. div_lia.
Qed.

(** Properties of strings read one or two characters at a time. *)
Lemma surrogates_ind (P : list N -> Prop) :
  P [] -> (forall c, P [c]) ->
  (forall c d s, P (d :: s) -> P s -> P (c :: d :: s)) ->
  forall s : list N, P s.
Proof.
  intros H0 H1 H2.
  assert (K : forall s, P s /\ forall c, P (c :: s)).
  { induction s as [|a s [IH1 IH2]]; split; auto. }
  intros s. apply K.
Qed.

Lemma surrogate_pair_scalar c d :
  is_lead_surrogate c = true -> is_trail_surrogate d = true ->
  0x10000 <= 0x10000 + (c - 0xD800) * 0x400 + (d - 0xDC00) < 0x110000
  /\ utf16_of_code_point (0x10000 + (c - 0xD800) * 0x400 + (d - 0xDC00)) = [c; d].
Proof.
  unfold is_lead_surrogate, is_trail_surrogate, utf16_of_code_point.
  intros Hc Hd. bool_to_prop. split; [lia|].
  replace (0x10000 + (c - 0xD800) * 0x400 + (d - 0xDC00) <? 0x10000) with false
    by (symmetry; apply N.ltb_ge; lia).
  f_equal; [|f_equal]; div_lia.
Qed.

Lemma code_points_plain c rest :
  is_lead_surrogate c = false -> is_trail_surrogate c = false ->
  code_points (c :: rest) = c :: code_points rest.
Proof. intros L T. destruct rest; cbn [code_points]; rewrite L, ?T; reflexivity. Qed.

Lemma code_points_pair c d rest :
  is_lead_surrogate c = true -> is_trail_surrogate d = true ->
  code_points (c :: d :: rest)
  = (0x10000 + (c - 0xD800) * 0x400 + (d - 0xDC00)) :: code_points rest.
Proof. intros L T. destruct rest; cbn [code_points]; rewrite L, ?T; reflexivity. Qed.

Lemma isWellFormed_plain c rest :
  is_lead_surrogate c = false ->
  isWellFormed (c :: rest) = negb (is_trail_surrogate c) && isWellFormed rest.
Proof. intros L. destruct rest; cbn [isWellFormed]; rewrite L; reflexivity. Qed.

Lemma isWellFormed_lead c rest :
  is_lead_surrogate c = true ->
  isWellFormed (c :: rest)
  = match rest with
    | d :: rest' => is_trail_surrogate d && isWellFormed rest'
    | [] => false
    end.
Proof. intros L. destruct rest; cbn [isWellFormed]; rewrite L; reflexivity. Qed.

Lemma plain_is_scalar c :
  c < 0x10000 -> is_lead_surrogate c = false -> is_trail_surrogate c = false ->
  c < 0x110000 /\ ~ (0xD800 <= c <= 0xDFFF).
Proof.
  unfold is_lead_surrogate, is_trail_surrogate. intros U L T.
  split; [lia|]. intros [A B]. apply andb_false_iff in L, T.
  destruct L as [L|L], T as [T|T]; bool_to_prop; lia.
Qed.

(** The code points of a well-formed string are scalar values, and give
    the string back. *)
Lemma code_points_well_formed s :
  code_units s -> isWellFormed s = true ->
  Forall (fun cp => cp < 0x110000 /\ ~ (0xD800 <= cp <= 0xDFFF)) (code_points s)
  /\ flat_map utf16_of_code_point (code_points s) = s.
Proof.
  unfold code_units.
  assert (One : forall c rest,
             c < 0x10000 -> is_lead_surrogate c = false ->
             is_trail_surrogate c = false ->
             Forall (fun cp => cp < 0x110000 /\ ~ (0xD800 <= cp <= 0xDFFF))
                    (code_points rest)
             /\ flat_map utf16_of_code_point (code_points rest) = rest ->
             Forall (fun cp => cp < 0x110000 /\ ~ (0xD800 <= cp <= 0xDFFF))
                    (code_points (c :: rest))
             /\ flat_map utf16_of_code_point (code_points (c :: rest)) = c :: rest).
  { intros c rest Hc L T [S R]. rewrite (code_points_plain c rest L T). split.
    - constructor; [now apply plain_is_scalar | exact S].
    - cbn [flat_map]. rewrite R. unfold utf16_of_code_point.
      now replace (c <? 0x10000) with true by (symmetry; apply N.ltb_lt; lia). }
  induction s as [|c|c d s IH1 IH2] using surrogates_ind; intros U.
  - intros _. split; [constructor | reflexivity].
  - inversion U as [|? ? Hc _]. subst.
    destruct (is_lead_surrogate c) eqn:L.
    { rewrite (isWellFormed_lead c [] L). discriminate. }
    rewrite (isWellFormed_plain c [] L).
    destruct (is_trail_surrogate c) eqn:T; [discriminate|]. intros _.
    apply One; auto.
  - inversion U as [|? ? Hc U']. subst.
    destruct (is_lead_surrogate c) eqn:L.
    + rewrite (isWellFormed_lead c (d :: s) L).
      destruct (is_trail_surrogate d) eqn:T; [|discriminate].
      cbn [andb]. intros W.
      destruct (IH2 (Forall_inv_tail U') W) as [S R].
      destruct (surrogate_pair_scalar c d L T) as [B E].
      rewrite (code_points_pair c d s L T). split.
      * constructor; [|exact S]. split; [lia|]. intros [A A']. lia.
      * cbn [flat_map]. rewrite E, R. reflexivity.
    + rewrite (isWellFormed_plain c (d :: s) L).
      destruct (is_trail_surrogate c) eqn:T; [discriminate|].
      cbn [negb andb]. intros W. apply One; auto.
Qed.

Lemma utf8_decode_scalars cps :
  Forall (fun cp => cp < 0x110000 /\ ~ (0xD800 <= cp <= 0xDFFF)) cps ->
  utf8_decode_from None (flat_map utf8_of_code_point cps) = cps.
Proof.
  induction 1 as [|cp cps [H1 H2] _ IH]; [reflexivity|].
  cbn [flat_map]. rewrite utf8_decode_code_point by assumption. now rewrite IH.
Qed.

(** Decoding the UTF-8 form of a well-formed string gives the string. *)
Lemma utf8_decode_encode s :
  code_units s -> isWellFormed s = true -> utf8_decode (utf8_encode s) = s.
Proof.
  intros U W. destruct (code_points_well_formed s U W) as [S R].
  unfold utf8_decode, utf8_encode. now rewrite utf8_decode_scalars.
Qed.

(** ** Escapes: decoding what was escaped *)

Lemma upper_hex_char_value d : d < 16 -> hex_value (upper_hex_char d) = Some d.
Proof.
  intros H. unfold upper_hex_char, hex_value.
  destruct (d <? 10) eqn:E; bool_to_prop.
  - replace ((0x30 <=? 0x30 + d) && (0x30 + d <=? 0x39)) with true
      by (symmetry; apply andb_true_iff; split; apply N.leb_le; lia).
    f_equal. lia.
  - replace ((0x30 <=? 0x41 + (d - 10)) && (0x41 + (d - 10) <=? 0x39)) with false
      by (symmetry; apply andb_false_iff; right; apply N.leb_gt; lia).
    replace ((0x61 <=? 0x41 + (d - 10)) && (0x41 + (d - 10) <=? 0x66)) with false
      by (symmetry; apply andb_false_iff; left; apply N.leb_gt; lia).
    replace ((0x41 <=? 0x41 + (d - 10)) && (0x41 + (d - 10) <=? 0x46)) with true
      by (symmetry; apply andb_true_iff; split; apply N.leb_le; lia).
    f_equal. lia.
Qed.

Lemma upper_hex_char_alphanumeric d : d < 16 -> is_alphanumeric (upper_hex_char d) = true.
Proof.
  intros H. unfold upper_hex_char, is_alphanumeric.
  destruct (d <? 10) eqn:E; bool_to_prop.
  - apply orb_true_iff. right. apply andb_true_iff. split; apply N.leb_le; lia.
  - apply orb_true_iff. left. apply orb_true_iff. right.
    apply andb_true_iff. split; apply N.leb_le; lia.
Qed.

Lemma percent_decode_escape b rest :
  b < 256 -> percent_decode (percent_encode_octet b ++ rest) = b :: percent_decode rest.
Proof.
  intros H. unfold percent_encode_octet. cbn [app percent_decode].
  change (0x25 =? 0x25) with true. cbv iota.
  rewrite !upper_hex_char_value by div_lia.
  f_equal. div_lia.
Qed.

Lemma percent_decode_escapes bs rest :
  octets bs -> percent_decode (percent_encode bs ++ rest) = bs ++ percent_decode rest.
Proof.
  unfold octets, percent_encode. induction 1 as [|b bs Hb _ IH]; [reflexivity|].
  cbn [flat_map]. rewrite <- app_assoc, percent_decode_escape by exact Hb.
  now rewrite IH.
Qed.

Lemma utf8_of_code_point_octets cp : cp < 0x110000 -> octets (utf8_of_code_point cp).
Proof.
  intros H. unfold octets, utf8_of_code_point.
  destruct (cp <? 0x80) eqn:E1; bool_to_prop; [repeat constructor; lia|].
  destruct (cp <? 0x800) eqn:E2; bool_to_prop; [repeat constructor; div_lia|].
  destruct (cp <? 0x10000) eqn:E3; bool_to_prop; repeat constructor; div_lia.
Qed.

(** What the characters of an escaped string are not. *)
Lemma alphanumeric_range c :
  is_alphanumeric c = true -> 0x30 <= c <= 0x7A /\ c <> 0x3D /\ c <> 0x3F /\ c <> 0x3C /\ c <> 0x3E.
Proof. unfold is_alphanumeric. intros H. bool_to_prop; lia. Qed.

Lemma unreserved_cases c :
  is_uri_unreserved c = true ->
  is_alphanumeric c = true
  \/ In c [0x2D; 0x5F; 0x2E; 0x21; 0x7E; 0x2A; 0x27; 0x28; 0x29].
Proof.
  unfold is_uri_unreserved. remember (is_alphanumeric c) as a eqn:A. intros H.
  repeat (apply orb_true_iff in H; destruct H as [H|H]);
    try (left; exact H); right; apply N.eqb_eq in H; subst; simpl; tauto.
Qed.

Lemma escaped_char_range c :
  is_escaped_char c = true ->
  0x20 < c < 0x7F /\ c <> 0x23 /\ c <> 0x26 /\ c <> 0x2B /\ c <> 0x3D /\ c <> 0x3F.
Proof.
  unfold is_escaped_char. intros H. apply orb_true_iff in H. destruct H as [H|H].
  - apply unreserved_cases in H. destruct H as [H|H].
    + apply alphanumeric_range in H. lia.
    + simpl in H.
      repeat (destruct H as [H|H]; [subst; lia|]). contradiction.
  - apply N.eqb_eq in H. subst. lia.
Qed.

Lemma unreserved_not_surrogate c :
  is_uri_unreserved c = true ->
  c < 0x80 /\ is_lead_surrogate c = false /\ is_trail_surrogate c = false.
Proof.
  intros H.
  assert (E : is_escaped_char c = true)
    by (unfold is_escaped_char; now rewrite H).
  apply escaped_char_range in E. unfold is_lead_surrogate, is_trail_surrogate.
  conjs; [lia | |]; apply andb_false_iff; left; apply N.leb_gt; lia.
Qed.

(** The query state escapes the single quote and nothing else of an
    escaped string; decoding undoes it. *)
Lemma percent_decode_query_char c rest :
  is_uri_unreserved c = true ->
  percent_decode
    ((if in_special_query_set c then percent_encode (utf8_of_code_point c) else [c])
     ++ rest)
  = c :: percent_decode rest.
Proof.
  intros H. pose proof (unreserved_not_surrogate c H) as (A & _ & _).
  assert (E : is_escaped_char c = true)
    by (unfold is_escaped_char; now rewrite H).
  apply escaped_char_range in E.
  assert (U : utf8_of_code_point c = [c]).
  { unfold utf8_of_code_point.
    now replace (c <? 0x80) with true by (symmetry; apply N.ltb_lt; lia). }
  destruct (in_special_query_set c).
  - rewrite U. unfold percent_encode. cbn [flat_map]. rewrite app_nil_r.
    apply percent_decode_escape. lia.
  - cbn [app percent_decode].
    apply unreserved_cases in H.
    replace (c =? 0x25) with false; [reflexivity|].
    symmetry. apply N.eqb_neq. destruct H as [H|H].
    + apply alphanumeric_range in H. lia.
    + simpl in H. repeat (destruct H as [H|H]; [subst; discriminate|]). contradiction.
Qed.

Lemma query_keeps_escapes bs :
  octets bs -> query_escape (percent_encode bs) = percent_encode bs.
Proof.
  unfold octets, percent_encode, query_escape. induction 1 as [|b bs Hb _ IH]; [reflexivity|].
  cbn [flat_map]. rewrite flat_map_app, IH. f_equal.
  unfold percent_encode_octet. cbn [flat_map].
  assert (K : forall d, d < 16 -> in_special_query_set (upper_hex_char d) = false).
  { intros d Hd. pose proof (upper_hex_char_alphanumeric d Hd) as A.
    apply alphanumeric_range in A. unfold in_special_query_set.
    repeat (apply orb_false_iff; split);
      first [apply N.leb_gt; lia | apply N.ltb_ge; lia | apply N.eqb_neq; lia]. }
  rewrite !K by div_lia. reflexivity.
Qed.

(** ** [encodeURIComponent] *)

Lemma encodeURIComponent_unreserved c rest :
  is_uri_unreserved c = true ->
  encodeURIComponent (c :: rest) = option_map (cons c) (encodeURIComponent rest).
Proof. intros H. destruct rest; cbn [encodeURIComponent]; rewrite H; reflexivity. Qed.

Lemma encodeURIComponent_plain c rest :
  is_uri_unreserved c = false -> is_lead_surrogate c = false ->
  encodeURIComponent (c :: rest)
  = if is_trail_surrogate c then None
    else option_map (app (percent_encode (utf8_of_code_point c)))
                    (encodeURIComponent rest).
Proof.
  intros H L. destruct rest; cbn [encodeURIComponent]; rewrite H, L; reflexivity.
Qed.

Lemma encodeURIComponent_lead c rest :
  is_uri_unreserved c = false -> is_lead_surrogate c = true ->
  encodeURIComponent (c :: rest)
  = match rest with
    | d :: rest' =>
        if is_trail_surrogate d then
          option_map
            (app (percent_encode
                    (utf8_of_code_point
                       (0x10000 + (c - 0xD800) * 0x400 + (d - 0xDC00)))))
            (encodeURIComponent rest')
        else None
    | [] => None
    end.
Proof.
  intros H L. destruct rest; cbn [encodeURIComponent]; rewrite H, L; reflexivity.
Qed.

Lemma query_escape_cons c rest :
  query_escape (c :: rest)
  = (if in_special_query_set c then percent_encode (utf8_of_code_point c) else [c])
    ++ query_escape rest.
Proof. reflexivity. Qed.

Lemma query_escape_app a b : query_escape (a ++ b) = query_escape a ++ query_escape b.
Proof. apply flat_map_app. Qed.

Lemma escape_chars bs : octets bs -> Forall (fun c => is_escaped_char c = true) (percent_encode bs).
Proof.
  unfold octets, percent_encode. induction 1 as [|b bs Hb _ IH]; [constructor|].
  cbn [flat_map]. apply Forall_app. split; [|exact IH].
  unfold percent_encode_octet, is_escaped_char, is_uri_unreserved.
  repeat constructor;
    rewrite upper_hex_char_alphanumeric by div_lia; reflexivity.
Qed.

(** What [encodeURIComponent] returns: escaped characters that decode,
    also after the query state has escaped the single quotes, to the UTF-8
    form of the string; and it returns exactly for the well-formed
    strings. *)
Lemma encodeURIComponent_decodes s :
  code_units s ->
  match encodeURIComponent s with
  | Some enc =>
      isWellFormed s = true
      /\ Forall (fun c => is_escaped_char c = true) enc
      /\ percent_decode (query_escape enc) = utf8_encode s
  | None => isWellFormed s = false
  end.
Proof.
  unfold code_units.
  assert (One : forall c rest,
             c < 0x10000 ->
             match encodeURIComponent rest with
             | Some enc =>
                 isWellFormed rest = true
                 /\ Forall (fun c => is_escaped_char c = true) enc
                 /\ percent_decode (query_escape enc) = utf8_encode rest
             | None => isWellFormed rest = false
             end ->
             is_lead_surrogate c = false ->
             match encodeURIComponent (c :: rest) with
             | Some enc =>
                 isWellFormed (c :: rest) = true
                 /\ Forall (fun c => is_escaped_char c = true) enc
                 /\ percent_decode (query_escape enc) = utf8_encode (c :: rest)
             | None => isWellFormed (c :: rest) = false
             end).
  { intros c rest Hc IH L. rewrite (isWellFormed_plain c rest L).
    destruct (is_uri_unreserved c) eqn:U.
    - destruct (unreserved_not_surrogate c U) as (A & _ & T).
      rewrite (encodeURIComponent_unreserved c rest U), T.
      destruct (encodeURIComponent rest) as [enc|]; cbn [option_map negb andb];
        [|exact IH].
      destruct IH as (W & E & D). conjs; [exact W | |].
      + constructor; [|exact E]. unfold is_escaped_char. now rewrite U.
      + rewrite query_escape_cons, (percent_decode_query_char c _ U), D.
        unfold utf8_encode. rewrite (code_points_plain c rest L T).
        cbn [flat_map]. unfold utf8_of_code_point at 2.
        now replace (c <? 0x80) with true by (symmetry; apply N.ltb_lt; lia).
    - rewrite (encodeURIComponent_plain c rest U L).
      destruct (is_trail_surrogate c) eqn:T; [reflexivity|].
      destruct (encodeURIComponent rest) as [enc|]; cbn [option_map negb andb];
        [|exact IH].
      destruct IH as (W & E & D).
      assert (O : octets (utf8_of_code_point c))
        by (apply utf8_of_code_point_octets; lia).
      conjs; [exact W | |].
      + apply Forall_app. split; [now apply escape_chars | exact E].
      + rewrite query_escape_app, (query_keeps_escapes _ O),
          (percent_decode_escapes _ _ O), D.
        unfold utf8_encode. now rewrite (code_points_plain c rest L T). }
  induction s as [|c|c d s IH1 IH2] using surrogates_ind; intros H.
  - cbn. conjs; auto.
  - inversion H as [|? ? Hc _]. subst.
    destruct (is_lead_surrogate c) eqn:L.
    + assert (U : is_uri_unreserved c = false).
      { destruct (is_uri_unreserved c) eqn:U; [|reflexivity].
        destruct (unreserved_not_surrogate c U) as (_ & L' & _). congruence. }
      rewrite (encodeURIComponent_lead c [] U L), (isWellFormed_lead c [] L).
      reflexivity.
    + apply One; auto. cbn. conjs; auto.
  - inversion H as [|? ? Hc H']. subst.
    destruct (is_lead_surrogate c) eqn:L.
    + assert (U : is_uri_unreserved c = false).
      { destruct (is_uri_unreserved c) eqn:U; [|reflexivity].
        destruct (unreserved_not_surrogate c U) as (_ & L' & _). congruence. }
      rewrite (encodeURIComponent_lead c (d :: s) U L),
        (isWellFormed_lead c (d :: s) L).
      destruct (is_trail_surrogate d) eqn:T; [|reflexivity].
      specialize (IH2 (Forall_inv_tail H')).
      destruct (encodeURIComponent s) as [enc|]; cbn [option_map andb];
        [|exact IH2].
      destruct IH2 as (W & E & D).
      destruct (surrogate_pair_scalar c d L T) as [B _].
      assert (O : octets (utf8_of_code_point
                            (0x10000 + (c - 0xD800) * 0x400 + (d - 0xDC00))))
        by (apply utf8_of_code_point_octets; lia).
      conjs; [exact W | |].
      * apply Forall_app. split; [now apply escape_chars | exact E].
      * rewrite query_escape_app, (query_keeps_escapes _ O),
          (percent_decode_escapes _ _ O), D.
        unfold utf8_encode. now rewrite (code_points_pair c d s L T).
    + apply One; [exact Hc | exact (IH1 H') | exact L].
Qed.

(** ** The query of the lookup URL *)

Lemma filter_all (f : N -> bool) s :
  Forall (fun c => f c = true) s -> filter f s = s.
Proof. induction 1 as [|c s Hc _ IH]; simpl; [|rewrite Hc, IH]; reflexivity. Qed.

Lemma drop_while_head p s :
  match s with c :: _ => p c = false | [] => True end -> drop_while p s = s.
Proof. destruct s as [|c s]; [reflexivity|]. simpl. now intros ->. Qed.

Lemma url_input_visible s : Forall (fun c => 0x20 < c) s -> url_input s = s.
Proof.
  intros H. unfold url_input, jsstring, code_unit in *.
  assert (D : forall t : list N, Forall (fun c => 0x20 < c) t ->
                        drop_while is_c0_or_space t = t).
  { intros t Ht. apply drop_while_head. destruct Ht as [|c t Hc _]; [exact I|].
    unfold is_c0_or_space. apply N.leb_gt. exact Hc. }
  rewrite (D s H), (D (rev s)) by (apply Forall_rev; exact H).
  rewrite rev_involutive. apply filter_all.
  eapply Forall_impl; [|exact H]. intros c Hc. cbv beta in Hc.
  unfold is_tab_or_newline. apply negb_true_iff.
  repeat (apply orb_false_iff; split); apply N.eqb_neq; lia.
Qed.

Lemma before_absent sep s : Forall (fun c => c <> sep) s -> before sep s = s.
Proof.
  induction 1 as [|c s Hc _ IH]; [reflexivity|].
  cbn [before]. apply N.eqb_neq in Hc. now rewrite Hc, IH.
Qed.

Lemma after_found sep a b :
  Forall (fun c => c <> sep) a -> after sep (a ++ sep :: b) = Some b.
Proof.
  induction 1 as [|c s Hc _ IH]; cbn [app after].
  - now rewrite N.eqb_refl.
  - apply N.eqb_neq in Hc. now rewrite Hc.
Qed.

Lemma origin_char_range c :
  is_origin_char c = true -> 0x20 < c < 0x7F /\ c <> 0x3F /\ c <> 0x23.
Proof.
  unfold is_origin_char. intros H.
  repeat (apply andb_true_iff in H; destruct H as [H ?]).
  repeat match goal with
         | K : negb _ = true |- _ => apply negb_true_iff in K
         end.
  bool_to_prop. lia.
Qed.

Lemma query_escape_chars enc :
  Forall (fun c => is_escaped_char c = true) enc ->
  Forall (fun c => is_escaped_char c = true) (query_escape enc).
Proof.
  induction 1 as [|c enc Hc _ IH]; [constructor|].
  rewrite query_escape_cons. apply Forall_app. split; [|exact IH].
  destruct (in_special_query_set c); [|now constructor].
  apply escape_chars, utf8_of_code_point_octets.
  apply escaped_char_range in Hc. lia.
Qed.

(** The query of the lookup URL as the handler finds it. *)
Lemma lookup_query origin enc :
  Forall (fun c => is_origin_char c = true) origin ->
  Forall (fun c => is_escaped_char c = true) enc ->
  url_query (origin ++ lit "/api/document-submissions?initData=" ++ enc)
  = Some (lit "initData=" ++ enc).
Proof.
  intros Ho He. unfold url_query.
  assert (L : lit "/api/document-submissions?initData="
              = lit "/api/document-submissions" ++ 0x3F :: lit "initData=")
    by reflexivity.
  assert (V1 : Forall (fun c => 0x20 < c < 0x7F /\ c <> 0x3F /\ c <> 0x23)
                      (origin ++ lit "/api/document-submissions")).
  { apply Forall_app. split.
    - eapply Forall_impl; [|exact Ho]. intros c. apply origin_char_range.
    - vm_compute. repeat constructor; try lia; discriminate. }
  assert (V2 : Forall (fun c => 0x20 < c < 0x7F /\ c <> 0x23)
                      (lit "initData=" ++ enc)).
  { apply Forall_app. split.
    - vm_compute. repeat constructor; try lia; discriminate.
    - eapply Forall_impl; [|exact He]. intros c Hc.
      apply escaped_char_range in Hc. lia. }
  rewrite L, <- app_assoc. cbn [app]. rewrite app_assoc.
  rewrite url_input_visible, before_absent.
  - apply after_found. eapply Forall_impl; [|exact V1]. cbn beta. intros c Hc. lia.
  - apply Forall_app. split; [|constructor; [discriminate|]].
    + eapply Forall_impl; [|exact V1]. cbn beta. intros c Hc. lia.
    + eapply Forall_impl; [|exact V2]. cbn beta. intros c Hc. lia.
  - apply Forall_app. split; [|constructor; [lia|]].
    + eapply Forall_impl; [|exact V1]. cbn beta. intros c Hc. lia.
    + eapply Forall_impl; [|exact V2]. cbn beta. intros c Hc. lia.
Qed.

(** The parameters of the query [initData=] followed by an escaped
    string. *)
Lemma lookup_parameters s enc :
  code_units s -> isWellFormed s = true ->
  Forall (fun c => is_escaped_char c = true) enc ->
  percent_decode (query_escape enc) = utf8_encode s ->
  parse_urlencoded (url_query_encode (lit "initData=" ++ enc))
  = [(lit "initData", s)].
Proof.
  intros U W He D.
  assert (A : Forall (fun c => c < 0x80) (lit "initData=" ++ enc)).
  { apply Forall_app. split.
    - vm_compute. repeat constructor.
    - eapply Forall_impl; [|exact He]. intros c Hc.
      apply escaped_char_range in Hc. lia. }
  unfold url_query_encode. rewrite (code_points_ascii _ A), query_escape_app.
  change (query_escape (lit "initData="))
    with [0x69; 0x6E; 0x69; 0x74; 0x44; 0x61; 0x74; 0x61; 0x3D].
  pose proof (query_escape_chars enc He) as Q.
  set (qe := query_escape enc) in *.
  assert (R : Forall (fun c => c <> 0x26 /\ c <> 0x2B) qe).
  { eapply Forall_impl; [|exact Q]. intros c Hc.
    apply escaped_char_range in Hc. lia. }
  unfold parse_urlencoded. rewrite split_on_plain.
  2:{ cbn [app]. repeat (constructor; [discriminate|]).
      eapply Forall_impl; [|exact R]. cbn beta. intros c Hc. tauto. }
  cbn [app filter is_empty negb map name_bytes value_bytes N.eqb Pos.eqb].
  f_equal. f_equal.
  unfold form_decode. rewrite plus_to_space_plain.
  - rewrite D. now apply utf8_decode_encode.
  - eapply Forall_impl; [|exact R]. cbn beta. intros c Hc. tauto.
Qed.

(** X25.  The token comes back from the lookup request.  For a token
    that is a well-formed string, the client builds the URL with
    [encodeURIComponent] and the handler reads exactly that token from the
    query of the URL, whatever the origin of the page (visible characters
    without [?] and [#], of a URL that parses) and the characters of the
    token, and looks up with it; for a token with a lone surrogate
    [encodeURIComponent] throws and no request is made. *)
Theorem lookup_url_round_trip origin initData header :
  Forall (fun c => is_origin_char c = true) origin ->
  code_units initData ->
  match lookupUrl initData with
  | None => isWellFormed initData = false
  | Some path =>
      isWellFormed initData = true
      /\ searchParams (origin ++ path) = [(lit "initData", initData)]
      /\ (initData <> [] ->
          getInitDataFromRequest (request_of_url (origin ++ path) header)
          = Some initData
          /\ forall e w,
               run (GET e (request_of_url (origin ++ path) header)) w
               = run (GET e (lookup_request (Some initData))) w)
  end.
Proof.
  intros Ho U. unfold lookupUrl.
  pose proof (encodeURIComponent_decodes initData U) as H.
  destruct (encodeURIComponent initData) as [enc|]; cbn [option_map]; [|exact H].
  destruct H as (W & He & D).
  assert (S : searchParams (origin ++ lit "/api/document-submissions?initData=" ++ enc)
              = [(lit "initData", initData)]).
  { unfold searchParams. rewrite (lookup_query origin enc Ho He).
    now apply lookup_parameters. }
  conjs; [exact W | exact S |]. intros NE.
  assert (G : getInitDataFromRequest
                (request_of_url
                   (origin ++ lit "/api/document-submissions?initData=" ++ enc) header)
              = Some initData).
  { unfold getInitDataFromRequest, request_of_url.
    cbn [query_initData header_x_telegram_init]. rewrite S.
    change (get [(lit "initData", initData)] (lit "initData")) with (Some initData).
    destruct initData as [|c s]; [now destruct NE|]. reflexivity. }
  split; [exact G|]. intros e w. rewrite !GET_run, G.
  replace (getInitDataFromRequest (lookup_request (Some initData)))
    with (Some initData); [reflexivity|].
  destruct initData as [|c s]; [now destruct NE|]. reflexivity.
Qed.

Lemma Forall_forallb (f : N -> bool) (s : list N) :
  forallb f s = true -> Forall (fun c => f c = true) s.
Proof. intros H. apply Forall_forall. now apply forallb_forall. Qed.

Lemma code_units_check s : forallb (fun c => c <? 0x10000) s = true -> code_units s.
Proof.
  intros H. apply Forall_forallb in H. unfold code_units.
  eapply Forall_impl; [|exact H]. intros c Hc. now apply N.ltb_lt.
Qed.

Lemma lookup_url_round_trip_witness :
  exists path,
    lookupUrl token_42 = Some path
    /\ getInitDataFromRequest
         (request_of_url (lit "https://shartnoma.example" ++ path) None)
       = Some token_42.
Proof.
  assert (O : Forall (fun c => is_origin_char c = true)
                     (lit "https://shartnoma.example"))
    by (apply Forall_forallb; vm_compute; reflexivity).
  assert (U : code_units token_42)
    by (apply code_units_check; vm_compute; reflexivity).
  pose proof (lookup_url_round_trip (lit "https://shartnoma.example") token_42 None
                O U) as H.
  destruct (lookupUrl token_42) as [path|] eqn:E.
  - exists path. split; [reflexivity|]. apply H. discriminate.
  - exfalso.
    assert (W : isWellFormed token_42 = true) by (vm_compute; reflexivity).
    rewrite H in W. discriminate.
Defined.

(* ================================================================== *)
(** * The steps of the form *)
(* ================================================================== *)

Lemma click_step_range step c :
  (0 <= step <= 2)%Z ->
  (0 <= click_step step c <= 2)%Z
  /\ (step - 1 <= click_step step c <= step + 1)%Z.
Proof.
  intros H. destruct c as [trigger rendered|]; cbn [click_step].
  - unfold nextStep. cbv zeta.
    destruct (if (rendered =? 0)%Z then _ else _); lia.
  - unfold prevStep. lia.
Qed.

Lemma fold_click_range clicks step :
  (0 <= step <= 2)%Z -> (0 <= fold_left click_step clicks step <= 2)%Z.
Proof.
  revert step. induction clicks as [|c clicks IH]; intros step H; [exact H|].
  cbn [fold_left]. apply IH. now apply click_step_range.
Qed.

(** X26.  The step of the form never leaves 0, 1 and 2: after any
    sequence of clicks on the two buttons, also clicks whose handler was
    rendered for an earlier step, the step is one of the three and a click
    moves it by one at most; a click on the forward button moves it only
    when the fields of its step are valid, and never when it was rendered
    for the last step. *)
Theorem step_stays_in_range clicks :
  (0 <= step_after clicks <= 2)%Z
  /\ (forall c, (0 <= click_step (step_after clicks) c <= 2)%Z
                /\ (step_after clicks - 1 <= click_step (step_after clicks) c
                    <= step_after clicks + 1)%Z)
  /\ (forall trigger step,
         (forall fields, trigger fields = false) ->
         nextStep trigger step (step_after clicks) = step_after clicks)
  /\ (forall trigger, nextStep trigger 2 (step_after clicks) = step_after clicks).
Proof.
  assert (R : (0 <= step_after clicks <= 2)%Z)
    by (apply fold_click_range; lia).
  split; [exact R|]. split; [|split].
  - intros c. now apply click_step_range.
  - intros trigger step H. unfold nextStep. cbv zeta. rewrite !H.
    now destruct (step =? 0)%Z, (step =? 1)%Z.
  - intros trigger. reflexivity.
Qed.

Lemma segments_after currentStep j n :
  (currentStep < Z.of_nat j)%Z ->
  map (fun i => segment_class currentStep (Z.of_nat i)) (seq j n)
  = repeat "bg-muted"%string n.
Proof.
  revert j. induction n as [|n IH]; intros j H; [reflexivity|].
  cbn [seq map repeat]. rewrite IH by lia. f_equal. unfold segment_class.
  replace (Z.of_nat j <? currentStep)%Z with false
    by (symmetry; apply Z.ltb_ge; lia).
  now replace (Z.of_nat j =? currentStep)%Z with false
    by (symmetry; apply Z.eqb_neq; lia).
Qed.

Lemma segments_from currentStep k n :
  (Z.of_nat k <= currentStep < Z.of_nat (k + n))%Z ->
  map (fun i => segment_class currentStep (Z.of_nat i)) (seq k n)
  = repeat "bg-primary"%string (Z.to_nat currentStep - k)
    ++ ["bg-primary/50"%string]
    ++ repeat "bg-muted"%string (k + n - Z.to_nat currentStep - 1).
Proof.
  revert k. induction n as [|n IH]; intros k H; [lia|].
  cbn [seq map]. unfold segment_class at 1.
  destruct (Z.of_nat k <? currentStep)%Z eqn:L.
  - apply Z.ltb_lt in L. rewrite IH by lia.
    replace (Z.to_nat currentStep - k)%nat with (S (Z.to_nat currentStep - S k)) by lia.
    replace (S k + n)%nat with (k + S n)%nat by lia. reflexivity.
  - apply Z.ltb_ge in L.
    assert (E : currentStep = Z.of_nat k) by lia.
    rewrite E, Z.eqb_refl, Nat2Z.id, Nat.sub_diag. cbn [repeat app]. f_equal.
    replace (k + S n - k - 1)%nat with n by lia.
    apply segments_after. lia.
Qed.

(** X27.  The indicator shows one segment for each step: those before
    the current step are marked as done, exactly one as current, those
    after it as to come.  For the form, which has three steps, this holds
    after any sequence of clicks. *)
Theorem StepIndicator_marks_one_current currentStep totalSteps :
  (0 <= currentStep < totalSteps)%Z ->
  StepIndicator currentStep totalSteps
  = repeat "bg-primary"%string (Z.to_nat currentStep)
    ++ ["bg-primary/50"%string]
    ++ repeat "bg-muted"%string (Z.to_nat (totalSteps - currentStep - 1))
  /\ length (StepIndicator currentStep totalSteps) = Z.to_nat totalSteps
  /\ forall clicks,
       exists done to_come,
         StepIndicator (step_after clicks) 3
         = repeat "bg-primary"%string done ++ ["bg-primary/50"%string]
           ++ repeat "bg-muted"%string to_come
         /\ (done + to_come = 2)%nat.
Proof.
  intros H.
  assert (G : forall cs n, (0 <= cs < n)%Z ->
              StepIndicator cs n
              = repeat "bg-primary"%string (Z.to_nat cs)
                ++ ["bg-primary/50"%string]
                ++ repeat "bg-muted"%string (Z.to_nat (n - cs - 1))).
  { intros cs n K. unfold StepIndicator. rewrite segments_from by (cbn; lia).
    rewrite Nat.sub_0_r. do 3 f_equal. lia. }
  conjs.
  - now apply G.
  - unfold StepIndicator. now rewrite length_map, length_seq.
  - intros clicks.
    assert (R : (0 <= step_after clicks <= 2)%Z) by (apply fold_click_range; lia).
    exists (Z.to_nat (step_after clicks)), (Z.to_nat (3 - step_after clicks - 1)).
    split; [apply G; lia | lia].
Qed.

Lemma StepIndicator_marks_one_current_witness :
  StepIndicator 1 3 = ["bg-primary"; "bg-primary/50"; "bg-muted"]%string.
Proof.
  refine (proj1 (StepIndicator_marks_one_current 1 3 _)). lia.
Defined.
